(** * OAuth utilities of the social-suit frontend (frontend/lib/oauth.ts)

    A shallow embedding of the session state manager, the authorization URL
    builder, the flow manager and the error handler, together with the
    properties of the specification that concern them.

    JavaScript strings are modelled as [string] (read as UTF-8 byte strings),
    [sessionStorage] and [process.env] as finite maps from strings to strings,
    and a thrown exception as the [Throw] outcome of a computation: the world
    reached when the exception is raised is kept, since nothing is rolled
    back.  An object literal used as a lookup table is read with [getProperty]:
    its own properties first, then the names every object inherits from
    [Object.prototype].  What the sources leave open (the members of the
    [Platform] enum and the text of built-in objects) is a parameter, the
    record [Runtime]. *)

From Stdlib Require Import Ascii.
From Stdlib Require String.
From stdpp Require Import gmap strings list fin_maps.

(* ====================================================================== *)
(** * The JavaScript environment *)
(* ====================================================================== *)

(** The part of [window] the module touches. *)
Record Browser := mkBrowser {
  origin : string;                      (* window.location.origin *)
  sessionStorage : gmap string string;  (* window.sessionStorage *)
  href : string;                        (* window.location.href *)
}.

(** [window = None] is the server-side rendering context, where
    [typeof window === 'undefined'].  [random n] is the text of the [n]-th
    [Math.random().toString(36)] of the run and [drawn] counts the draws made
    so far. *)
Record World := mkWorld {
  window : option Browser;
  env : gmap string string;             (* process.env *)
  random : nat -> string;
  drawn : nat;
}.

(** The message of a [TypeError] depends on the engine and is left out. *)
Inductive Exn :=
| Error (message : string)
| ReferenceError (name : string)
| TypeError.

Inductive Completion (A : Type) :=
| Normal (a : A)
| Throw (e : Exn).
Arguments Normal {A} a.
Arguments Throw {A} e.

Definition JS (A : Type) : Type := World -> Completion A * World.

Definition ret {A} (a : A) : JS A := fun w => (Normal a, w).

Definition bind {A B} (m : JS A) (k : A -> JS B) : JS B :=
  fun w => match m w with
           | (Normal a, w') => k a w'
           | (Throw e, w') => (Throw e, w')
           end.

Definition throw {A} (e : Exn) : JS A := fun w => (Throw e, w).

Notation "'let*' x := m 'in' k" := (bind m (fun x => k))
  (at level 10, x name, m at level 100, k at level 200).
Notation "m ;;; k" := (bind m (fun _ => k))
  (at level 100, k at level 200, right associativity).

(** JavaScript truthiness of a string and of an optional string
    ([undefined] and [null] are both [None]). *)
Definition truthy (s : string) : bool := negb (String.eqb s "").

Definition truthy_opt (o : option string) : bool :=
  match o with
  | Some s => truthy s
  | None => false
  end.

(** [typeof window === 'undefined'] *)
Definition windowUndefined : JS bool :=
  fun w => (Normal (bool_decide (window w = None)), w).

Definition setStorage (f : gmap string string -> gmap string string)
    (b : Browser) : Browser :=
  mkBrowser (origin b) (f (sessionStorage b)) (href b).

Definition setWindow (b : Browser) (w : World) : World :=
  mkWorld (Some b) (env w) (random w) (drawn w).

(** The [sessionStorage] global exists only in a browser. *)
Definition withStorage {A} (f : gmap string string -> A * gmap string string)
    : JS A :=
  fun w => match window w with
           | Some b =>
               let (a, st) := f (sessionStorage b) in
               (Normal a, setWindow (setStorage (fun _ => st) b) w)
           | None => (Throw (ReferenceError "sessionStorage"), w)
           end.

Definition getItem (k : string) : JS (option string) :=
  withStorage (fun st => (st !! k, st)).

Definition setItem (k v : string) : JS unit :=
  withStorage (fun st => (tt, <[k := v]> st)).

Definition removeItem (k : string) : JS unit :=
  withStorage (fun st => (tt, delete k st)).

(* ====================================================================== *)
(** * OAuth state management: [OAuthStateManager] *)
(* ====================================================================== *)

(** At run time a [Platform] is the string value of the enum member. *)
Definition Platform : Type := string.

Module OAuthStateManager.

Definition STATE_KEY : string := "oauth_state".
Definition PLATFORM_KEY : string := "oauth_platform".
Definition REDIRECT_KEY : string := "oauth_redirect".

(** The result of [validateState]; an absent field and a [null] one are
    both [None]. *)
Record Validation := mkValidation {
  isValid : bool;
  platform : option Platform;
  redirectTo : option string;
}.

Definition saveState (platform : Platform) (state : string)
    (redirectTo : option string) : JS unit :=
  let* undef := windowUndefined in
  if undef then ret tt else
  setItem STATE_KEY state ;;;
  setItem PLATFORM_KEY platform ;;;
  match redirectTo with
  | Some r => if truthy r then setItem REDIRECT_KEY r else ret tt
  | None => ret tt
  end.

Definition clearState : JS unit :=
  let* undef := windowUndefined in
  if undef then ret tt else
  removeItem STATE_KEY ;;;
  removeItem PLATFORM_KEY ;;;
  removeItem REDIRECT_KEY.

Definition validateState (receivedState : string) : JS Validation :=
  let* undef := windowUndefined in
  if undef then ret (mkValidation false None None) else
  let* savedState := getItem STATE_KEY in
  let* platform := getItem PLATFORM_KEY in
  let* redirectTo := getItem REDIRECT_KEY in
  let isValid := bool_decide (savedState = Some receivedState) in
  (if isValid then clearState else ret tt) ;;;
  ret (mkValidation isValid platform redirectTo).

End OAuthStateManager.

(* ====================================================================== *)
(** * OAuth configuration *)
(* ====================================================================== *)

(** The names every object literal inherits from [Object.prototype].  The
    value found under each of them is a built-in function or, for
    [__proto__], the prototype object itself: none is a string or a number,
    and all are truthy. *)
Definition objectPrototypeNames : list string :=
  ["constructor"; "__defineGetter__"; "__defineSetter__"; "hasOwnProperty";
   "__lookupGetter__"; "__lookupSetter__"; "isPrototypeOf";
   "propertyIsEnumerable"; "toString"; "valueOf"; "__proto__";
   "toLocaleString"].

(** What [obj[key]] finds in an object literal: an own property, a value
    inherited under [name], or nothing ([undefined]). *)
Inductive Property (V : Type) :=
| Own (v : V)
| Inherited (name : string)
| Missing.
Arguments Own {V} v.
Arguments Inherited {V} name.
Arguments Missing {V}.

Definition getProperty {V} (obj : gmap string V) (key : string) : Property V :=
  match obj !! key with
  | Some v => Own v
  | None =>
      if bool_decide (key ∈ objectPrototypeNames) then Inherited key
      else Missing
  end.

(** The own properties of an object literal with computed keys: a later
    entry replaces an earlier one with the same key. *)
Definition objectLiteral {V} (entries : list (string * V)) : gmap string V :=
  list_to_map (reverse entries).

(** A value that is an [A] when the code is used as typed, and otherwise the
    object inherited under [name] from [Object.prototype]. *)
Inductive Value (A : Type) :=
| Plain (a : A)
| Object (name : string).
Arguments Plain {A} a.
Arguments Object {A} name.

(** What the sources leave open.  The module reads [Platform.TWITTER] and the
    five other members, but [./types] (src/unnamed/part_003) declares
    [Platform] as a type alias and has no members: their run-time values are
    parameters.  [objectText name] is the text [String(v)] of the value [v]
    inherited under [name], which depends on the engine. *)
Record Runtime := mkRuntime {
  TWITTER : Platform;
  FACEBOOK : Platform;
  INSTAGRAM : Platform;
  LINKEDIN : Platform;
  TIKTOK : Platform;
  YOUTUBE : Platform;
  objectText : string -> string;
}.

(** The keys of the tables of the module. *)
Definition supported (H : Runtime) : list Platform :=
  [TWITTER H; FACEBOOK H; INSTAGRAM H; LINKEDIN H; TIKTOK H; YOUTUBE H].

(** [String(v)] *)
Definition textOf (H : Runtime) (v : Value string) : string :=
  match v with
  | Plain s => s
  | Object name => objectText H name
  end.

(** The fields are as they can be at run time: [initiateFlow] passes
    whatever [getClientId] returned and the [scope] property of whatever the
    table lookup found, which is [undefined] ([None]) for an inherited
    value. *)
Module OAuthConfig.
Record t := mk {
  clientId : Value string;
  redirectUri : string;
  scope : option (list string);
  state : option string;
}.
End OAuthConfig.

Module PlatformConfig.
Record t := mk {
  authUrl : string;
  scope : list string;
}.
End PlatformConfig.

Definition OAUTH_CONFIGS (H : Runtime) : gmap Platform PlatformConfig.t :=
  objectLiteral
    [(TWITTER H, PlatformConfig.mk
       "https://twitter.com/i/oauth2/authorize"
       ["tweet.read"; "tweet.write"; "users.read"; "offline.access"]);
     (FACEBOOK H, PlatformConfig.mk
       "https://www.facebook.com/v18.0/dialog/oauth"
       ["pages_manage_posts"; "pages_read_engagement"; "pages_show_list";
        "publish_to_groups"]);
     (INSTAGRAM H, PlatformConfig.mk
       "https://api.instagram.com/oauth/authorize"
       ["user_profile"; "user_media"; "instagram_basic";
        "instagram_content_publish"]);
     (LINKEDIN H, PlatformConfig.mk
       "https://www.linkedin.com/oauth/v2/authorization"
       ["r_liteprofile"; "r_emailaddress"; "w_member_social";
        "rw_organization_admin"]);
     (TIKTOK H, PlatformConfig.mk
       "https://www.tiktok.com/auth/authorize/"
       ["user.info.basic"; "video.list"; "video.upload"]);
     (YOUTUBE H, PlatformConfig.mk
       "https://accounts.google.com/o/oauth2/v2/auth"
       ["https://www.googleapis.com/auth/youtube.upload";
        "https://www.googleapis.com/auth/youtube.readonly"])].

(** [platformConfig.authUrl] inside a template literal and
    [platformConfig.scope], for what the lookup found: an inherited value
    has neither property. *)
Definition authUrlText (platformConfig : Property PlatformConfig.t) : string :=
  match platformConfig with
  | Own entry => PlatformConfig.authUrl entry
  | _ => "undefined"
  end.

Definition scopeOf (platformConfig : Property PlatformConfig.t)
    : option (list string) :=
  match platformConfig with
  | Own entry => Some (PlatformConfig.scope entry)
  | _ => None
  end.

(* ====================================================================== *)
(** * Strings, random text and [URLSearchParams] *)
(* ====================================================================== *)

(** [s.substring(start, end)] for [start <= end]: indices are clamped to the
    length of [s]. *)
Definition substring (s : string) (start fin : nat) : string :=
  String.substring start (fin - start) s.

(** [Math.random().toString(36)]: the next text of the random source. *)
Definition mathRandomBase36 : JS string :=
  fun w => (Normal (random w (drawn w)),
            mkWorld (window w) (env w) (random w) (S (drawn w))).

Definition mapChars (f : ascii -> string) : string -> string :=
  fix go (s : string) : string :=
    match s with
    | EmptyString => EmptyString
    | String c s' => f c +:+ go s'
    end.

(** [s.replace(/c/g, r)] for a single character [c]. *)
Definition replaceAll (c : ascii) (r : string) : string -> string :=
  mapChars (fun x => if Ascii.eqb x c then r else String x EmptyString).

Definition charAt (alphabet : string) (n : nat) : ascii :=
  match String.get n alphabet with
  | Some c => c
  | None => "000"%char
  end.

Definition base64Digit : nat -> ascii :=
  charAt "ABCDEFGHIJKLMNOPQRSTUVWXYZabcdefghijklmnopqrstuvwxyz0123456789+/".

(** [btoa]: base64 of a string of bytes, three bytes to four digits, padded
    with [=]. *)
Fixpoint btoa (s : string) : string :=
  match s with
  | EmptyString => EmptyString
  | String a EmptyString =>
      let x := nat_of_ascii a in
      String (base64Digit (x / 4))
        (String (base64Digit (x mod 4 * 16)) "==")
  | String a (String b EmptyString) =>
      let x := nat_of_ascii a in
      let y := nat_of_ascii b in
      String (base64Digit (x / 4))
        (String (base64Digit (x mod 4 * 16 + y / 16))
           (String (base64Digit (y mod 16 * 4)) "="))
  | String a (String b (String c rest)) =>
      let x := nat_of_ascii a in
      let y := nat_of_ascii b in
      let z := nat_of_ascii c in
      String (base64Digit (x / 4))
        (String (base64Digit (x mod 4 * 16 + y / 16))
           (String (base64Digit (y mod 16 * 4 + z / 64))
              (String (base64Digit (z mod 64)) (btoa rest))))
  end.

Module URLSearchParams.

(** The list of name-value pairs, in insertion order. *)
Definition t : Type := list (string * string).

Definition append (name value : string) (params : t) : t :=
  params ++ [(name, value)].

(** [get]: the value of the first pair with the given name, or [null]. *)
Fixpoint get (name : string) (params : t) : option string :=
  match params with
  | [] => None
  | (k, v) :: rest => if String.eqb k name then Some v else get name rest
  end.

(** The application/x-www-form-urlencoded byte serializer: letters, digits
    and [*-._] are kept, a space becomes [+], every other byte becomes [%]
    followed by two upper-case hexadecimal digits. *)
Definition isUnreserved (c : ascii) : bool :=
  let n := nat_of_ascii c in
  (Nat.leb 48 n && Nat.leb n 57) || (Nat.leb 65 n && Nat.leb n 90)
  || (Nat.leb 97 n && Nat.leb n 122)
  || Nat.eqb n 42 || Nat.eqb n 45 || Nat.eqb n 46 || Nat.eqb n 95.

Definition hexDigit : nat -> ascii := charAt "0123456789ABCDEF".

Definition encodeByte (c : ascii) : string :=
  if isUnreserved c then String c EmptyString
  else if Ascii.eqb c " " then "+"
  else let n := nat_of_ascii c in
       String "%" (String (hexDigit (n / 16))
                     (String (hexDigit (n mod 16)) EmptyString)).

Definition encode : string -> string := mapChars encodeByte.

Definition encodePair (p : string * string) : string :=
  encode (fst p) +:+ "=" +:+ encode (snd p).

Definition toString (params : t) : string :=
  String.concat "&" (map encodePair params).

(** The application/x-www-form-urlencoded parser, as run by
    [new URLSearchParams(query)]: the text is split at every [&], empty
    pieces are skipped, each piece is split at its first [=], and names and
    values are decoded ([+] is a space, [%XY] is the byte with hexadecimal
    digits [XY]). *)
Fixpoint splitOn (sep : ascii) (s : string) : list string :=
  match s with
  | EmptyString => [EmptyString]
  | String c s' =>
      if Ascii.eqb c sep then EmptyString :: splitOn sep s'
      else match splitOn sep s' with
           | piece :: pieces => String c piece :: pieces
           | [] => [String c EmptyString]
           end
  end.

Fixpoint splitFirst (sep : ascii) (s : string) : string * string :=
  match s with
  | EmptyString => (EmptyString, EmptyString)
  | String c s' =>
      if Ascii.eqb c sep then (EmptyString, s')
      else let (name, value) := splitFirst sep s' in (String c name, value)
  end.

Definition hexValue (c : ascii) : option nat :=
  let n := nat_of_ascii c in
  if Nat.leb 48 n && Nat.leb n 57 then Some (n - 48)
  else if Nat.leb 65 n && Nat.leb n 70 then Some (n - 55)
  else if Nat.leb 97 n && Nat.leb n 102 then Some (n - 87)
  else None.

Fixpoint decode (s : string) : string :=
  match s with
  | EmptyString => EmptyString
  | String c s1 =>
      if Ascii.eqb c "+" then String " " (decode s1)
      else if Ascii.eqb c "%" then
        match s1 with
        | String h (String l s2) =>
            match hexValue h, hexValue l with
            | Some x, Some y => String (ascii_of_nat (16 * x + y)) (decode s2)
            | _, _ => String c (decode s1)
            end
        | _ => String c (decode s1)
        end
      else String c (decode s1)
  end.

Definition parsePair (piece : string) : string * string :=
  let (name, value) := splitFirst "=" piece in (decode name, decode value).

Definition parse (query : string) : t :=
  map parsePair
    (filter (fun piece => piece <> EmptyString) (splitOn "&" query)).

(** The parameters of a URL: those of the text after its first [?]. *)
Definition ofUrl (url : string) : t :=
  parse (snd (splitFirst "?" url)).

End URLSearchParams.

(* ====================================================================== *)
(** * [OAuthStateManager.generateState] *)
(* ====================================================================== *)

(** Two draws, left operand first, thirteen characters at most from each. *)
Definition generateState : JS string :=
  let* a := mathRandomBase36 in
  let* b := mathRandomBase36 in
  ret (substring a 2 15 +:+ substring b 2 15).

(* ====================================================================== *)
(** * OAuth URL builder: [OAuthUrlBuilder] *)
(* ====================================================================== *)

Definition configNotFound (platform : Platform) : Exn :=
  Error ("OAuth configuration not found for platform: " +:+ platform).

Definition clientIdNotConfigured (platform : Platform) : Exn :=
  Error ("Client ID not configured for platform: " +:+ platform).

Module OAuthUrlBuilder.

Definition generateCodeChallenge : JS string :=
  let* r := mathRandomBase36 in
  ret (replaceAll "=" ""
         (replaceAll "/" "_"
            (replaceAll "+" "-" (btoa (substring r 2 15))))).

(** The [switch] over the platform: the first matching case. *)
Definition platformParams (H : Runtime) (platform : Platform)
    (params : URLSearchParams.t) : JS URLSearchParams.t :=
  if String.eqb platform (TWITTER H) then
    let params := URLSearchParams.append "code_challenge_method" "S256" params in
    let* challenge := generateCodeChallenge in
    ret (URLSearchParams.append "code_challenge" challenge params)
  else if String.eqb platform (FACEBOOK H) || String.eqb platform (INSTAGRAM H)
  then
    ret (URLSearchParams.append "display" "popup" params)
  else if String.eqb platform (LINKEDIN H) then
    ret params
  else if String.eqb platform (TIKTOK H) then
    ret (URLSearchParams.append "response_type" "code" params)
  else if String.eqb platform (YOUTUBE H) then
    ret (URLSearchParams.append "prompt" "consent"
           (URLSearchParams.append "access_type" "offline" params))
  else ret params.

(** The parameters of the query string, before serialization.  The values of
    the initializer are evaluated in order: [config.scope.join] throws when
    there is no scope, before any state is generated. *)
Definition buildAuthParams (H : Runtime) (platform : Platform)
    (config : OAuthConfig.t) : JS URLSearchParams.t :=
  match OAuthConfig.scope config with
  | None => throw TypeError
  | Some scopes =>
      let scope := String.concat " " scopes in
      let* state :=
        match OAuthConfig.state config with
        | Some s => if truthy s then ret s else generateState
        | None => generateState
        end in
      platformParams H platform
        [("client_id", textOf H (OAuthConfig.clientId config));
         ("redirect_uri", OAuthConfig.redirectUri config);
         ("scope", scope);
         ("response_type", "code");
         ("state", state)]
  end.

Definition buildAuthUrl (H : Runtime) (platform : Platform)
    (config : OAuthConfig.t) : JS string :=
  match getProperty (OAUTH_CONFIGS H) platform with
  | Missing => throw (configNotFound platform)
  | platformConfig =>
      let* params := buildAuthParams H platform config in
      ret (authUrlText platformConfig +:+ "?"
           +:+ URLSearchParams.toString params)
  end.

End OAuthUrlBuilder.

(* ====================================================================== *)
(** * OAuth flow manager: [OAuthFlowManager] *)
(* ====================================================================== *)

Module OAuthFlowManager.

Record CallbackOutcome := mkOutcome {
  success : bool;
  platform : option Platform;
  redirectTo : option string;
  error : option string;
}.

(** [window.location.origin] *)
Definition locationOrigin : JS string :=
  fun w => match window w with
           | Some b => (Normal (origin b), w)
           | None => (Throw (ReferenceError "window"), w)
           end.

(** [window.location.href = url] *)
Definition setLocationHref (url : string) : JS unit :=
  fun w => match window w with
           | Some b =>
               (Normal tt,
                setWindow (mkBrowser (origin b) (sessionStorage b) url) w)
           | None => (Throw (ReferenceError "window"), w)
           end.

Definition processEnv : JS (gmap string string) :=
  fun w => (Normal (env w), w).

(** An own entry of [clientIds] holds the variable of the environment, which
    may be [undefined]; an inherited value is truthy and is returned as it
    is. *)
Definition getClientId (H : Runtime) (platform : Platform)
    : JS (Value string) :=
  let* e := processEnv in
  let clientIds : gmap Platform (option string) :=
    objectLiteral
      [(TWITTER H, e !! "NEXT_PUBLIC_TWITTER_CLIENT_ID");
       (FACEBOOK H, e !! "NEXT_PUBLIC_FACEBOOK_CLIENT_ID");
       (INSTAGRAM H, e !! "NEXT_PUBLIC_INSTAGRAM_CLIENT_ID");
       (LINKEDIN H, e !! "NEXT_PUBLIC_LINKEDIN_CLIENT_ID");
       (TIKTOK H, e !! "NEXT_PUBLIC_TIKTOK_CLIENT_ID");
       (YOUTUBE H, e !! "NEXT_PUBLIC_YOUTUBE_CLIENT_ID")] in
  match getProperty clientIds platform with
  | Own (Some clientId) =>
      if truthy clientId then ret (Plain clientId)
      else throw (clientIdNotConfigured platform)
  | Own None => throw (clientIdNotConfigured platform)
  | Inherited name => ret (Object name)
  | Missing => throw (clientIdNotConfigured platform)
  end.

Definition initiateFlow (H : Runtime) (platform : Platform)
    (redirectTo : option string) : JS unit :=
  let* state := generateState in
  let* origin := locationOrigin in
  let redirectUri := origin +:+ "/auth/callback" in
  OAuthStateManager.saveState platform state redirectTo ;;;
  match getProperty (OAUTH_CONFIGS H) platform with
  | Missing => throw (configNotFound platform)
  | platformConfig =>
      let* clientId := getClientId H platform in
      let* authUrl :=
        OAuthUrlBuilder.buildAuthUrl H platform
          (OAuthConfig.mk clientId redirectUri (scopeOf platformConfig)
             (Some state)) in
      setLocationHref authUrl
  end.

Definition invalidState : CallbackOutcome :=
  mkOutcome false None None
    (Some "Invalid OAuth state. This may be a security issue.").

Definition missingCode : CallbackOutcome :=
  mkOutcome false None None
    (Some "Authorization code not received from OAuth provider.").

Definition handleCallback (code state : string) : JS CallbackOutcome :=
  let* validation := OAuthStateManager.validateState state in
  if negb (OAuthStateManager.isValid validation) then ret invalidState
  else if negb (truthy code) then ret missingCode
  else ret (mkOutcome true
              (OAuthStateManager.platform validation)
              (OAuthStateManager.redirectTo validation)
              None).

End OAuthFlowManager.

(* ====================================================================== *)
(** * OAuth error handling: [OAuthErrorHandler] *)
(* ====================================================================== *)

Module OAuthErrorHandler.

Record OAuthError := mkError {
  error : string;
  error_description : option string;
  error_uri : option string;
  state : option string;
}.

(** [x || undefined] *)
Definition orUndefined (x : option string) : option string :=
  if truthy_opt x then x else None.

Definition parseError (searchParams : URLSearchParams.t)
    : option OAuthError :=
  match URLSearchParams.get "error" searchParams with
  | Some error =>
      if truthy error then
        Some (mkError error
                (orUndefined (URLSearchParams.get "error_description" searchParams))
                (orUndefined (URLSearchParams.get "error_uri" searchParams))
                (orUndefined (URLSearchParams.get "state" searchParams)))
      else None
  | None => None
  end.

(** The own properties of [errorMessages]. *)
Definition errorMessages : gmap string string :=
  {[ "access_denied" :=
       "You denied access to your account. Please try again if you want to connect this platform.";
     "invalid_request" :=
       "There was an error with the authorization request. Please try again.";
     "unauthorized_client" :=
       "The application is not authorized to request access tokens.";
     "unsupported_response_type" :=
       "The authorization server does not support this response type.";
     "invalid_scope" :=
       "The requested scope is invalid or unknown.";
     "server_error" :=
       "The authorization server encountered an error. Please try again later.";
     "temporarily_unavailable" :=
       "The authorization server is temporarily unavailable. Please try again later." ]}.

Definition unknownError : string :=
  "An unknown error occurred during authorization.".

(** [errorMessages[error.error] || error.error_description || '...']: an
    inherited value is truthy, so it is what the function returns, although
    its declared result is a string. *)
Definition getErrorMessage (e : OAuthError) : Value string :=
  let otherwise :=
    match error_description e with
    | Some description =>
        if truthy description then description else unknownError
    | None => unknownError
    end in
  match getProperty errorMessages (error e) with
  | Own message => if truthy message then Plain message else Plain otherwise
  | Inherited name => Object name
  | Missing => Plain otherwise
  end.

End OAuthErrorHandler.

(* ====================================================================== *)
(** * Platform utilities: [PlatformUtils] *)
(* ====================================================================== *)

Module PlatformUtils.

Definition names (H : Runtime) : gmap Platform string :=
  objectLiteral
    [(TWITTER H, "Twitter");
     (FACEBOOK H, "Facebook");
     (INSTAGRAM H, "Instagram");
     (LINKEDIN H, "LinkedIn");
     (TIKTOK H, "TikTok");
     (YOUTUBE H, "YouTube")].

Definition getDisplayName (H : Runtime) (platform : Platform)
    : Value string :=
  match getProperty (names H) platform with
  | Own name => if truthy name then Plain name else Plain platform
  | Inherited name => Object name
  | Missing => Plain platform
  end.

Definition icons (H : Runtime) : gmap Platform string :=
  objectLiteral
    [(TWITTER H, "twitter");
     (FACEBOOK H, "facebook");
     (INSTAGRAM H, "instagram");
     (LINKEDIN H, "linkedin");
     (TIKTOK H, "tiktok");
     (YOUTUBE H, "youtube")].

Definition getIcon (H : Runtime) (platform : Platform) : Value string :=
  match getProperty (icons H) platform with
  | Own icon => if truthy icon then Plain icon else Plain "default"
  | Inherited name => Object name
  | Missing => Plain "default"
  end.

Definition colors (H : Runtime) : gmap Platform string :=
  objectLiteral
    [(TWITTER H, "#1DA1F2");
     (FACEBOOK H, "#1877F2");
     (INSTAGRAM H, "#E4405F");
     (LINKEDIN H, "#0A66C2");
     (TIKTOK H, "#000000");
     (YOUTUBE H, "#FF0000")].

Definition getColor (H : Runtime) (platform : Platform) : Value string :=
  match getProperty (colors H) platform with
  | Own color => if truthy color then Plain color else Plain "#6B7280"
  | Inherited name => Object name
  | Missing => Plain "#6B7280"
  end.

(** The limits are whole numbers; [0] is the falsy one. *)
Definition limits (H : Runtime) : gmap Platform N :=
  objectLiteral
    [(TWITTER H, 280%N);
     (FACEBOOK H, 63206%N);
     (INSTAGRAM H, 2200%N);
     (LINKEDIN H, 3000%N);
     (TIKTOK H, 2200%N);
     (YOUTUBE H, 5000%N)].

Definition getCharacterLimit (H : Runtime) (platform : Platform) : Value N :=
  match getProperty (limits H) platform with
  | Own limit => if N.eqb limit 0 then Plain 280%N else Plain limit
  | Inherited name => Object name
  | Missing => Plain 280%N
  end.

End PlatformUtils.

(* ====================================================================== *)
(** * The callback page: the effect of [AuthCallbackPage]
      (frontend/pages/auth/callback.tsx) *)
(* ====================================================================== *)

(** [try { m } catch (e) { h e }] *)
Definition tryCatch {A} (m : JS A) (h : Exn -> JS A) : JS A :=
  fun w => match m w with
           | (Normal a, w') => (Normal a, w')
           | (Throw e, w') => h e w'
           end.

Module ConnectRequest.
Record t := mk {
  platform : Platform;
  authorization_code : string;
  redirect_uri : string;
}.
End ConnectRequest.

Module AuthCallbackPage.

Inductive Status := loading | success | error.

(** The three [useState] cells of the component.  The message is a text,
    or [Object name] when the value inherited under [name] was handed to
    [setMessage] in the place of a text. *)
Record PageState := mkPage {
  status : Status;
  message : Value string;
  platform : option Platform;
}.

Definition initialPage : PageState :=
  mkPage loading (Plain "Processing authentication...") None.

(** [window.location.search] of a serialized URL: the query, with its [?],
    up to the fragment; empty when there is no query. *)
Definition searchOf (url : string) : string :=
  let query :=
    snd (URLSearchParams.splitFirst "?"
           (fst (URLSearchParams.splitFirst "#" url))) in
  if String.eqb query "" then "" else "?" +:+ query.

Definition locationSearch : JS string :=
  fun w => match window w with
           | Some b => (Normal (searchOf (href b)), w)
           | None => (Throw (ReferenceError "window"), w)
           end.

(** [new URLSearchParams(init)] for a string: one leading [?] is dropped. *)
Definition newURLSearchParams (init : string) : URLSearchParams.t :=
  URLSearchParams.parse
    match init with
    | String c rest => if Ascii.eqb c "?" then rest else init
    | EmptyString => init
    end.

Definition failed (page : PageState) (text : Value string) : PageState :=
  mkPage error text (platform page).

(** One run of the effect, from the page state [page], up to the call of the
    account-linking mutation: the result is the page state it leaves and the
    request handed to [connectPlatform.mutateAsync], if any.  The only
    statement after [setPlatform] that can throw has its own handler here, so
    that the handler sees the platform already set. *)
Definition handleCallback (H : Runtime) (page : PageState)
    : JS (PageState * option ConnectRequest.t) :=
  let unexpected page :=
    ret (failed page
           (Plain "An unexpected error occurred during authentication"),
         None) in
  tryCatch
    (let* search := locationSearch in
     let urlParams := newURLSearchParams search in
     match OAuthErrorHandler.parseError urlParams with
     | Some oauthError =>
         ret (failed page (OAuthErrorHandler.getErrorMessage oauthError), None)
     | None =>
         let code := URLSearchParams.get "code" urlParams in
         let state := URLSearchParams.get "state" urlParams in
         match code, state with
         | Some code, Some state =>
             if negb (truthy code) || negb (truthy state) then
               ret (failed page
                      (Plain "Missing authorization code or state parameter"),
                    None)
             else
               let* callbackResult :=
                 OAuthFlowManager.handleCallback code state in
               if negb (OAuthFlowManager.success callbackResult) then
                 ret (failed page
                        (Plain
                           match OAuthFlowManager.error callbackResult with
                           | Some text =>
                               if truthy text then text
                               else "Authentication failed"
                           | None => "Authentication failed"
                           end),
                      None)
               else
                 match OAuthFlowManager.platform callbackResult with
                 | Some p =>
                     if truthy p then
                       let page' :=
                         mkPage (status page)
                           (Plain
                              ("Connecting "
                               +:+ textOf H (PlatformUtils.getDisplayName H p)
                               +:+ "..."))
                           (Some p) in
                       tryCatch
                         (let* origin := OAuthFlowManager.locationOrigin in
                          ret (page',
                               Some (ConnectRequest.mk p code
                                       (origin +:+ "/auth/callback"))))
                         (fun _ => unexpected page')
                     else
                       ret (failed page
                              (Plain "Platform information not found"),
                            None)
                 | None =>
                     ret (failed page (Plain "Platform information not found"),
                          None)
                 end
         | _, _ =>
             ret (failed page
                    (Plain "Missing authorization code or state parameter"),
                  None)
         end
     end)
    (fun _ => unexpected page).

(** [if (typeof window !== 'undefined') handleCallback()] *)
Definition effect (H : Runtime) (page : PageState)
    : JS (PageState * option ConnectRequest.t) :=
  let* undef := windowUndefined in
  if undef then ret (page, None) else handleCallback H page.

End AuthCallbackPage.

(* ====================================================================== *)
(** * Auxiliary definitions for the statements *)
(* ====================================================================== *)

(** What [saveState] leaves in the store, and what [clearState] does. *)
Definition savedStorage (platform : Platform) (state : string)
    (redirectTo : option string) (st : gmap string string)
    : gmap string string :=
  let st' :=
    <[OAuthStateManager.PLATFORM_KEY := platform]>
      (<[OAuthStateManager.STATE_KEY := state]> st) in
  match redirectTo with
  | Some r => if truthy r then <[OAuthStateManager.REDIRECT_KEY := r]> st' else st'
  | None => st'
  end.

Definition clearedStorage (st : gmap string string) : gmap string string :=
  delete OAuthStateManager.REDIRECT_KEY
    (delete OAuthStateManager.PLATFORM_KEY
       (delete OAuthStateManager.STATE_KEY st)).

Definition exampleRandom (n : nat) : string :=
  if Nat.even n then "0.4fzyo82mvyr" else "0.k3j9x1qz0ab".

Definition exampleEnv : gmap string string :=
  {[ "NEXT_PUBLIC_TWITTER_CLIENT_ID" := "twitter-client";
     "NEXT_PUBLIC_TIKTOK_CLIENT_ID" := "tiktok-client" ]}.

(** A freshly opened tab: nothing stored yet. *)
Definition freshTab : World :=
  mkWorld (Some (mkBrowser "https://app.example" ∅ "https://app.example/"))
    exampleEnv exampleRandom 0.

(** The server-side rendering context. *)
Definition serverSide : World := mkWorld None exampleEnv exampleRandom 0.

Definition storageOf (w : World) : gmap string string :=
  match window w with
  | Some b => sessionStorage b
  | None => ∅
  end.

(** The seven error codes the translator knows. *)
Definition providerErrorCodes : list string :=
  ["access_denied"; "invalid_request"; "unauthorized_client";
   "unsupported_response_type"; "invalid_scope"; "server_error";
   "temporarily_unavailable"].

(** The token [generateState] returns in world [w]. *)
Definition stateToken (w : World) : string :=
  substring (random w (drawn w)) 2 15
  +:+ substring (random w (S (drawn w))) 2 15.

(** The [state] parameter [buildAuthUrl] uses for a request in world [w]: the
    caller's, when it is truthy, and a freshly generated one otherwise. *)
Definition requestState (config : OAuthConfig.t) (w : World) : string :=
  match OAuthConfig.state config with
  | Some s => if truthy s then s else stateToken w
  | None => stateToken w
  end.

(** The five parameters every URL starts with, for a request whose scope
    list is [scopes]. *)
Definition baseParams (H : Runtime) (config : OAuthConfig.t)
    (scopes : list string) (w : World) : URLSearchParams.t :=
  [("client_id", textOf H (OAuthConfig.clientId config));
   ("redirect_uri", OAuthConfig.redirectUri config);
   ("scope", String.concat " " scopes);
   ("response_type", "code");
   ("state", requestState config w)].

(** A request as the interface [OAuthConfig] types it. *)
Definition typedConfig (clientId redirectUri : string) (scope : list string)
    (state : option string) : OAuthConfig.t :=
  OAuthConfig.mk (Plain clientId) redirectUri (Some scope) state.

(** Sample values for the parameters, used in examples only. *)
Definition sampleRuntime : Runtime :=
  mkRuntime "twitter" "facebook" "instagram" "linkedin" "tiktok" "youtube"
    (fun name => "[object " +:+ name +:+ "]").

(** The value a computation returned, if it returned. *)
Definition completionValue {A} (c : Completion A) : option A :=
  match c with
  | Normal a => Some a
  | Throw _ => None
  end.

(** Whether every character of [s] satisfies [p]. *)
Fixpoint allChars (p : ascii -> bool) (s : string) : bool :=
  match s with
  | EmptyString => true
  | String c s' => p c && allChars p s'
  end.

(** The characters a serialized query is made of. *)
Definition isQueryChar (c : ascii) : bool :=
  URLSearchParams.isUnreserved c || Ascii.eqb c "+" || Ascii.eqb c "%".

Definition isAlphaNum (c : ascii) : bool :=
  let n := nat_of_ascii c in
  (Nat.leb 48 n && Nat.leb n 57) || (Nat.leb 65 n && Nat.leb n 90)
  || (Nat.leb 97 n && Nat.leb n 122).

(** The base64url alphabet, without padding. *)
Definition isBase64UrlChar (c : ascii) : bool :=
  isAlphaNum c || Ascii.eqb c "-" || Ascii.eqb c "_".

(** The characters a serialized parameter list is made of. *)
Definition isSerializedChar (c : ascii) : bool :=
  isQueryChar c || Ascii.eqb c "&" || Ascii.eqb c "=".

(** The keys of the session slot. *)
Definition sessionKeys : list string :=
  [OAuthStateManager.STATE_KEY; OAuthStateManager.PLATFORM_KEY;
   OAuthStateManager.REDIRECT_KEY].

(** [w'] differs from [w] at most in the three session keys of the store. *)
Definition sameOutsideSession (w w' : World) : Prop :=
  env w' = env w ∧ random w' = random w ∧ drawn w' = drawn w
  ∧ (origin <$> window w') = (origin <$> window w)
  ∧ (href <$> window w') = (href <$> window w)
  ∧ ∀ k, k ∉ sessionKeys → storageOf w' !! k = storageOf w !! k.

(** Whether the character [c] occurs in [s]. *)
Fixpoint occurs (c : ascii) (s : string) : bool :=
  match s with
  | EmptyString => false
  | String x s' => Ascii.eqb x c || occurs c s'
  end.

Definition isBase64Char (c : ascii) : bool :=
  isAlphaNum c || Ascii.eqb c "+" || Ascii.eqb c "/" || Ascii.eqb c "=".

(** The environment variable that holds the client identifier of each
    platform. *)
Definition clientIdVariables (H : Runtime) : list (Platform * string) :=
  [(TWITTER H, "NEXT_PUBLIC_TWITTER_CLIENT_ID");
   (FACEBOOK H, "NEXT_PUBLIC_FACEBOOK_CLIENT_ID");
   (INSTAGRAM H, "NEXT_PUBLIC_INSTAGRAM_CLIENT_ID");
   (LINKEDIN H, "NEXT_PUBLIC_LINKEDIN_CLIENT_ID");
   (TIKTOK H, "NEXT_PUBLIC_TIKTOK_CLIENT_ID");
   (YOUTUBE H, "NEXT_PUBLIC_YOUTUBE_CLIENT_ID")].

(** The world [initiateFlow] reaches once the session is saved. *)
Definition afterSave (platform : Platform) (redirectTo : option string)
    (b : Browser) (w : World) : World :=
  setWindow (setStorage (savedStorage platform (stateToken w) redirectTo) b)
    (mkWorld (window w) (env w) (random w) (S (S (drawn w)))).

(** A tab whose random source yields [0] twice, rendered as ["0"], before
    anything else. *)
Definition unluckyTab : World :=
  mkWorld (Some (mkBrowser "https://app.example" ∅ "https://app.example/"))
    exampleEnv (fun n => if Nat.ltb n 2 then "0" else exampleRandom n) 0.

Definition isHexDigit (c : ascii) : bool :=
  match URLSearchParams.hexValue c with
  | Some _ => true
  | None => false
  end.

(** A [#] followed by six hexadecimal digits. *)
Definition isHexColor (s : string) : bool :=
  match s with
  | String c digits =>
      Ascii.eqb c "#" && Nat.eqb (String.length digits) 6
      && allChars isHexDigit digits
  | EmptyString => false
  end.

(** The parameters the page reads from the address of the tab. *)
Definition pageParams (b : Browser) : URLSearchParams.t :=
  AuthCallbackPage.newURLSearchParams (AuthCallbackPage.searchOf (href b)).

Definition connecting (H : Runtime) (page : AuthCallbackPage.PageState)
    (p : Platform) : AuthCallbackPage.PageState :=
  AuthCallbackPage.mkPage (AuthCallbackPage.status page)
    (Plain ("Connecting " +:+ textOf H (PlatformUtils.getDisplayName H p)
            +:+ "..."))
    (Some p).

(** The browser arrives at [url]. *)
Definition landOn (url : string) (w : World) : World :=
  snd (OAuthFlowManager.setLocationHref url w).

(** A tab with a pending twitter session, back from the provider at [url]. *)
Definition pendingTab (url : string) : World :=
  landOn url
    (snd (OAuthStateManager.saveState "twitter" "tok" (Some "/dashboard")
            freshTab)).

Definition pendingBrowser (url : string) : Browser :=
  mkBrowser "https://app.example"
    (savedStorage "twitter" "tok" (Some "/dashboard") ∅) url.

(* ====================================================================== *)
(** * The session state store *)
(* ====================================================================== *)

Section StateStore.
Import OAuthStateManager.

Variables (w : World) (b : Browser).
Hypothesis in_browser : window w = Some b.

Lemma saveState_browser P s R :
  saveState P s R w =
  (Normal tt, setWindow (setStorage (savedStorage P s R) b) w).
Proof using in_browser.
  destruct w as [win e r d], b as [o st h]; simpl in *; subst win.
  unfold saveState, savedStorage, setWindow, setStorage.
  destruct R as [r0|]; [destruct (truthy r0) eqn:Hr|]; cbn; rewrite ?Hr; reflexivity.
Qed.

Lemma clearState_browser :
  clearState w = (Normal tt, setWindow (setStorage clearedStorage b) w).
Proof using in_browser.
  destruct w as [win e r d], b as [o st h]; simpl in *; subst win.
  reflexivity.
Qed.

Lemma validateState_browser rs :
  validateState rs w =
  let st := sessionStorage b in
  let ok := bool_decide (st !! STATE_KEY = Some rs) in
  (Normal (mkValidation ok (st !! PLATFORM_KEY) (st !! REDIRECT_KEY)),
   if ok then setWindow (setStorage clearedStorage b) w else w).
Proof using in_browser.
  destruct w as [win e r d], b as [o st h]; simpl in *; subst win.
  unfold validateState. cbn.
  destruct (bool_decide (st !! STATE_KEY = Some rs)); reflexivity.
Qed.

End StateStore.

Section StoredKeys.
Import OAuthStateManager.

Variables (P : Platform) (s : string) (R : option string).
Variable st : gmap string string.

Lemma savedStorage_state : savedStorage P s R st !! STATE_KEY = Some s.
Proof.
  unfold savedStorage.
  destruct R as [r|]; [destruct (truthy r)|];
    repeat (rewrite lookup_insert_ne by discriminate);
    apply lookup_insert_eq.
Qed.

Lemma savedStorage_platform : savedStorage P s R st !! PLATFORM_KEY = Some P.
Proof.
  unfold savedStorage.
  destruct R as [r|]; [destruct (truthy r)|];
    repeat (rewrite lookup_insert_ne by discriminate);
    apply lookup_insert_eq.
Qed.

Lemma savedStorage_redirect :
  savedStorage P s R st !! REDIRECT_KEY =
  if truthy_opt R then R else st !! REDIRECT_KEY.
Proof.
  unfold savedStorage, truthy_opt.
  destruct R as [r|]; [destruct (truthy r)|];
    first [ apply lookup_insert_eq
          | repeat (rewrite lookup_insert_ne by discriminate); reflexivity ].
Qed.

Lemma clearedStorage_lookup k :
  k ∈ [STATE_KEY; PLATFORM_KEY; REDIRECT_KEY] →
  clearedStorage st !! k = None.
Proof.
  unfold clearedStorage. rewrite !elem_of_cons, elem_of_nil.
  intros [->|[->|[->|[]]]];
    repeat (rewrite lookup_delete_ne by discriminate);
    apply lookup_delete_eq.
Qed.

End StoredKeys.

Lemma truthy_nonempty (r : string) : r ≠ "" → truthy r = true.
Proof. intros Hr. unfold truthy. destruct r; [congruence | reflexivity]. Qed.

(** On the server nothing is stored. *)
Lemma saveState_serverSide P s R w :
  window w = None → OAuthStateManager.saveState P s R w = (Normal tt, w).
Proof.
  intros Hw. destruct w as [win e r d]; simpl in Hw; subst win. reflexivity.
Qed.

Example saveState_validateState_serverSide :
  fst (OAuthStateManager.validateState "tok"
         (snd (OAuthStateManager.saveState "twitter" "tok" (Some "/dashboard")
                 serverSide)))
  = Normal (OAuthStateManager.mkValidation false None None).
Proof. reflexivity. Qed.

(** [validateState] returns normally in every context. *)
Lemma validateState_normal rs w :
  ∃ v, fst (OAuthStateManager.validateState rs w) = Normal v.
Proof.
  destruct (window w) as [b|] eqn:Hw.
  - rewrite (validateState_browser w b Hw). eexists. reflexivity.
  - destruct w as [win e r d]; simpl in Hw; subst win. eexists. reflexivity.
Qed.

(** Without a window nothing is stored and nothing validates. *)
Lemma validateState_serverSide rs w :
  window w = None →
  OAuthStateManager.validateState rs w =
  (Normal (OAuthStateManager.mkValidation false None None), w).
Proof.
  intros Hw. destruct w as [win e r d]; simpl in Hw; subst win. reflexivity.
Qed.

Lemma handleCallback_unfold code state w :
  OAuthFlowManager.handleCallback code state w =
  match OAuthStateManager.validateState state w with
  | (Normal v, w') =>
      (Normal
         (if negb (OAuthStateManager.isValid v)
          then OAuthFlowManager.invalidState
          else if negb (truthy code) then OAuthFlowManager.missingCode
          else OAuthFlowManager.mkOutcome true
                 (OAuthStateManager.platform v)
                 (OAuthStateManager.redirectTo v) None), w')
  | (Throw e, w') => (Throw e, w')
  end.
Proof.
  unfold OAuthFlowManager.handleCallback, bind.
  destruct (OAuthStateManager.validateState state w) as [[v|e] w']; [|reflexivity].
  destruct (OAuthStateManager.isValid v); [destruct (truthy code)|]; reflexivity.
Qed.

Lemma window_after_save w b P s R :
  window w = Some b →
  window (snd (OAuthStateManager.saveState P s R w)) =
  Some (setStorage (savedStorage P s R) b).
Proof. intros Hw. rewrite (saveState_browser w b Hw). reflexivity. Qed.

(** ** State round-trip *)

(** C3, as stated, fails for the empty redirect target: [saveState] stores a
    redirect only when it is truthy, so after [save(P, s, "")] in a fresh tab
    [validate(s)] answers with no redirect at all instead of [""]. *)
Lemma roundtrip_empty_redirect_dropped :
  fst (OAuthStateManager.validateState "tok"
         (snd (OAuthStateManager.saveState "twitter" "tok" (Some "") freshTab)))
  = Normal (OAuthStateManager.mkValidation true (Some "twitter") None)
  ∧ fst (OAuthStateManager.validateState "tok"
           (snd (OAuthStateManager.saveState "twitter" "tok" (Some "") freshTab)))
    ≠ Normal (OAuthStateManager.mkValidation true (Some "twitter") (Some "")).
Proof. split; [vm_compute; reflexivity | vm_compute; discriminate]. Qed.

(** C3 (amended): in a browser, for every platform [P], state token [s] and
    non-empty redirect target [R], [save(P, s, R)] followed by [validate(s)]
    yields [{isValid:true, platform:P, redirectTo:R}]. *)
Theorem save_validate_roundtrip w b (P : Platform) (s R : string) :
  window w = Some b →
  R ≠ "" →
  fst (OAuthStateManager.validateState s
         (snd (OAuthStateManager.saveState P s (Some R) w)))
  = Normal (OAuthStateManager.mkValidation true (Some P) (Some R)).
Proof.
  intros Hw HR.
  rewrite (validateState_browser _ _ (window_after_save w b P s (Some R) Hw)).
  cbn [fst setStorage sessionStorage].
  rewrite savedStorage_state, savedStorage_platform, savedStorage_redirect.
  cbn [truthy_opt]. rewrite (truthy_nonempty R HR).
  rewrite bool_decide_eq_true_2 by reflexivity. reflexivity.
Qed.

Lemma save_validate_roundtrip_witness :
  window freshTab = Some (mkBrowser "https://app.example" ∅ "https://app.example/")
  ∧ "/dashboard" ≠ ""
  ∧ fst (OAuthStateManager.validateState "tok"
           (snd (OAuthStateManager.saveState "twitter" "tok" (Some "/dashboard")
                   freshTab)))
    = Normal (OAuthStateManager.mkValidation true (Some "twitter")
                (Some "/dashboard")).
Proof.
  split; [reflexivity | split; [discriminate |]].
  apply (save_validate_roundtrip freshTab
           (mkBrowser "https://app.example" ∅ "https://app.example/")
           "twitter" "tok" "/dashboard"); [reflexivity | discriminate].
Defined.

(** ** State single-use *)

(** C4: once [validate(s)] has returned [isValid=true], a second
    [validate(s)] with the same token returns [isValid=false]: the first,
    successful validation removed the session from the store. *)
Theorem validate_single_use w w' (s : string) v :
  OAuthStateManager.validateState s w = (Normal v, w') →
  OAuthStateManager.isValid v = true →
  OAuthStateManager.validateState s w'
  = (Normal (OAuthStateManager.mkValidation false None None), w').
Proof.
  intros Hrun Hok.
  destruct (window w) as [b|] eqn:Hw.
  - rewrite (validateState_browser w b Hw) in Hrun. cbn zeta in Hrun.
    injection Hrun as Hv Hw'. subst v. cbn in Hok. rewrite Hok in Hw'.
    assert (Hwin : window w' = Some (setStorage clearedStorage b))
      by (subst w'; reflexivity).
    rewrite (validateState_browser w' _ Hwin). cbn [setStorage sessionStorage].
    rewrite !clearedStorage_lookup by set_solver.
    rewrite bool_decide_eq_false_2 by discriminate. reflexivity.
  - rewrite (validateState_serverSide s w Hw) in Hrun.
    injection Hrun as Hv _. subst v. discriminate.
Qed.

Lemma validate_single_use_witness :
  let w1 := snd (OAuthStateManager.saveState "linkedin" "tok" (Some "/accounts")
                  freshTab) in
  let v := OAuthStateManager.mkValidation true (Some "linkedin")
             (Some "/accounts") in
  let w2 := snd (OAuthStateManager.validateState "tok" w1) in
  OAuthStateManager.validateState "tok" w1 = (Normal v, w2)
  ∧ OAuthStateManager.isValid v = true
  ∧ OAuthStateManager.validateState "tok" w2
    = (Normal (OAuthStateManager.mkValidation false None None), w2).
Proof.
  cbv zeta.
  split; [vm_compute; reflexivity | split; [reflexivity |]].
  apply (validate_single_use
           (snd (OAuthStateManager.saveState "linkedin" "tok" (Some "/accounts")
                   freshTab))
           _ "tok"
           (OAuthStateManager.mkValidation true (Some "linkedin")
              (Some "/accounts")));
    [vm_compute; reflexivity | reflexivity].
Defined.

(** ** CSRF rejection *)

(** C1, as stated, fails: on a mismatch [validateState] still returns the
    stored platform and redirect next to [isValid=false], so its answer
    differs with the platform that was saved. *)
Lemma mismatch_reveals_platform :
  fst (OAuthStateManager.validateState "forged"
         (snd (OAuthStateManager.saveState "twitter" "secret" (Some "/dashboard")
                 freshTab)))
  = Normal (OAuthStateManager.mkValidation false (Some "twitter")
              (Some "/dashboard"))
  ∧ fst (OAuthStateManager.validateState "forged"
           (snd (OAuthStateManager.saveState "twitter" "secret"
                   (Some "/dashboard") freshTab)))
    ≠ fst (OAuthStateManager.validateState "forged"
             (snd (OAuthStateManager.saveState "facebook" "secret"
                     (Some "/dashboard") freshTab))).
Proof. split; [vm_compute; reflexivity | vm_compute; discriminate]. Qed.

(** C1 (amended): after [save(P, s, R)] in a browser, [validate(s2)] with
    [s2 != s] returns [isValid=false] and leaves the store as it was, but the
    record it returns carries the stored platform [P] and the stored redirect;
    it is the outcome of [handleCallback] on such a state that is the fixed
    invalid-state failure, whatever platform and redirect are stored. *)
Theorem mismatch_rejected w b (P : Platform) (s s2 : string)
    (R : option string) :
  window w = Some b →
  s2 ≠ s →
  let w1 := snd (OAuthStateManager.saveState P s R w) in
  OAuthStateManager.validateState s2 w1
  = (Normal (OAuthStateManager.mkValidation false (Some P)
               (if truthy_opt R then R
                else sessionStorage b !! OAuthStateManager.REDIRECT_KEY)),
     w1)
  ∧ ∀ code,
      OAuthFlowManager.handleCallback code s2 w1
      = (Normal (OAuthFlowManager.mkOutcome false None None
                   (Some "Invalid OAuth state. This may be a security issue.")),
         w1).
Proof.
  intros Hw Hne w1.
  assert (Hv : OAuthStateManager.validateState s2 w1
    = (Normal (OAuthStateManager.mkValidation false (Some P)
                 (if truthy_opt R then R
                  else sessionStorage b !! OAuthStateManager.REDIRECT_KEY)),
       w1)).
  { subst w1.
    rewrite (validateState_browser _ _ (window_after_save w b P s R Hw)).
    cbn [setStorage sessionStorage].
    rewrite savedStorage_state, savedStorage_platform, savedStorage_redirect.
    rewrite bool_decide_eq_false_2 by congruence. reflexivity. }
  split; [exact Hv|].
  intros code. rewrite handleCallback_unfold, Hv. reflexivity.
Qed.

Lemma mismatch_rejected_witness :
  let b := mkBrowser "https://app.example" ∅ "https://app.example/" in
  let w1 := snd (OAuthStateManager.saveState "twitter" "secret"
                  (Some "/dashboard") freshTab) in
  window freshTab = Some b
  ∧ "forged" ≠ "secret"
  ∧ OAuthStateManager.validateState "forged" w1
    = (Normal (OAuthStateManager.mkValidation false (Some "twitter")
                 (Some "/dashboard")), w1)
  ∧ ∀ code,
      OAuthFlowManager.handleCallback code "forged" w1
      = (Normal (OAuthFlowManager.mkOutcome false None None
                   (Some "Invalid OAuth state. This may be a security issue.")),
         w1).
Proof.
  cbv zeta.
  split; [reflexivity | split; [discriminate |]].
  apply (mismatch_rejected freshTab
           (mkBrowser "https://app.example" ∅ "https://app.example/")
           "twitter" "secret" "forged" (Some "/dashboard"));
    [reflexivity | discriminate].
Defined.

(** ** Overwriting a session *)

(** C5 fails on the code: [saveState] writes the redirect key only when a
    redirect is given and never removes it, so the redirect target of the
    previous session survives a [save] that omits the redirect, and is handed
    out with the new session. *)
Theorem overwrite_keeps_stale_redirect w b (P1 P2 : Platform)
    (s1 s2 R1 : string) :
  window w = Some b →
  R1 ≠ "" →
  let w1 := snd (OAuthStateManager.saveState P1 s1 (Some R1) w) in
  let w2 := snd (OAuthStateManager.saveState P2 s2 None w1) in
  storageOf w2 !! OAuthStateManager.REDIRECT_KEY = Some R1
  ∧ fst (OAuthStateManager.validateState s2 w2)
    = Normal (OAuthStateManager.mkValidation true (Some P2) (Some R1)).
Proof.
  intros Hw HR w1 w2.
  pose proof (window_after_save w b P1 s1 (Some R1) Hw) as Hw1.
  fold w1 in Hw1.
  pose proof (window_after_save w1 _ P2 s2 None Hw1) as Hw2.
  fold w2 in Hw2.
  assert (Hred : savedStorage P2 s2 None (savedStorage P1 s1 (Some R1)
                   (sessionStorage b)) !! OAuthStateManager.REDIRECT_KEY
                 = Some R1).
  { rewrite !savedStorage_redirect. cbn [truthy_opt].
    rewrite (truthy_nonempty R1 HR). reflexivity. }
  split.
  - unfold storageOf. rewrite Hw2. exact Hred.
  - rewrite (validateState_browser w2 _ Hw2). cbn [fst setStorage sessionStorage].
    rewrite savedStorage_state, savedStorage_platform, Hred.
    rewrite bool_decide_eq_true_2 by reflexivity. reflexivity.
Qed.

Lemma overwrite_keeps_stale_redirect_witness :
  let w1 := snd (OAuthStateManager.saveState "twitter" "s1" (Some "/dashboard")
                  freshTab) in
  let w2 := snd (OAuthStateManager.saveState "facebook" "s2" None w1) in
  window freshTab
  = Some (mkBrowser "https://app.example" ∅ "https://app.example/")
  ∧ "/dashboard" ≠ ""
  ∧ storageOf w2 !! OAuthStateManager.REDIRECT_KEY = Some "/dashboard"
  ∧ fst (OAuthStateManager.validateState "s2" w2)
    = Normal (OAuthStateManager.mkValidation true (Some "facebook")
                (Some "/dashboard")).
Proof.
  cbv zeta.
  split; [reflexivity | split; [discriminate |]].
  apply (overwrite_keeps_stale_redirect freshTab
           (mkBrowser "https://app.example" ∅ "https://app.example/")
           "twitter" "facebook" "s1" "s2" "/dashboard");
    [reflexivity | discriminate].
Defined.

(* ====================================================================== *)
(** * Handling the callback *)
(* ====================================================================== *)

(** C6: when the state passes validation, [handleCallback("", state)] is the
    failure with the message "Authorization code not received from OAuth
    provider."; when the state fails validation, [handleCallback(code, state)]
    is the invalid-state failure for every [code]. *)
Theorem handleCallback_failures w w' (state : string) v :
  OAuthStateManager.validateState state w = (Normal v, w') →
  (OAuthStateManager.isValid v = true →
   OAuthFlowManager.handleCallback "" state w
   = (Normal (OAuthFlowManager.mkOutcome false None None
                (Some "Authorization code not received from OAuth provider.")),
      w'))
  ∧ (OAuthStateManager.isValid v = false →
     ∀ code,
       OAuthFlowManager.handleCallback code state w
       = (Normal (OAuthFlowManager.mkOutcome false None None
                    (Some "Invalid OAuth state. This may be a security issue.")),
          w')).
Proof.
  intros Hv. split.
  - intros Hok. rewrite handleCallback_unfold, Hv, Hok. reflexivity.
  - intros Hko code. rewrite handleCallback_unfold, Hv, Hko. reflexivity.
Qed.

Lemma handleCallback_failures_witness :
  let w1 := snd (OAuthStateManager.saveState "youtube" "tok" None freshTab) in
  let w2 := snd (OAuthStateManager.validateState "tok" w1) in
  (OAuthStateManager.validateState "tok" w1
   = (Normal (OAuthStateManager.mkValidation true (Some "youtube") None), w2)
   ∧ OAuthFlowManager.handleCallback "" "tok" w1
     = (Normal (OAuthFlowManager.mkOutcome false None None
                  (Some "Authorization code not received from OAuth provider.")),
        w2))
  ∧ (OAuthStateManager.validateState "forged" w1
     = (Normal (OAuthStateManager.mkValidation false (Some "youtube") None), w1)
     ∧ OAuthFlowManager.handleCallback "4/0AbCd" "forged" w1
       = (Normal (OAuthFlowManager.mkOutcome false None None
                    (Some "Invalid OAuth state. This may be a security issue.")),
          w1)).
Proof.
  cbv zeta.
  split; (split; [vm_compute; reflexivity |]).
  - apply (proj1 (handleCallback_failures
             (snd (OAuthStateManager.saveState "youtube" "tok" None freshTab))
             _ "tok"
             (OAuthStateManager.mkValidation true (Some "youtube") None)
             ltac:(vm_compute; reflexivity))).
    reflexivity.
  - apply (proj2 (handleCallback_failures
             (snd (OAuthStateManager.saveState "youtube" "tok" None freshTab))
             _ "forged"
             (OAuthStateManager.mkValidation false (Some "youtube") None)
             ltac:(vm_compute; reflexivity))).
    reflexivity.
Defined.

(** C10: after [save(P, s, R)] in a browser, [handleCallback("", s)] fails
    with the missing-code outcome and nevertheless removes the stored
    session, so that a later [handleCallback(code, s)] with the same state is
    the invalid-state failure, whatever the code. *)
Theorem missing_code_consumes_session w b (P : Platform) (s : string)
    (R : option string) :
  window w = Some b →
  let w1 := snd (OAuthStateManager.saveState P s R w) in
  let w2 := snd (OAuthFlowManager.handleCallback "" s w1) in
  fst (OAuthFlowManager.handleCallback "" s w1)
  = Normal (OAuthFlowManager.mkOutcome false None None
              (Some "Authorization code not received from OAuth provider."))
  ∧ storageOf w2 !! OAuthStateManager.STATE_KEY = None
  ∧ storageOf w2 !! OAuthStateManager.PLATFORM_KEY = None
  ∧ storageOf w2 !! OAuthStateManager.REDIRECT_KEY = None
  ∧ ∀ code,
      OAuthFlowManager.handleCallback code s w2
      = (Normal (OAuthFlowManager.mkOutcome false None None
                   (Some "Invalid OAuth state. This may be a security issue.")),
         w2).
Proof.
  intros Hw w1 w2.
  pose proof (window_after_save w b P s R Hw) as Hw1. fold w1 in Hw1.
  assert (Hrun : OAuthFlowManager.handleCallback "" s w1
                 = (Normal OAuthFlowManager.missingCode,
                    setWindow (setStorage clearedStorage
                                 (setStorage (savedStorage P s R) b)) w1)).
  { rewrite handleCallback_unfold, (validateState_browser w1 _ Hw1).
    cbn [setStorage sessionStorage]. rewrite savedStorage_state.
    rewrite bool_decide_eq_true_2 by reflexivity. reflexivity. }
  assert (Hw2 : window w2
                = Some (setStorage clearedStorage
                          (setStorage (savedStorage P s R) b)))
    by (subst w2; rewrite Hrun; reflexivity).
  split; [rewrite Hrun; reflexivity|].
  unfold storageOf. rewrite Hw2. cbn [setStorage sessionStorage].
  rewrite !clearedStorage_lookup by set_solver.
  repeat split.
  intros code.
  rewrite handleCallback_unfold, (validateState_browser w2 _ Hw2).
  cbn [setStorage sessionStorage].
  rewrite !clearedStorage_lookup by set_solver.
  rewrite bool_decide_eq_false_2 by discriminate. reflexivity.
Qed.

Lemma missing_code_consumes_session_witness :
  let w1 := snd (OAuthStateManager.saveState "tiktok" "tok" (Some "/videos")
                  freshTab) in
  let w2 := snd (OAuthFlowManager.handleCallback "" "tok" w1) in
  window freshTab
  = Some (mkBrowser "https://app.example" ∅ "https://app.example/")
  ∧ fst (OAuthFlowManager.handleCallback "" "tok" w1)
    = Normal (OAuthFlowManager.mkOutcome false None None
                (Some "Authorization code not received from OAuth provider."))
  ∧ storageOf w2 !! OAuthStateManager.STATE_KEY = None
  ∧ storageOf w2 !! OAuthStateManager.PLATFORM_KEY = None
  ∧ storageOf w2 !! OAuthStateManager.REDIRECT_KEY = None
  ∧ ∀ code,
      OAuthFlowManager.handleCallback code "tok" w2
      = (Normal (OAuthFlowManager.mkOutcome false None None
                   (Some "Invalid OAuth state. This may be a security issue.")),
         w2).
Proof.
  cbv zeta.
  split; [reflexivity |].
  apply (missing_code_consumes_session freshTab
           (mkBrowser "https://app.example" ∅ "https://app.example/")
           "tiktok" "tok" (Some "/videos")).
  reflexivity.
Defined.

(* ====================================================================== *)
(** * Object literals and property lookups *)
(* ====================================================================== *)

Lemma objectLiteral_lookup_Some {V} (entries : list (string * V)) k v :
  objectLiteral entries !! k = Some v → (k, v) ∈ entries.
Proof.
  unfold objectLiteral. intros Hk%elem_of_list_to_map_2.
  rewrite elem_of_reverse in Hk. exact Hk.
Qed.

Lemma objectLiteral_lookup_None {V} (entries : list (string * V)) k :
  k ∉ entries.*1 → objectLiteral entries !! k = None.
Proof.
  intros Hk. unfold objectLiteral. apply not_elem_of_list_to_map_1.
  rewrite fmap_reverse, elem_of_reverse. exact Hk.
Qed.

Lemma objectLiteral_lookup_is_Some {V} (entries : list (string * V)) k :
  k ∈ entries.*1 → is_Some (objectLiteral entries !! k).
Proof.
  intros Hk. destruct (objectLiteral entries !! k) as [v|] eqn:Hv; [eauto|].
  unfold objectLiteral in Hv. apply not_elem_of_list_to_map_2 in Hv.
  rewrite fmap_reverse, elem_of_reverse in Hv. contradiction.
Qed.

(** With distinct keys every entry of the literal is found. *)
Lemma objectLiteral_lookup_NoDup {V} (entries : list (string * V)) k v :
  NoDup entries.*1 → (k, v) ∈ entries → objectLiteral entries !! k = Some v.
Proof.
  intros Hnd Hk. unfold objectLiteral. apply elem_of_list_to_map_1.
  - rewrite fmap_reverse, reverse_Permutation. exact Hnd.
  - rewrite elem_of_reverse. exact Hk.
Qed.

Lemma getProperty_Some {V} (obj : gmap string V) key v :
  obj !! key = Some v → getProperty obj key = Own v.
Proof. intros Hk. unfold getProperty. by rewrite Hk. Qed.

Lemma getProperty_None {V} (obj : gmap string V) key :
  obj !! key = None →
  getProperty obj key
  = if bool_decide (key ∈ objectPrototypeNames) then Inherited key
    else Missing.
Proof. intros Hk. unfold getProperty. by rewrite Hk. Qed.

Lemma OAUTH_CONFIGS_unsupported (H : Runtime) (platform : Platform) :
  platform ∉ supported H → OAUTH_CONFIGS H !! platform = None.
Proof. intros Hp. apply objectLiteral_lookup_None. exact Hp. Qed.

(** Every entry of the registry has an authorization endpoint without a
    query of its own. *)
Lemma OAUTH_CONFIGS_supported (H : Runtime) (platform : Platform) :
  platform ∈ supported H →
  ∃ pc, OAUTH_CONFIGS H !! platform = Some pc
        ∧ occurs "?" (PlatformConfig.authUrl pc) = false.
Proof.
  intros Hp. unfold OAUTH_CONFIGS.
  match goal with
  | |- context [objectLiteral ?entries] =>
      destruct (objectLiteral_lookup_is_Some entries platform Hp) as [pc Hpc]
  end.
  exists pc. split; [exact Hpc|].
  apply objectLiteral_lookup_Some in Hpc.
  rewrite !elem_of_cons, elem_of_nil in Hpc.
  destruct Hpc as [Hpc|[Hpc|[Hpc|[Hpc|[Hpc|[Hpc|[]]]]]]];
    injection Hpc as _ ->; reflexivity.
Qed.

(* ====================================================================== *)
(** * Translating provider errors *)
(* ====================================================================== *)

Lemma errorMessages_other (c : string) :
  c ∉ providerErrorCodes → OAuthErrorHandler.errorMessages !! c = None.
Proof.
  unfold providerErrorCodes. rewrite !not_elem_of_cons.
  intros (H1 & H2 & H3 & H4 & H5 & H6 & H7 & _).
  unfold OAuthErrorHandler.errorMessages.
  repeat (rewrite lookup_insert_ne by congruence).
  apply lookup_singleton_ne. congruence.
Qed.

(** No provider error code is a name of [Object.prototype]. *)
Lemma objectPrototypeNames_other (c : string) :
  c ∈ objectPrototypeNames → c ∉ providerErrorCodes.
Proof.
  unfold objectPrototypeNames. rewrite !elem_of_cons, elem_of_nil.
  intros Hc. apply (bool_decide_unpack _).
  repeat (destruct Hc as [->|Hc]; [vm_compute; exact I|]). destruct Hc.
Qed.

Lemma getErrorMessage_other c d uri st :
  c ∉ providerErrorCodes → c ∉ objectPrototypeNames →
  OAuthErrorHandler.getErrorMessage (OAuthErrorHandler.mkError c d uri st)
  = Plain (match d with
           | Some text =>
               if truthy text then text else OAuthErrorHandler.unknownError
           | None => OAuthErrorHandler.unknownError
           end).
Proof.
  intros Hc Hn. unfold OAuthErrorHandler.getErrorMessage.
  cbn [OAuthErrorHandler.error OAuthErrorHandler.error_description].
  rewrite (getProperty_None _ c (errorMessages_other c Hc)).
  rewrite (bool_decide_eq_false_2 _ Hn). reflexivity.
Qed.

(** A code that names a property of [Object.prototype] finds that property
    in the table. *)
Lemma getErrorMessage_inherited c d uri st :
  c ∈ objectPrototypeNames →
  OAuthErrorHandler.getErrorMessage (OAuthErrorHandler.mkError c d uri st)
  = Object c.
Proof.
  intros Hc. unfold OAuthErrorHandler.getErrorMessage.
  cbn [OAuthErrorHandler.error OAuthErrorHandler.error_description].
  rewrite (getProperty_None _ c
             (errorMessages_other c (objectPrototypeNames_other c Hc))).
  rewrite (bool_decide_eq_true_2 _ Hc). reflexivity.
Qed.

(** The description of a parsed error is absent or non-empty. *)
Lemma parseError_description searchParams e :
  OAuthErrorHandler.parseError searchParams = Some e →
  OAuthErrorHandler.error_description e = None
  ∨ ∃ d, OAuthErrorHandler.error_description e = Some d ∧ truthy d = true.
Proof.
  unfold OAuthErrorHandler.parseError.
  destruct (URLSearchParams.get "error" searchParams) as [c|]; [|discriminate].
  destruct (truthy c); [|discriminate].
  intros [= <-]. cbn [OAuthErrorHandler.error_description].
  unfold OAuthErrorHandler.orUndefined.
  destruct (URLSearchParams.get "error_description" searchParams) as [d|];
    [|left; reflexivity].
  cbn [truthy_opt]. destruct (truthy d) eqn:Hd; [right; eauto | left; reflexivity].
Qed.

(** A non-empty [error] parameter is taken as the code of the error. *)
Lemma parseError_code searchParams c :
  URLSearchParams.get "error" searchParams = Some c → c ≠ "" →
  ∃ e, OAuthErrorHandler.parseError searchParams = Some e
       ∧ OAuthErrorHandler.error e = c.
Proof.
  intros Hget Hc. unfold OAuthErrorHandler.parseError.
  rewrite Hget, (truthy_nonempty c Hc). eexists. split; reflexivity.
Qed.

(** C9 fails on the code: the seven provider error codes are translated to
    their fixed sentences, and a code outside the seven is translated to the
    provider's description, or to the generic sentence when there is none,
    only if it is not the name of a property of [Object.prototype].  For
    such a code ([constructor], [toString], [__proto__], ...) the lookup in
    the table finds the inherited value, which is truthy, and
    [getErrorMessage] returns it: not the description, not the generic
    sentence, and not a string.  A callback whose [error] parameter is such
    a name reaches this case.  Parameters without an [error] entry parse to
    no error. *)
Theorem error_translation :
  (∀ d uri st,
     OAuthErrorHandler.getErrorMessage
       (OAuthErrorHandler.mkError "access_denied" d uri st)
     = Plain "You denied access to your account. Please try again if you want to connect this platform."
     ∧ OAuthErrorHandler.getErrorMessage
         (OAuthErrorHandler.mkError "invalid_request" d uri st)
       = Plain "There was an error with the authorization request. Please try again."
     ∧ OAuthErrorHandler.getErrorMessage
         (OAuthErrorHandler.mkError "unauthorized_client" d uri st)
       = Plain "The application is not authorized to request access tokens."
     ∧ OAuthErrorHandler.getErrorMessage
         (OAuthErrorHandler.mkError "unsupported_response_type" d uri st)
       = Plain "The authorization server does not support this response type."
     ∧ OAuthErrorHandler.getErrorMessage
         (OAuthErrorHandler.mkError "invalid_scope" d uri st)
       = Plain "The requested scope is invalid or unknown."
     ∧ OAuthErrorHandler.getErrorMessage
         (OAuthErrorHandler.mkError "server_error" d uri st)
       = Plain "The authorization server encountered an error. Please try again later."
     ∧ OAuthErrorHandler.getErrorMessage
         (OAuthErrorHandler.mkError "temporarily_unavailable" d uri st)
       = Plain "The authorization server is temporarily unavailable. Please try again later.")
  ∧ (∀ c d uri st,
       c ∈ objectPrototypeNames →
       (c ∉ providerErrorCodes)
       ∧ OAuthErrorHandler.getErrorMessage
           (OAuthErrorHandler.mkError c d uri st) = Object c)
  ∧ (∀ searchParams c,
       URLSearchParams.get "error" searchParams = Some c →
       c ∈ objectPrototypeNames →
       ∃ e, OAuthErrorHandler.parseError searchParams = Some e
            ∧ OAuthErrorHandler.getErrorMessage e = Object c)
  ∧ (∀ c d uri st,
       c ∉ providerErrorCodes → c ∉ objectPrototypeNames → d ≠ "" →
       OAuthErrorHandler.getErrorMessage
         (OAuthErrorHandler.mkError c (Some d) uri st) = Plain d)
  ∧ (∀ c d uri st,
       c ∉ providerErrorCodes → c ∉ objectPrototypeNames →
       d = None ∨ d = Some "" →
       OAuthErrorHandler.getErrorMessage (OAuthErrorHandler.mkError c d uri st)
       = Plain "An unknown error occurred during authorization.")
  ∧ (∀ searchParams e,
       OAuthErrorHandler.parseError searchParams = Some e →
       OAuthErrorHandler.error e ∉ providerErrorCodes →
       OAuthErrorHandler.error e ∉ objectPrototypeNames →
       OAuthErrorHandler.getErrorMessage e
       = Plain (match OAuthErrorHandler.error_description e with
                | Some d => d
                | None => "An unknown error occurred during authorization."
                end))
  ∧ (∀ searchParams,
       URLSearchParams.get "error" searchParams = None →
       OAuthErrorHandler.parseError searchParams = None).
Proof.
  split; [intros d uri st; repeat split; vm_compute; reflexivity|].
  split; [|split; [|split; [|split; [|split]]]].
  - intros c d uri st Hc. split; [exact (objectPrototypeNames_other c Hc)|].
    exact (getErrorMessage_inherited c d uri st Hc).
  - intros searchParams c Hget Hc.
    assert (Hne : c ≠ "").
    { intros ->. revert Hc. apply (bool_decide_unpack _). vm_compute. exact I. }
    destruct (parseError_code searchParams c Hget Hne) as (e & He & Hcode).
    exists e. split; [exact He|].
    destruct e as [c0 d uri st]; cbn in Hcode; subst c0.
    exact (getErrorMessage_inherited c d uri st Hc).
  - intros c d uri st Hc Hn Hd. rewrite getErrorMessage_other by assumption.
    rewrite (truthy_nonempty d Hd). reflexivity.
  - intros c d uri st Hc Hn [->| ->];
      rewrite getErrorMessage_other by assumption; reflexivity.
  - intros searchParams e Hparse Hc Hn.
    destruct (parseError_description searchParams e Hparse) as [Hd|[d [Hd Ht]]];
      destruct e as [c d0 uri st]; cbn in Hd, Hc, Hn |- *; subst d0;
      rewrite getErrorMessage_other by assumption; [reflexivity|].
    rewrite Ht. reflexivity.
  - intros searchParams Hget. unfold OAuthErrorHandler.parseError.
    rewrite Hget. reflexivity.
Qed.

Lemma error_translation_witness :
  ("constructor" ∈ objectPrototypeNames)
  ∧ ("constructor" ∉ providerErrorCodes)
  ∧ OAuthErrorHandler.getErrorMessage
      (OAuthErrorHandler.mkError "constructor"
         (Some "The provider is on fire.") None (Some "tok"))
    = Object "constructor"
  ∧ URLSearchParams.get "error"
      (AuthCallbackPage.newURLSearchParams
         "?error=constructor&error_description=The+provider+is+on+fire.")
    = Some "constructor"
  ∧ (∃ e, OAuthErrorHandler.parseError
            (AuthCallbackPage.newURLSearchParams
               "?error=constructor&error_description=The+provider+is+on+fire.")
          = Some e
          ∧ OAuthErrorHandler.getErrorMessage e = Object "constructor")
  ∧ ("custom_error" ∉ providerErrorCodes)
  ∧ ("custom_error" ∉ objectPrototypeNames)
  ∧ OAuthErrorHandler.getErrorMessage
      (OAuthErrorHandler.mkError "custom_error" (Some "The provider is on fire.")
         None (Some "tok"))
    = Plain "The provider is on fire."
  ∧ OAuthErrorHandler.getErrorMessage
      (OAuthErrorHandler.mkError "custom_error" None None (Some "tok"))
    = Plain "An unknown error occurred during authorization."
  ∧ URLSearchParams.get "error" [("code", "4/0AbCd"); ("state", "tok")] = None
  ∧ OAuthErrorHandler.parseError [("code", "4/0AbCd"); ("state", "tok")] = None.
Proof.
  assert (Hin : "constructor" ∈ objectPrototypeNames)
    by (apply (bool_decide_unpack _); vm_compute; exact I).
  assert (Hc : "custom_error" ∉ providerErrorCodes)
    by (apply (bool_decide_unpack _); vm_compute; exact I).
  assert (Hn : "custom_error" ∉ objectPrototypeNames)
    by (apply (bool_decide_unpack _); vm_compute; exact I).
  destruct error_translation
    as (_ & Hinherited & Hcallback & Hsome & Hnone & _ & Hparse).
  split; [exact Hin|].
  split; [exact (proj1 (Hinherited "constructor" None None None Hin))|].
  split; [exact (proj2 (Hinherited _ _ _ _ Hin))|].
  split; [vm_compute; reflexivity|].
  split; [apply Hcallback; [vm_compute; reflexivity | exact Hin]|].
  split; [exact Hc|]. split; [exact Hn|].
  split; [apply Hsome; [exact Hc | exact Hn | discriminate]|].
  split; [apply Hnone; [exact Hc | exact Hn | left; reflexivity]|].
  split; [reflexivity|].
  apply Hparse. reflexivity.
Defined.

(* ====================================================================== *)
(** * Initiating a flow *)
(* ====================================================================== *)

Lemma generateState_run w :
  generateState w =
  (Normal (stateToken w),
   mkWorld (window w) (env w) (random w) (S (S (drawn w)))).
Proof. reflexivity. Qed.

(** [getClientId] reads the environment only. *)
Lemma getClientId_env H platform w1 w2 :
  env w1 = env w2 →
  OAuthFlowManager.getClientId H platform w2
  = (fst (OAuthFlowManager.getClientId H platform w1), w2).
Proof.
  intros He. unfold OAuthFlowManager.getClientId, bind,
    OAuthFlowManager.processEnv. rewrite He.
  destruct (getProperty _ platform) as [[cid|]|name|];
    [destruct (truthy cid)| | |]; reflexivity.
Qed.

Lemma getClientId_unsupported H platform w :
  platform ∉ supported H →
  OAuthFlowManager.getClientId H platform w
  = (if bool_decide (platform ∈ objectPrototypeNames)
     then Normal (Object platform)
     else Throw (clientIdNotConfigured platform), w).
Proof.
  intros Hp. unfold OAuthFlowManager.getClientId, bind,
    OAuthFlowManager.processEnv.
  rewrite getProperty_None by (apply objectLiteral_lookup_None; exact Hp).
  destruct (decide (platform ∈ objectPrototypeNames)) as [Hn|Hn];
    [rewrite !(bool_decide_eq_true_2 _ Hn)
    |rewrite !(bool_decide_eq_false_2 _ Hn)]; reflexivity.
Qed.

(** [initiateFlow] in a browser: the session is saved first, and the lookup
    in the registry decides what follows. *)
Lemma initiateFlow_steps H w b platform redirectTo :
  window w = Some b →
  OAuthFlowManager.initiateFlow H platform redirectTo w
  = match getProperty (OAUTH_CONFIGS H) platform with
    | Missing =>
        (Throw (configNotFound platform), afterSave platform redirectTo b w)
    | platformConfig =>
        match OAuthFlowManager.getClientId H platform
                (afterSave platform redirectTo b w) with
        | (Normal clientId, w1) =>
            match OAuthUrlBuilder.buildAuthUrl H platform
                    (OAuthConfig.mk clientId (origin b +:+ "/auth/callback")
                       (scopeOf platformConfig) (Some (stateToken w))) w1 with
            | (Normal authUrl, w2) =>
                OAuthFlowManager.setLocationHref authUrl w2
            | (Throw e, w2) => (Throw e, w2)
            end
        | (Throw e, w1) => (Throw e, w1)
        end
    end.
Proof.
  intros Hw. unfold afterSave.
  unfold OAuthFlowManager.initiateFlow, bind at 1.
  rewrite generateState_run.
  destruct w as [win e r d], b as [o st h]; cbn in Hw; subst win.
  unfold bind at 1. cbn [OAuthFlowManager.locationOrigin window origin].
  unfold bind at 1.
  erewrite saveState_browser by reflexivity.
  destruct (getProperty (OAUTH_CONFIGS H) platform); reflexivity.
Qed.

(** C2 fails on the code: [initiateFlow] saves the session before it looks
    the platform up, so for a platform outside the supported set the call
    throws with the fresh token and the unknown platform already in the
    store (and the redirect, when one is given); only the navigation has not
    happened.  What is thrown is the configuration error, unless the
    platform is the name of a property of [Object.prototype]: the lookup
    then finds the inherited value, the check passes, and the call ends in
    the [TypeError] of joining a scope list that is not there. *)
Theorem initiate_unknown_platform_persists (H : Runtime) w b
    (platform : Platform) (redirectTo : option string) :
  window w = Some b →
  platform ∉ supported H →
  let w' := snd (OAuthFlowManager.initiateFlow H platform redirectTo w) in
  fst (OAuthFlowManager.initiateFlow H platform redirectTo w)
  = Throw (if bool_decide (platform ∈ objectPrototypeNames) then TypeError
           else Error ("OAuth configuration not found for platform: "
                       +:+ platform))
  ∧ storageOf w' !! OAuthStateManager.STATE_KEY = Some (stateToken w)
  ∧ storageOf w' !! OAuthStateManager.PLATFORM_KEY = Some platform
  ∧ storageOf w' !! OAuthStateManager.REDIRECT_KEY
    = (if truthy_opt redirectTo then redirectTo
       else sessionStorage b !! OAuthStateManager.REDIRECT_KEY)
  ∧ href <$> window w' = Some (href b).
Proof.
  intros Hw Hp w'.
  assert (Hrun : OAuthFlowManager.initiateFlow H platform redirectTo w
    = (Throw (if bool_decide (platform ∈ objectPrototypeNames) then TypeError
              else configNotFound platform),
       afterSave platform redirectTo b w)).
  { rewrite (initiateFlow_steps H w b platform redirectTo Hw).
    rewrite (getProperty_None _ _ (OAUTH_CONFIGS_unsupported H platform Hp)).
    rewrite (getClientId_unsupported H platform _ Hp).
    unfold OAuthUrlBuilder.buildAuthUrl.
    rewrite (getProperty_None _ _ (OAUTH_CONFIGS_unsupported H platform Hp)).
    destruct (decide (platform ∈ objectPrototypeNames)) as [Hn|Hn];
      [rewrite !(bool_decide_eq_true_2 _ Hn)
      |rewrite !(bool_decide_eq_false_2 _ Hn)]; reflexivity. }
  subst w'. rewrite Hrun. unfold storageOf, afterSave.
  cbn [fst snd setWindow setStorage window sessionStorage href fmap option_fmap
       option_map].
  rewrite savedStorage_state, savedStorage_platform, savedStorage_redirect.
  repeat split.
Qed.

Lemma initiate_unknown_platform_persists_witness :
  let w' := snd (OAuthFlowManager.initiateFlow sampleRuntime
                   "not-a-real-platform" (Some "/dashboard") freshTab) in
  let w'' := snd (OAuthFlowManager.initiateFlow sampleRuntime
                    "constructor" None freshTab) in
  window freshTab
  = Some (mkBrowser "https://app.example" ∅ "https://app.example/")
  ∧ ("not-a-real-platform" ∉ supported sampleRuntime)
  ∧ fst (OAuthFlowManager.initiateFlow sampleRuntime "not-a-real-platform"
           (Some "/dashboard") freshTab)
    = Throw (Error "OAuth configuration not found for platform: not-a-real-platform")
  ∧ storageOf w' !! OAuthStateManager.STATE_KEY = Some "4fzyo82mvyrk3j9x1qz0ab"
  ∧ storageOf w' !! OAuthStateManager.PLATFORM_KEY = Some "not-a-real-platform"
  ∧ storageOf w' !! OAuthStateManager.REDIRECT_KEY = Some "/dashboard"
  ∧ href <$> window w' = Some "https://app.example/"
  ∧ ("constructor" ∉ supported sampleRuntime)
  ∧ fst (OAuthFlowManager.initiateFlow sampleRuntime "constructor" None
           freshTab)
    = Throw TypeError
  ∧ storageOf w'' !! OAuthStateManager.STATE_KEY = Some "4fzyo82mvyrk3j9x1qz0ab"
  ∧ storageOf w'' !! OAuthStateManager.PLATFORM_KEY = Some "constructor"
  ∧ href <$> window w'' = Some "https://app.example/".
Proof.
  cbv zeta.
  assert (Hp : "not-a-real-platform" ∉ supported sampleRuntime)
    by (apply (bool_decide_unpack _); vm_compute; exact I).
  assert (Hc : "constructor" ∉ supported sampleRuntime)
    by (apply (bool_decide_unpack _); vm_compute; exact I).
  split; [reflexivity|]. split; [exact Hp|].
  destruct (initiate_unknown_platform_persists sampleRuntime freshTab
              (mkBrowser "https://app.example" ∅ "https://app.example/")
              "not-a-real-platform" (Some "/dashboard") eq_refl Hp)
    as (Hthrow & Hstate & Hplatform & Hredirect & Hhref).
  destruct (initiate_unknown_platform_persists sampleRuntime freshTab
              (mkBrowser "https://app.example" ∅ "https://app.example/")
              "constructor" None eq_refl Hc)
    as (Hthrow' & Hstate' & Hplatform' & _ & Hhref').
  repeat split; try assumption.
Defined.
(* ====================================================================== *)
(** * Reading a serialized query back *)
(* ====================================================================== *)

Section Serializer.
Import URLSearchParams.

Lemma append_cons x (s1 s2 : string) :
  String x s1 +:+ s2 = String x (s1 +:+ s2).
Proof. reflexivity. Qed.

Lemma append_empty (s : string) : "" +:+ s = s.
Proof. reflexivity. Qed.

Lemma occurs_append c s1 s2 :
  occurs c (s1 +:+ s2) = occurs c s1 || occurs c s2.
Proof.
  induction s1 as [|x s1 IH]; [reflexivity|].
  rewrite append_cons. cbn [occurs]. rewrite IH. apply orb_assoc.
Qed.

Lemma append_assoc (s1 s2 s3 : string) :
  (s1 +:+ s2) +:+ s3 = s1 +:+ (s2 +:+ s3).
Proof.
  induction s1 as [|x s1 IH]; [reflexivity|].
  rewrite !append_cons, IH. reflexivity.
Qed.

Lemma length_append (s1 s2 : string) :
  String.length (s1 +:+ s2) = String.length s1 + String.length s2.
Proof.
  induction s1 as [|x s1 IH]; [reflexivity|].
  rewrite append_cons. cbn [String.length]. rewrite IH. reflexivity.
Qed.

(** A serialized byte never contains a separator of the query syntax. *)
Lemma encodeByte_separators c :
  occurs "&" (encodeByte c) = false ∧ occurs "=" (encodeByte c) = false
  ∧ occurs "#" (encodeByte c) = false.
Proof.
  destruct c as [[] [] [] [] [] [] [] []]; repeat split; reflexivity.
Qed.

Lemma encode_separators s :
  occurs "&" (encode s) = false ∧ occurs "=" (encode s) = false
  ∧ occurs "#" (encode s) = false.
Proof.
  induction s as [|c s (IH1 & IH2 & IH3)]; [repeat split; reflexivity|].
  destruct (encodeByte_separators c) as (H1 & H2 & H3).
  unfold encode in *. cbn [mapChars].
  rewrite !occurs_append, H1, H2, H3, IH1, IH2, IH3. repeat split; reflexivity.
Qed.

Lemma decode_encodeByte c rest :
  decode (encodeByte c +:+ rest) = String c (decode rest).
Proof.
  destruct c as [[] [] [] [] [] [] [] []]; reflexivity.
Qed.

Lemma decode_encode s : decode (encode s) = s.
Proof.
  induction s as [|c s IH]; [reflexivity|].
  unfold encode in *. cbn [mapChars].
  rewrite decode_encodeByte, IH. reflexivity.
Qed.

Lemma splitFirst_append sep s1 s2 :
  occurs sep s1 = false →
  splitFirst sep (s1 +:+ String sep s2) = (s1, s2).
Proof.
  induction s1 as [|x s1 IH]; rewrite ?append_cons, ?append_empty;
    cbn [occurs splitFirst].
  - intros _. rewrite Ascii.eqb_refl. reflexivity.
  - intros [Hx Hs]%orb_false_elim. rewrite Hx, (IH Hs). reflexivity.
Qed.

Lemma splitOn_append sep s1 s2 :
  occurs sep s1 = false →
  splitOn sep (s1 +:+ String sep s2) = s1 :: splitOn sep s2.
Proof.
  induction s1 as [|x s1 IH]; rewrite ?append_cons, ?append_empty;
    cbn [occurs splitOn].
  - intros _. rewrite Ascii.eqb_refl. reflexivity.
  - intros [Hx Hs]%orb_false_elim. rewrite Hx, (IH Hs). reflexivity.
Qed.

Lemma splitOn_single sep s :
  occurs sep s = false → splitOn sep s = [s].
Proof.
  induction s as [|x s IH]; cbn; [reflexivity|].
  intros [Hx Hs]%orb_false_elim. rewrite Hx, (IH Hs). reflexivity.
Qed.

Lemma encodePair_separator p : occurs "&" (encodePair p) = false.
Proof.
  unfold encodePair. rewrite !occurs_append.
  destruct (encode_separators (fst p)) as (-> & _).
  destruct (encode_separators (snd p)) as (-> & _). reflexivity.
Qed.

Lemma encodePair_nonempty p : encodePair p ≠ "".
Proof.
  unfold encodePair. intros H.
  apply (f_equal (occurs "=")) in H. rewrite !occurs_append in H.
  cbn in H. rewrite orb_true_r in H. discriminate.
Qed.

Lemma parsePair_encodePair p : parsePair (encodePair p) = p.
Proof.
  unfold parsePair, encodePair. rewrite append_cons, append_empty.
  rewrite splitFirst_append by apply encode_separators.
  rewrite !decode_encode. destruct p; reflexivity.
Qed.

Lemma splitOn_toString p params :
  splitOn "&" (toString (p :: params)) = map encodePair (p :: params).
Proof.
  revert p. induction params as [|q params IH]; intros p.
  - cbn. apply splitOn_single, encodePair_separator.
  - change (toString (p :: q :: params))
      with (encodePair p +:+ String "&" (toString (q :: params))).
    rewrite splitOn_append by apply encodePair_separator.
    rewrite IH. reflexivity.
Qed.

(** Parsing a serialized parameter list gives the list back. *)
Lemma parse_toString params : parse (toString params) = params.
Proof.
  destruct params as [|p params]; [reflexivity|].
  unfold parse. rewrite splitOn_toString.
  generalize (p :: params). clear. intros l.
  induction l as [|q l IH]; [reflexivity|].
  cbn [map]. rewrite filter_cons_True by apply encodePair_nonempty.
  cbn [map]. rewrite parsePair_encodePair, IH. reflexivity.
Qed.

Lemma ofUrl_build endpoint params :
  occurs "?" endpoint = false →
  ofUrl (endpoint +:+ "?" +:+ toString params) = params.
Proof.
  intros H. unfold ofUrl.
  change (endpoint +:+ "?" +:+ toString params)
    with (endpoint +:+ String "?" (toString params)).
  rewrite splitFirst_append by exact H. apply parse_toString.
Qed.

End Serializer.

(* ====================================================================== *)
(** * Composing the authorization URL *)
(* ====================================================================== *)

Section UrlBuilder.
Import URLSearchParams OAuthUrlBuilder.

Variable H : Runtime.

(** The parameters the [switch] adds to the five common ones: the first
    case that matches decides, and a platform that matches none adds
    nothing.  Only the twitter case draws a random text. *)
Lemma platformParams_cases platform params w :
  ∃ extra n,
    platformParams H platform params w
    = (Normal (params ++ extra),
       mkWorld (window w) (env w) (random w) (n + drawn w))
    ∧ n = (if String.eqb platform (TWITTER H) then 1 else 0)
    ∧ ((platform = TWITTER H ∧
        ∃ challenge,
          fst (generateCodeChallenge w) = Normal challenge
          ∧ extra = [("code_challenge_method", "S256");
                     ("code_challenge", challenge)])
       ∨ (platform ≠ TWITTER H
          ∧ (platform = FACEBOOK H ∨ platform = INSTAGRAM H)
          ∧ extra = [("display", "popup")])
       ∨ ((platform ∉ [TWITTER H; FACEBOOK H; INSTAGRAM H])
          ∧ platform = LINKEDIN H ∧ extra = [])
       ∨ ((platform ∉ [TWITTER H; FACEBOOK H; INSTAGRAM H; LINKEDIN H])
          ∧ platform = TIKTOK H ∧ extra = [("response_type", "code")])
       ∨ ((platform ∉ [TWITTER H; FACEBOOK H; INSTAGRAM H; LINKEDIN H;
                      TIKTOK H])
          ∧ platform = YOUTUBE H
          ∧ extra = [("access_type", "offline"); ("prompt", "consent")])
       ∨ ((platform ∉ supported H) ∧ extra = [])).
Proof.
  destruct w as [win e r d]. unfold platformParams, supported.
  destruct (String.eqb_spec platform (TWITTER H)) as [H1|H1].
  { eexists _, 1. split; [|split; [reflexivity|]].
    - unfold bind, generateCodeChallenge, bind, append, ret.
      cbn [mathRandomBase36]. rewrite <- app_assoc. reflexivity.
    - left. split; [exact H1|]. eexists. split; reflexivity. }
  destruct (String.eqb_spec platform (FACEBOOK H)) as [H2|H2].
  { exists [("display", "popup")], 0. split; [reflexivity|].
    split; [reflexivity|]. right; left. auto. }
  destruct (String.eqb_spec platform (INSTAGRAM H)) as [H3|H3].
  { exists [("display", "popup")], 0. split; [reflexivity|].
    split; [reflexivity|]. right; left. auto. }
  cbn [orb].
  destruct (String.eqb_spec platform (LINKEDIN H)) as [H4|H4].
  { exists [], 0. split; [by rewrite app_nil_r|].
    split; [reflexivity|]. do 2 right; left.
    rewrite !not_elem_of_cons. auto using not_elem_of_nil. }
  destruct (String.eqb_spec platform (TIKTOK H)) as [H5|H5].
  { exists [("response_type", "code")], 0. split; [reflexivity|].
    split; [reflexivity|]. do 3 right; left.
    rewrite !not_elem_of_cons. auto 10 using not_elem_of_nil. }
  destruct (String.eqb_spec platform (YOUTUBE H)) as [H6|H6].
  { exists [("access_type", "offline"); ("prompt", "consent")], 0.
    split; [unfold append, ret; rewrite <- app_assoc; reflexivity|].
    split; [reflexivity|]. do 4 right; left.
    rewrite !not_elem_of_cons. auto 10 using not_elem_of_nil. }
  exists [], 0. split; [by rewrite app_nil_r|].
  split; [reflexivity|]. do 5 right.
  rewrite !not_elem_of_cons. auto 10 using not_elem_of_nil.
Qed.

(** For a request with a scope list, the parameters start with the five
    common ones, after two draws when the request brings no state. *)
Lemma buildAuthParams_state platform config scopes w :
  OAuthConfig.scope config = Some scopes →
  buildAuthParams H platform config w
  = platformParams H platform (baseParams H config scopes w)
      (mkWorld (window w) (env w) (random w)
         ((if truthy_opt (OAuthConfig.state config) then 0 else 2) + drawn w)).
Proof.
  intros Hscope. destruct w as [win e r d].
  unfold buildAuthParams, baseParams, requestState, bind, truthy_opt.
  rewrite Hscope.
  destruct (OAuthConfig.state config) as [s|]; [destruct (truthy s)|];
    reflexivity.
Qed.

(** Without a scope list the join throws before anything is drawn. *)
Lemma buildAuthParams_no_scope platform config w :
  OAuthConfig.scope config = None →
  buildAuthParams H platform config w = (Throw TypeError, w).
Proof. intros Hscope. unfold buildAuthParams. rewrite Hscope. reflexivity. Qed.

Lemma buildAuthUrl_run platform config w :
  buildAuthUrl H platform config w
  = match getProperty (OAUTH_CONFIGS H) platform with
    | Missing => (Throw (configNotFound platform), w)
    | platformConfig =>
        match buildAuthParams H platform config w with
        | (Normal params, w') =>
            (Normal (authUrlText platformConfig +:+ "?" +:+ toString params),
             w')
        | (Throw e, w') => (Throw e, w')
        end
    end.
Proof.
  unfold buildAuthUrl, bind.
  destruct (getProperty (OAUTH_CONFIGS H) platform);
    try reflexivity;
    destruct (buildAuthParams H platform config w) as [[params|e] w'];
    reflexivity.
Qed.

(** The exact result of [buildAuthUrl] for a supported platform and a
    request with a scope list. *)
Lemma buildAuthUrl_result platform config scopes w :
  platform ∈ supported H →
  OAuthConfig.scope config = Some scopes →
  ∃ pc extra n,
    getProperty (OAUTH_CONFIGS H) platform = Own pc
    ∧ occurs "?" (PlatformConfig.authUrl pc) = false
    ∧ buildAuthUrl H platform config w
      = (Normal (PlatformConfig.authUrl pc +:+ "?"
                 +:+ toString (baseParams H config scopes w ++ extra)),
         mkWorld (window w) (env w) (random w) (n + drawn w))
    ∧ n = (if String.eqb platform (TWITTER H) then 1 else 0)
          + (if truthy_opt (OAuthConfig.state config) then 0 else 2)
    ∧ ((platform = TWITTER H ∧
        ∃ challenge wc,
          fst (generateCodeChallenge wc) = Normal challenge
          ∧ extra = [("code_challenge_method", "S256");
                     ("code_challenge", challenge)])
       ∨ (platform ≠ TWITTER H
          ∧ (platform = FACEBOOK H ∨ platform = INSTAGRAM H)
          ∧ extra = [("display", "popup")])
       ∨ ((platform ∉ [TWITTER H; FACEBOOK H; INSTAGRAM H])
          ∧ platform = LINKEDIN H ∧ extra = [])
       ∨ ((platform ∉ [TWITTER H; FACEBOOK H; INSTAGRAM H; LINKEDIN H])
          ∧ platform = TIKTOK H ∧ extra = [("response_type", "code")])
       ∨ ((platform ∉ [TWITTER H; FACEBOOK H; INSTAGRAM H; LINKEDIN H;
                      TIKTOK H])
          ∧ platform = YOUTUBE H
          ∧ extra = [("access_type", "offline"); ("prompt", "consent")])).
Proof.
  intros Hin Hscope.
  destruct (OAUTH_CONFIGS_supported H platform Hin) as (pc & Hpc & Hq).
  destruct (platformParams_cases platform (baseParams H config scopes w)
              (mkWorld (window w) (env w) (random w)
                 ((if truthy_opt (OAuthConfig.state config) then 0 else 2)
                  + drawn w)))
    as (extra & n & Hpp & Hn & Hcases).
  exists pc, extra, (n + (if truthy_opt (OAuthConfig.state config)
                          then 0 else 2)).
  split; [exact (getProperty_Some _ _ _ Hpc)|]. split; [exact Hq|].
  split; [|split].
  - rewrite buildAuthUrl_run, (getProperty_Some _ _ _ Hpc),
      (buildAuthParams_state platform config scopes w Hscope), Hpp.
    cbn [window env random drawn authUrlText].
    rewrite Nat.add_assoc. reflexivity.
  - rewrite Hn. reflexivity.
  - destruct Hcases as [(Hp & ch & Hch & Hex)|[Hc|[Hc|[Hc|[Hc|[Hout _]]]]]].
    + left. split; [exact Hp|]. exists ch. eexists. split; [exact Hch|exact Hex].
    + right; left; exact Hc.
    + do 2 right; left; exact Hc.
    + do 3 right; left; exact Hc.
    + do 4 right; exact Hc.
    + contradiction.
Qed.

(** What [buildAuthUrl] returns for a supported platform, read back from
    the URL. *)
Lemma buildAuthUrl_query platform config scopes w :
  platform ∈ supported H →
  OAuthConfig.scope config = Some scopes →
  ∃ url w',
    buildAuthUrl H platform config w = (Normal url, w')
    ∧ window w' = window w
    ∧ let params := ofUrl url in
      get "client_id" params = Some (textOf H (OAuthConfig.clientId config))
      ∧ get "redirect_uri" params = Some (OAuthConfig.redirectUri config)
      ∧ get "scope" params = Some (String.concat " " scopes)
      ∧ get "response_type" params = Some "code"
      ∧ get "state" params = Some (requestState config w)
      ∧ (platform = TWITTER H →
         get "code_challenge_method" params = Some "S256"
         ∧ is_Some (get "code_challenge" params))
      ∧ (platform ≠ TWITTER H →
         get "code_challenge_method" params = None
         ∧ get "code_challenge" params = None).
Proof.
  intros Hin Hscope.
  destruct (buildAuthUrl_result platform config scopes w Hin Hscope)
    as (pc & extra & n & Hpc & Hq & Hrun & _ & Hcases).
  eexists _, _. split; [exact Hrun|]. split; [reflexivity|].
  cbv zeta. rewrite (ofUrl_build _ _ Hq).
  unfold baseParams.
  cbn [app get String.eqb Ascii.eqb Bool.eqb].
  repeat (split; [reflexivity|]).
  destruct Hcases as [(Hp & ch & wc & _ & ->)|[(Hp & _ & ->)|[(Hp & _ & ->)
                       |[(Hp & _ & ->)|(Hp & _ & ->)]]]].
  - split; [intros _; cbn [get String.eqb Ascii.eqb Bool.eqb]; eauto|].
    intros Hne; contradiction.
  - split; [intros Heq; contradiction | intros _; split; reflexivity].
  - rewrite !not_elem_of_cons in Hp. destruct Hp as (Hp & _).
    split; [intros Heq; contradiction | intros _; split; reflexivity].
  - rewrite !not_elem_of_cons in Hp. destruct Hp as (Hp & _).
    split; [intros Heq; contradiction | intros _; split; reflexivity].
  - rewrite !not_elem_of_cons in Hp. destruct Hp as (Hp & _).
    split; [intros Heq; contradiction | intros _; split; reflexivity].
Qed.

End UrlBuilder.

(** C7: for every supported platform and every request of the interface
    [OAuthConfig] (a client identifier, a redirect URI, a scope list and an
    optional state), [buildAuthUrl] returns a URL whose query carries
    [client_id], [redirect_uri], [scope] (the request's scope list joined by
    single spaces, in the order of the list), [response_type=code] and
    [state]; for twitter it also carries [code_challenge_method=S256] and a
    [code_challenge], and for every other supported platform it carries
    neither of the two.  The values of the members of [Platform] are
    parameters. *)
Theorem buildAuthUrl_parameters (H : Runtime) (platform : Platform)
    (clientId redirectUri : string) (scope : list string)
    (state : option string) (w : World) :
  platform ∈ supported H →
  ∃ url,
    fst (OAuthUrlBuilder.buildAuthUrl H platform
           (typedConfig clientId redirectUri scope state) w) = Normal url
    ∧ let params := URLSearchParams.ofUrl url in
      URLSearchParams.get "client_id" params = Some clientId
      ∧ URLSearchParams.get "redirect_uri" params = Some redirectUri
      ∧ URLSearchParams.get "scope" params = Some (String.concat " " scope)
      ∧ URLSearchParams.get "response_type" params = Some "code"
      ∧ URLSearchParams.get "state" params
        = Some (match state with
                | Some s => if truthy s then s else stateToken w
                | None => stateToken w
                end)
      ∧ (platform = TWITTER H →
         URLSearchParams.get "code_challenge_method" params = Some "S256"
         ∧ is_Some (URLSearchParams.get "code_challenge" params))
      ∧ (platform ≠ TWITTER H →
         URLSearchParams.get "code_challenge_method" params = None
         ∧ URLSearchParams.get "code_challenge" params = None).
Proof.
  intros Hin.
  destruct (buildAuthUrl_query H platform
              (typedConfig clientId redirectUri scope state) scope w Hin
              eq_refl)
    as (url & w' & Hrun & _ & Hparams).
  exists url. split; [rewrite Hrun; reflexivity | exact Hparams].
Qed.

Lemma buildAuthUrl_parameters_witness :
  let config :=
    typedConfig "twitter-client" "https://app.example/auth/callback"
      ["tweet.read"; "tweet.write"; "users.read"; "offline.access"]
      (Some "4fzyo82mvyrk3j9x1qz0ab") in
  ("twitter" ∈ supported sampleRuntime)
  ∧ fst (OAuthUrlBuilder.buildAuthUrl sampleRuntime "twitter" config freshTab)
    = Normal "https://twitter.com/i/oauth2/authorize?client_id=twitter-client&redirect_uri=https%3A%2F%2Fapp.example%2Fauth%2Fcallback&scope=tweet.read+tweet.write+users.read+offline.access&response_type=code&state=4fzyo82mvyrk3j9x1qz0ab&code_challenge_method=S256&code_challenge=NGZ6eW84Mm12eXI"
  ∧ ∃ url,
      fst (OAuthUrlBuilder.buildAuthUrl sampleRuntime "twitter" config
             freshTab) = Normal url
      ∧ URLSearchParams.get "scope" (URLSearchParams.ofUrl url)
        = Some "tweet.read tweet.write users.read offline.access"
      ∧ URLSearchParams.get "code_challenge_method" (URLSearchParams.ofUrl url)
        = Some "S256".
Proof.
  cbv zeta.
  assert (Hin : "twitter" ∈ supported sampleRuntime)
    by (apply (bool_decide_unpack _); vm_compute; exact I).
  split; [exact Hin|]. split; [vm_compute; reflexivity|].
  destruct (buildAuthUrl_parameters sampleRuntime "twitter"
              "twitter-client" "https://app.example/auth/callback"
              ["tweet.read"; "tweet.write"; "users.read"; "offline.access"]
              (Some "4fzyo82mvyrk3j9x1qz0ab") freshTab Hin)
    as (url & Hurl & _ & _ & Hscope & _ & _ & Htw & _).
  exists url. split; [exact Hurl|]. split; [exact Hscope|].
  exact (proj1 (Htw eq_refl)).
Defined.

(* ====================================================================== *)
(** * The generated state token *)
(* ====================================================================== *)

Lemma String_substring_length (n m : nat) (s : string) :
  String.length (String.substring n m s) ≤ m.
Proof.
  revert n m. induction s as [|c s IH]; intros [|n] [|m]; cbn; try lia.
  - specialize (IH 0 m). lia.
  - apply (IH n 0).
  - apply (IH n (S m)).
Qed.

Lemma substring_length (s : string) (start fin : nat) :
  String.length (substring s start fin) ≤ fin - start.
Proof. apply String_substring_length. Qed.

(** Whatever the random source yields, the token has at most twenty-six
    characters. *)
Lemma stateToken_length w : String.length (stateToken w) ≤ 26.
Proof.
  unfold stateToken. rewrite length_append.
  pose proof (substring_length (random w (drawn w)) 2 15).
  pose proof (substring_length (random w (S (drawn w))) 2 15).
  lia.
Qed.

(** A successful [initiateFlow], in full: the session is stored, random
    texts are drawn, and the browser is sent to the URL built from the entry
    of the registry. *)
Lemma initiateFlow_success H w b platform redirectTo clientId :
  window w = Some b →
  platform ∈ supported H →
  fst (OAuthFlowManager.getClientId H platform w) = Normal clientId →
  ∃ pc extra n url,
    getProperty (OAUTH_CONFIGS H) platform = Own pc
    ∧ OAuthFlowManager.initiateFlow H platform redirectTo w
      = (Normal tt,
         mkWorld
           (Some (mkBrowser (origin b)
                    (savedStorage platform (stateToken w) redirectTo
                       (sessionStorage b))
                    url))
           (env w) (random w) (n + S (S (drawn w))))
    ∧ URLSearchParams.ofUrl url
      = baseParams H
          (OAuthConfig.mk clientId (origin b +:+ "/auth/callback")
             (Some (PlatformConfig.scope pc)) (Some (stateToken w)))
          (PlatformConfig.scope pc)
          (afterSave platform redirectTo b w)
        ++ extra.
Proof.
  intros Hw Hin Hcid.
  set (w1 := afterSave platform redirectTo b w).
  destruct (OAUTH_CONFIGS_supported H platform Hin) as (pc0 & Hpc0 & _).
  apply getProperty_Some in Hpc0.
  set (config := OAuthConfig.mk clientId (origin b +:+ "/auth/callback")
                   (Some (PlatformConfig.scope pc0)) (Some (stateToken w))).
  destruct (buildAuthUrl_result H platform config (PlatformConfig.scope pc0)
              w1 Hin eq_refl)
    as (pc & extra & n & Hpc & Hq & Hrun & _ & _).
  assert (pc = pc0) as -> by congruence.
  eexists pc0, extra, n, _. split; [exact Hpc0|]. split.
  - rewrite (initiateFlow_steps H w b platform redirectTo Hw), Hpc0.
    fold w1. rewrite (getClientId_env H platform w w1 eq_refl), Hcid.
    cbn [scopeOf]. fold config. rewrite Hrun. reflexivity.
  - apply ofUrl_build, Hq.
Qed.

(** C8, as stated, fails: the token is the concatenation of two fragments of
    at most thirteen characters, so it never reaches thirty-six.  In a fresh
    tab whose random source yields [0.4fzyo82mvyr] and [0.k3j9x1qz0ab],
    with [twitter] as the value of [Platform.TWITTER],
    [initiate("twitter", "/dashboard")] navigates to a URL whose [state]
    parameter has twenty-two characters. *)
Lemma generated_state_token_short :
  let w' := snd (OAuthFlowManager.initiateFlow sampleRuntime "twitter"
                   (Some "/dashboard") freshTab) in
  fst (OAuthFlowManager.initiateFlow sampleRuntime "twitter"
         (Some "/dashboard") freshTab)
  = Normal tt
  ∧ match window w' with
    | Some b' => URLSearchParams.get "state" (URLSearchParams.ofUrl (href b'))
    | None => None
    end = Some "4fzyo82mvyrk3j9x1qz0ab"
  ∧ String.length "4fzyo82mvyrk3j9x1qz0ab" = 22
  ∧ ¬ (36 ≤ String.length "4fzyo82mvyrk3j9x1qz0ab").
Proof.
  cbv zeta. split; [vm_compute; reflexivity|].
  split; [vm_compute; reflexivity|].
  split; [reflexivity | vm_compute; lia].
Qed.

(** C8 (amended): for every invocation of [initiate] in a browser, for a
    supported platform with a configured client identifier, and whatever the
    random source yields, the call navigates to a URL whose [state] parameter
    is a token of at most 26 characters.  The values of the members of
    [Platform] are parameters. *)
Theorem initiate_state_token_bound (H : Runtime) w b (platform : Platform)
    (redirectTo : option string) (clientId : Value string) :
  window w = Some b →
  platform ∈ supported H →
  fst (OAuthFlowManager.getClientId H platform w) = Normal clientId →
  ∃ w' b' token,
    OAuthFlowManager.initiateFlow H platform redirectTo w = (Normal tt, w')
    ∧ window w' = Some b'
    ∧ URLSearchParams.get "state" (URLSearchParams.ofUrl (href b'))
      = Some token
    ∧ String.length token ≤ 26.
Proof.
  intros Hw Hin Hcid.
  destruct (initiateFlow_success H w b platform redirectTo clientId Hw Hin
              Hcid)
    as (pc & extra & n & url & _ & Hrun & Hparams).
  eexists _, _, _. split; [exact Hrun|]. split; [reflexivity|].
  cbn [href]. rewrite Hparams. unfold baseParams, requestState.
  cbn [app URLSearchParams.get String.eqb Ascii.eqb Bool.eqb
       OAuthConfig.state].
  split; [reflexivity|].
  destruct (truthy (stateToken w)); apply stateToken_length.
Qed.

Lemma initiate_state_token_bound_witness :
  window freshTab
  = Some (mkBrowser "https://app.example" ∅ "https://app.example/")
  ∧ ("tiktok" ∈ supported sampleRuntime)
  ∧ fst (OAuthFlowManager.getClientId sampleRuntime "tiktok" freshTab)
    = Normal (Plain "tiktok-client")
  ∧ ∃ w' b' token,
      OAuthFlowManager.initiateFlow sampleRuntime "tiktok" None freshTab
      = (Normal tt, w')
      ∧ window w' = Some b'
      ∧ URLSearchParams.get "state" (URLSearchParams.ofUrl (href b'))
        = Some token
      ∧ String.length token ≤ 26.
Proof.
  assert (Hin : "tiktok" ∈ supported sampleRuntime)
    by (apply (bool_decide_unpack _); vm_compute; exact I).
  split; [reflexivity|]. split; [exact Hin|].
  split; [vm_compute; reflexivity|].
  apply (initiate_state_token_bound sampleRuntime freshTab
           (mkBrowser "https://app.example" ∅ "https://app.example/")
           "tiktok" None (Plain "tiktok-client"));
    [reflexivity | exact Hin | vm_compute; reflexivity].
Defined.

(* ====================================================================== *)
(** * Further properties of the session state store *)
(* ====================================================================== *)

Lemma clearedStorage_idem (st : gmap string string) :
  clearedStorage (clearedStorage st) = clearedStorage st.
Proof.
  apply map_eq. intros k. unfold clearedStorage.
  rewrite !lookup_delete. repeat case_decide; reflexivity.
Qed.

Lemma savedStorage_other P s R (st : gmap string string) k :
  k ∉ sessionKeys → savedStorage P s R st !! k = st !! k.
Proof.
  unfold sessionKeys. rewrite !not_elem_of_cons. intros (H1 & H2 & H3 & _).
  unfold savedStorage.
  destruct R as [r|]; [destruct (truthy r)|];
    repeat (rewrite lookup_insert_ne by congruence); reflexivity.
Qed.

Lemma clearedStorage_other (st : gmap string string) k :
  k ∉ sessionKeys → clearedStorage st !! k = st !! k.
Proof.
  unfold sessionKeys. rewrite !not_elem_of_cons. intros (H1 & H2 & H3 & _).
  unfold clearedStorage.
  repeat (rewrite lookup_delete_ne by congruence); reflexivity.
Qed.

Lemma clearState_serverSide w :
  window w = None → OAuthStateManager.clearState w = (Normal tt, w).
Proof.
  intros Hw. destruct w as [win e r d]; simpl in Hw; subst win. reflexivity.
Qed.

Lemma sameOutsideSession_refl w : sameOutsideSession w w.
Proof. repeat split. Qed.

Lemma sameOutsideSession_storage w b f :
  window w = Some b →
  (∀ k, k ∉ sessionKeys → f (sessionStorage b) !! k = sessionStorage b !! k) →
  sameOutsideSession w (setWindow (setStorage f b) w).
Proof.
  intros Hw Hf. unfold sameOutsideSession, storageOf. rewrite Hw.
  repeat split. exact Hf.
Qed.

(** X1: [clearState] is idempotent: clearing a second time changes nothing,
    in a browser and on the server. *)
Theorem clearState_idempotent w :
  OAuthStateManager.clearState (snd (OAuthStateManager.clearState w))
  = (Normal tt, snd (OAuthStateManager.clearState w)).
Proof.
  destruct (window w) as [b|] eqn:Hw.
  - rewrite (clearState_browser w b Hw). cbn [snd].
    erewrite clearState_browser by reflexivity.
    destruct w as [win e r d], b as [o st h].
    unfold setWindow, setStorage.
    cbn [window env random drawn origin sessionStorage href].
    rewrite clearedStorage_idem. reflexivity.
  - rewrite (clearState_serverSide w Hw). cbn [snd].
    apply clearState_serverSide, Hw.
Qed.

(** X2: the store operations and [handleCallback] touch nothing but the three
    session keys: every other key of [sessionStorage], the location, the
    environment and the random source are as before. *)
Theorem session_operations_frame w :
  (∀ P s R, sameOutsideSession w (snd (OAuthStateManager.saveState P s R w)))
  ∧ sameOutsideSession w (snd (OAuthStateManager.clearState w))
  ∧ (∀ rs, sameOutsideSession w (snd (OAuthStateManager.validateState rs w)))
  ∧ (∀ code state,
       sameOutsideSession w (snd (OAuthFlowManager.handleCallback code state w))).
Proof.
  assert (Hval : ∀ rs,
            sameOutsideSession w (snd (OAuthStateManager.validateState rs w))).
  { intros rs. destruct (window w) as [b|] eqn:Hw.
    - rewrite (validateState_browser w b Hw). cbn [snd].
      destruct (bool_decide _); [|apply sameOutsideSession_refl].
      apply sameOutsideSession_storage; [exact Hw|].
      intros k. apply clearedStorage_other.
    - rewrite (validateState_serverSide rs w Hw). apply sameOutsideSession_refl. }
  split; [|split; [|split]].
  - intros P s R. destruct (window w) as [b|] eqn:Hw.
    + rewrite (saveState_browser w b Hw). cbn [snd].
      apply sameOutsideSession_storage; [exact Hw|].
      intros k. apply savedStorage_other.
    + rewrite (saveState_serverSide P s R w Hw). apply sameOutsideSession_refl.
  - destruct (window w) as [b|] eqn:Hw.
    + rewrite (clearState_browser w b Hw). cbn [snd].
      apply sameOutsideSession_storage; [exact Hw|].
      intros k. apply clearedStorage_other.
    + rewrite (clearState_serverSide w Hw). apply sameOutsideSession_refl.
  - exact Hval.
  - intros code state. rewrite handleCallback_unfold.
    specialize (Hval state).
    destruct (OAuthStateManager.validateState state w) as [[v|e] w']; exact Hval.
Qed.

(** X3: a validation that fails changes nothing at all: the world after it is
    the world before it. *)
Theorem failed_validation_changes_nothing w w' (rs : string) v :
  OAuthStateManager.validateState rs w = (Normal v, w') →
  OAuthStateManager.isValid v = false →
  w' = w.
Proof.
  intros Hrun Hko. destruct (window w) as [b|] eqn:Hw.
  - rewrite (validateState_browser w b Hw) in Hrun. cbn zeta in Hrun.
    injection Hrun as Hv Hw'. subst v. cbn in Hko. rewrite Hko in Hw'.
    congruence.
  - rewrite (validateState_serverSide rs w Hw) in Hrun. congruence.
Qed.

Lemma failed_validation_changes_nothing_witness :
  let w := snd (OAuthStateManager.saveState "twitter" "secret" (Some "/dashboard")
                  freshTab) in
  let v := OAuthStateManager.mkValidation false (Some "twitter")
             (Some "/dashboard") in
  OAuthStateManager.validateState "forged" w = (Normal v, w)
  ∧ OAuthStateManager.isValid v = false
  ∧ snd (OAuthStateManager.validateState "forged" w) = w.
Proof.
  cbv zeta.
  split; [vm_compute; reflexivity | split; [reflexivity|]].
  apply (failed_validation_changes_nothing _ _ "forged"
           (OAuthStateManager.mkValidation false (Some "twitter")
              (Some "/dashboard")));
    [vm_compute; reflexivity | reflexivity].
Defined.

(** X4: after [clearState] no state validates: every [validateState] answers
    [{isValid:false}] with no platform and no redirect, and every
    [handleCallback] is the invalid-state failure, whatever was stored
    before. *)
Theorem cleared_session_rejects_everything w (rs code : string) :
  let w1 := snd (OAuthStateManager.clearState w) in
  OAuthStateManager.validateState rs w1
  = (Normal (OAuthStateManager.mkValidation false None None), w1)
  ∧ OAuthFlowManager.handleCallback code rs w1
    = (Normal OAuthFlowManager.invalidState, w1).
Proof.
  intros w1.
  assert (Hv : OAuthStateManager.validateState rs w1
               = (Normal (OAuthStateManager.mkValidation false None None), w1)).
  { subst w1. destruct (window w) as [b|] eqn:Hw.
    - rewrite (clearState_browser w b Hw). cbn [snd].
      erewrite validateState_browser by reflexivity.
      cbn [setStorage sessionStorage].
      rewrite !clearedStorage_lookup by set_solver.
      rewrite bool_decide_eq_false_2 by discriminate. reflexivity.
    - rewrite (clearState_serverSide w Hw). cbn [snd].
      apply validateState_serverSide, Hw. }
  split; [exact Hv|]. rewrite handleCallback_unfold, Hv. reflexivity.
Qed.

(** X5: a second [saveState] supersedes the first session: in a browser,
    after [save(P1, s1, R1)] and [save(P2, s2, R2)] with [s2 != s1], the old
    token [s1] no longer validates, and the new token [s2] validates with the
    new platform [P2]. *)
Theorem second_save_supersedes w b (P1 P2 : Platform) (s1 s2 : string)
    (R1 R2 : option string) :
  window w = Some b →
  s1 ≠ s2 →
  let w2 := snd (OAuthStateManager.saveState P2 s2 R2
                   (snd (OAuthStateManager.saveState P1 s1 R1 w))) in
  OAuthStateManager.isValid <$> completionValue
    (fst (OAuthStateManager.validateState s1 w2)) = Some false
  ∧ snd (OAuthStateManager.validateState s1 w2) = w2
  ∧ ∃ R, fst (OAuthStateManager.validateState s2 w2)
         = Normal (OAuthStateManager.mkValidation true (Some P2) R).
Proof.
  intros Hw Hne w2.
  pose proof (window_after_save w b P1 s1 R1 Hw) as Hw1.
  pose proof (window_after_save _ _ P2 s2 R2 Hw1) as Hw2. fold w2 in Hw2.
  rewrite !(validateState_browser w2 _ Hw2). cbn [fst snd setStorage sessionStorage].
  rewrite !savedStorage_state, savedStorage_platform.
  rewrite bool_decide_eq_false_2 by congruence.
  rewrite bool_decide_eq_true_2 by reflexivity.
  split; [reflexivity|]. split; [reflexivity|]. eexists. reflexivity.
Qed.

Lemma second_save_supersedes_witness :
  let w2 := snd (OAuthStateManager.saveState "linkedin" "new" None
                   (snd (OAuthStateManager.saveState "twitter" "old"
                           (Some "/dashboard") freshTab))) in
  window freshTab
  = Some (mkBrowser "https://app.example" ∅ "https://app.example/")
  ∧ "old" ≠ "new"
  ∧ OAuthStateManager.isValid <$> completionValue
      (fst (OAuthStateManager.validateState "old" w2)) = Some false
  ∧ snd (OAuthStateManager.validateState "old" w2) = w2
  ∧ ∃ R, fst (OAuthStateManager.validateState "new" w2)
         = Normal (OAuthStateManager.mkValidation true (Some "linkedin") R).
Proof.
  cbv zeta.
  split; [reflexivity | split; [discriminate|]].
  apply (second_save_supersedes freshTab
           (mkBrowser "https://app.example" ∅ "https://app.example/")
           "twitter" "linkedin" "old" "new" (Some "/dashboard") None);
    [reflexivity | discriminate].
Defined.

(** X6: on the server, where there is no [window], [saveState] stores nothing,
    every [handleCallback] is the invalid-state failure, and [initiateFlow]
    throws a reference error after drawing the two random texts of the token,
    with nothing stored. *)
Theorem server_side_behaviour w :
  window w = None →
  (∀ P s R, OAuthStateManager.saveState P s R w = (Normal tt, w))
  ∧ (∀ code state,
       OAuthFlowManager.handleCallback code state w
       = (Normal OAuthFlowManager.invalidState, w))
  ∧ (∀ H platform redirectTo,
       OAuthFlowManager.initiateFlow H platform redirectTo w
       = (Throw (ReferenceError "window"),
          mkWorld None (env w) (random w) (S (S (drawn w))))).
Proof.
  intros Hw. split; [|split].
  - intros P s R. apply saveState_serverSide, Hw.
  - intros code state.
    rewrite handleCallback_unfold, (validateState_serverSide state w Hw).
    reflexivity.
  - intros H platform redirectTo.
    destruct w as [win e r d]; simpl in Hw; subst win. reflexivity.
Qed.

Lemma server_side_behaviour_witness :
  window serverSide = None
  ∧ OAuthStateManager.saveState "twitter" "tok" (Some "/dashboard") serverSide
    = (Normal tt, serverSide)
  ∧ OAuthFlowManager.handleCallback "4/0AbCd" "tok" serverSide
    = (Normal OAuthFlowManager.invalidState, serverSide)
  ∧ fst (OAuthFlowManager.initiateFlow sampleRuntime "twitter" None
           serverSide)
    = Throw (ReferenceError "window").
Proof.
  destruct (server_side_behaviour serverSide eq_refl) as (Hsave & Hcb & Hinit).
  split; [reflexivity|]. split; [apply Hsave|]. split; [apply Hcb|].
  rewrite Hinit. reflexivity.
Defined.

(* ====================================================================== *)
(** * Further properties of [handleCallback] *)
(* ====================================================================== *)

(** X7: in a browser, after [save(P, s, R)], [handleCallback(code, s)] with a
    non-empty code succeeds with the platform [P] and the stored redirect
    (which is [R] when [R] is given and non-empty), and consumes the session:
    the three keys are gone afterwards. *)
Theorem handleCallback_success w b (P : Platform) (s code : string)
    (R : option string) :
  window w = Some b →
  code ≠ "" →
  let w1 := snd (OAuthStateManager.saveState P s R w) in
  fst (OAuthFlowManager.handleCallback code s w1)
  = Normal (OAuthFlowManager.mkOutcome true (Some P)
              (if truthy_opt R then R
               else sessionStorage b !! OAuthStateManager.REDIRECT_KEY)
              None)
  ∧ ∀ k, k ∈ sessionKeys →
         storageOf (snd (OAuthFlowManager.handleCallback code s w1)) !! k = None.
Proof.
  intros Hw Hcode w1.
  pose proof (window_after_save w b P s R Hw) as Hw1. fold w1 in Hw1.
  rewrite handleCallback_unfold, (validateState_browser w1 _ Hw1).
  cbn [setStorage sessionStorage].
  rewrite savedStorage_state, savedStorage_platform, savedStorage_redirect.
  rewrite bool_decide_eq_true_2 by reflexivity.
  cbn [fst snd OAuthStateManager.isValid negb OAuthStateManager.platform
       OAuthStateManager.redirectTo].
  rewrite (truthy_nonempty code Hcode). split; [reflexivity|].
  intros k Hk. unfold storageOf. cbn [window setWindow setStorage sessionStorage].
  apply clearedStorage_lookup. exact Hk.
Qed.

Lemma handleCallback_success_witness :
  let w1 := snd (OAuthStateManager.saveState "instagram" "tok" (Some "/media")
                  freshTab) in
  window freshTab
  = Some (mkBrowser "https://app.example" ∅ "https://app.example/")
  ∧ "4/0AbCd" ≠ ""
  ∧ fst (OAuthFlowManager.handleCallback "4/0AbCd" "tok" w1)
    = Normal (OAuthFlowManager.mkOutcome true (Some "instagram") (Some "/media")
                None)
  ∧ ∀ k, k ∈ sessionKeys →
         storageOf (snd (OAuthFlowManager.handleCallback "4/0AbCd" "tok" w1))
         !! k = None.
Proof.
  cbv zeta.
  split; [reflexivity | split; [discriminate|]].
  apply (handleCallback_success freshTab
           (mkBrowser "https://app.example" ∅ "https://app.example/")
           "instagram" "tok" "4/0AbCd" (Some "/media"));
    [reflexivity | discriminate].
Defined.

(** X8: [handleCallback] reports success only for a callback that matches the
    stored session: when the outcome has [success=true], the call ran in a
    browser whose store held exactly the received state, the code was not
    empty, the outcome carries the stored platform and redirect and no error,
    and the store has been cleared. *)
Theorem handleCallback_success_sound w w' (code state : string) out :
  OAuthFlowManager.handleCallback code state w = (Normal out, w') →
  OAuthFlowManager.success out = true →
  ∃ b,
    window w = Some b
    ∧ sessionStorage b !! OAuthStateManager.STATE_KEY = Some state
    ∧ code ≠ ""
    ∧ out = OAuthFlowManager.mkOutcome true
              (sessionStorage b !! OAuthStateManager.PLATFORM_KEY)
              (sessionStorage b !! OAuthStateManager.REDIRECT_KEY) None
    ∧ storageOf w' = clearedStorage (sessionStorage b).
Proof.
  rewrite handleCallback_unfold. intros Hrun Hok.
  destruct (window w) as [b|] eqn:Hw.
  - rewrite (validateState_browser w b Hw) in Hrun. cbn zeta in Hrun.
    cbn [OAuthStateManager.isValid OAuthStateManager.platform
         OAuthStateManager.redirectTo] in Hrun.
    destruct (bool_decide (sessionStorage b !! OAuthStateManager.STATE_KEY
                           = Some state)) eqn:Hst.
    + apply bool_decide_eq_true_1 in Hst. cbn [negb] in Hrun.
      destruct (truthy code) eqn:Hcode; cbn [negb] in Hrun;
        injection Hrun as <- <-; [|discriminate Hok].
      exists b. split; [reflexivity|]. split; [exact Hst|].
      split; [intros ->; discriminate Hcode|].
      split; reflexivity.
    + cbn [negb] in Hrun. injection Hrun as <- _. discriminate Hok.
  - rewrite (validateState_serverSide state w Hw) in Hrun.
    injection Hrun as <- _. discriminate Hok.
Qed.

Lemma handleCallback_success_sound_witness :
  let w1 := snd (OAuthStateManager.saveState "youtube" "tok" None freshTab) in
  let out := OAuthFlowManager.mkOutcome true (Some "youtube") None None in
  OAuthFlowManager.handleCallback "4/0AbCd" "tok" w1
  = (Normal out, snd (OAuthFlowManager.handleCallback "4/0AbCd" "tok" w1))
  ∧ OAuthFlowManager.success out = true
  ∧ ∃ b,
      window w1 = Some b
      ∧ sessionStorage b !! OAuthStateManager.STATE_KEY = Some "tok"
      ∧ "4/0AbCd" ≠ ""
      ∧ out = OAuthFlowManager.mkOutcome true
                (sessionStorage b !! OAuthStateManager.PLATFORM_KEY)
                (sessionStorage b !! OAuthStateManager.REDIRECT_KEY) None
      ∧ storageOf (snd (OAuthFlowManager.handleCallback "4/0AbCd" "tok" w1))
        = clearedStorage (sessionStorage b).
Proof.
  cbv zeta.
  split; [vm_compute; reflexivity | split; [reflexivity|]].
  apply (handleCallback_success_sound
           (snd (OAuthStateManager.saveState "youtube" "tok" None freshTab))
           _ "4/0AbCd" "tok"
           (OAuthFlowManager.mkOutcome true (Some "youtube") None None));
    [vm_compute; reflexivity | reflexivity].
Defined.

(* ====================================================================== *)
(** * Further properties of the query serializer *)
(* ====================================================================== *)

Lemma allChars_append p (s1 s2 : string) :
  allChars p (s1 +:+ s2) = allChars p s1 && allChars p s2.
Proof.
  induction s1 as [|x s1 IH]; [reflexivity|].
  rewrite append_cons. cbn [allChars]. rewrite IH. apply andb_assoc.
Qed.

Lemma allChars_mapChars (p q : ascii → bool) (f : ascii → string) s :
  (∀ x, p x = true → allChars q (f x) = true) →
  allChars p s = true →
  allChars q (mapChars f s) = true.
Proof.
  intros Hf. induction s as [|x s IH]; [reflexivity|].
  cbn [allChars mapChars]. intros [Hx Hs]%andb_prop.
  rewrite allChars_append, (Hf x Hx), (IH Hs). reflexivity.
Qed.

Lemma allChars_weaken (p q : ascii → bool) s :
  (∀ x, p x = true → q x = true) →
  allChars p s = true → allChars q s = true.
Proof.
  intros Hpq. induction s as [|x s IH]; [reflexivity|].
  cbn [allChars]. intros [Hx Hs]%andb_prop.
  rewrite (Hpq x Hx), (IH Hs). reflexivity.
Qed.

Lemma encodeByte_chars c :
  allChars isQueryChar (URLSearchParams.encodeByte c) = true.
Proof. destruct c as [[] [] [] [] [] [] [] []]; reflexivity. Qed.

Lemma encodeByte_unreserved c :
  URLSearchParams.isUnreserved c = true →
  URLSearchParams.encodeByte c = String c EmptyString.
Proof. intros H. unfold URLSearchParams.encodeByte. rewrite H. reflexivity. Qed.

(** X9: serializing a parameter list and parsing the text gives the list
    back, whatever bytes the names and values contain; on single strings,
    [decode] undoes [encode]. *)
Theorem URLSearchParams_roundtrip :
  (∀ params : URLSearchParams.t,
     URLSearchParams.parse (URLSearchParams.toString params) = params)
  ∧ (∀ s : string, URLSearchParams.decode (URLSearchParams.encode s) = s).
Proof. split; [apply parse_toString | apply decode_encode]. Qed.

(** A serialized string consists of letters, digits and the characters
    [* - . _ + %] only; in particular it contains none of [&], [=], [#],
    [?], [/] and no space. *)
Lemma encode_alphabet (s : string) :
  allChars isQueryChar (URLSearchParams.encode s) = true
  ∧ occurs "&" (URLSearchParams.encode s) = false
  ∧ occurs "=" (URLSearchParams.encode s) = false
  ∧ occurs "#" (URLSearchParams.encode s) = false
  ∧ occurs "?" (URLSearchParams.encode s) = false
  ∧ occurs "/" (URLSearchParams.encode s) = false
  ∧ occurs " " (URLSearchParams.encode s) = false.
Proof.
  assert (Hall : allChars isQueryChar (URLSearchParams.encode s) = true).
  { apply (allChars_mapChars (fun _ => true)).
    - intros x _. apply encodeByte_chars.
    - clear. induction s as [|x s IH]; [reflexivity | exact IH]. }
  split; [exact Hall|].
  assert (Hocc : ∀ c, isQueryChar c = false →
                      occurs c (URLSearchParams.encode s) = false).
  { intros c Hc. revert Hall. generalize (URLSearchParams.encode s). clear s.
    intros s. induction s as [|x s IH]; [reflexivity|].
    cbn [allChars occurs]. intros [Hx Hs]%andb_prop.
    rewrite (IH Hs), orb_false_r.
    destruct (Ascii.eqb_spec x c) as [->|]; [congruence | reflexivity]. }
  repeat split; apply Hocc; reflexivity.
Qed.

Lemma encode_unreserved (s : string) :
  allChars URLSearchParams.isUnreserved s = true →
  URLSearchParams.encode s = s.
Proof.
  induction s as [|x s IH]; [reflexivity|].
  cbn [allChars]. intros [Hx Hs]%andb_prop.
  unfold URLSearchParams.encode in *. cbn [mapChars].
  rewrite (encodeByte_unreserved x Hx), (IH Hs). reflexivity.
Qed.

(* ====================================================================== *)
(** * The code challenge *)
(* ====================================================================== *)

Lemma base64Digit_char n : n < 64 → isBase64Char (base64Digit n) = true.
Proof.
  intros Hn.
  do 64 (destruct n as [|n]; [reflexivity|]). lia.
Qed.

Lemma nat_of_ascii_bound c : nat_of_ascii c < 256.
Proof. destruct c as [[] [] [] [] [] [] [] []]; vm_compute; lia. Qed.

Lemma base64_index_bounds x y :
  x < 256 → y < 256 →
  x / 4 < 64 ∧ x mod 4 * 16 < 64 ∧ x mod 4 * 16 + y / 16 < 64
  ∧ y mod 16 * 4 < 64 ∧ y mod 16 * 4 + x / 64 < 64 ∧ x mod 64 < 64.
Proof.
  intros Hx Hy.
  pose proof (Nat.mod_upper_bound x 4 ltac:(lia)).
  pose proof (Nat.mod_upper_bound y 16 ltac:(lia)).
  pose proof (Nat.mod_upper_bound x 64 ltac:(lia)).
  assert (x / 4 < 64) by (apply Nat.Div0.div_lt_upper_bound; lia).
  assert (y / 16 < 16) by (apply Nat.Div0.div_lt_upper_bound; lia).
  assert (x / 64 < 4) by (apply Nat.Div0.div_lt_upper_bound; lia).
  lia.
Qed.

(** The three cases of [btoa], proved together by induction on the rest. *)
Lemma btoa_chars_aux (s : string) :
  allChars isBase64Char (btoa s) = true
  ∧ (∀ a, allChars isBase64Char (btoa (String a s)) = true)
  ∧ (∀ a b, allChars isBase64Char (btoa (String a (String b s))) = true).
Proof.
  induction s as [|c s (IH0 & IH1 & IH2)].
  - split; [reflexivity|]. split.
    + intros a.
      destruct (base64_index_bounds (nat_of_ascii a) (nat_of_ascii a)
                  (nat_of_ascii_bound a) (nat_of_ascii_bound a))
        as (H1 & H2 & _).
      cbn [btoa allChars]. rewrite !base64Digit_char by assumption. reflexivity.
    + intros a b.
      destruct (base64_index_bounds (nat_of_ascii a) (nat_of_ascii b)
                  (nat_of_ascii_bound a) (nat_of_ascii_bound b))
        as (H1 & _ & H3 & H4 & _).
      cbn [btoa allChars]. rewrite !base64Digit_char by assumption. reflexivity.
  - split; [apply IH1|]. split; [intros a; apply IH2|].
    intros a b.
    destruct (base64_index_bounds (nat_of_ascii a) (nat_of_ascii b)
                (nat_of_ascii_bound a) (nat_of_ascii_bound b))
      as (H1 & _ & H3 & _).
    destruct (base64_index_bounds (nat_of_ascii c) (nat_of_ascii b)
                (nat_of_ascii_bound c) (nat_of_ascii_bound b))
      as (_ & _ & _ & _ & H5 & H6).
    cbn [btoa allChars]. rewrite !base64Digit_char by assumption.
    rewrite IH0. reflexivity.
Qed.

Lemma btoa_chars (s : string) : allChars isBase64Char (btoa s) = true.
Proof. apply btoa_chars_aux. Qed.

Lemma btoa_length_aux (s : string) :
  String.length (btoa s) = 4 * ((String.length s + 2) / 3)
  ∧ (∀ a, String.length (btoa (String a s))
          = 4 * ((String.length (String a s) + 2) / 3))
  ∧ (∀ a b, String.length (btoa (String a (String b s)))
            = 4 * ((String.length (String a (String b s)) + 2) / 3)).
Proof.
  induction s as [|c s (IH0 & IH1 & IH2)].
  - repeat split.
  - split; [apply IH1|]. split; [intros a; apply IH2|].
    intros a b. cbn [btoa String.length]. rewrite IH0.
    replace (S (S (S (String.length s))) + 2)
      with (String.length s + 2 + 1 * 3) by lia.
    rewrite Nat.div_add by lia. lia.
Qed.

Lemma replaceAll_length_le c r s :
  String.length r ≤ 1 →
  String.length (replaceAll c r s) ≤ String.length s.
Proof.
  intros Hr. induction s as [|x s IH]; [reflexivity|].
  unfold replaceAll in *. cbn [mapChars]. rewrite length_append.
  destruct (Ascii.eqb x c); cbn [String.length]; lia.
Qed.

Lemma codeChallenge_chars (s : string) :
  allChars isBase64UrlChar
    (replaceAll "=" "" (replaceAll "/" "_" (replaceAll "+" "-" (btoa s))))
  = true.
Proof.
  unfold replaceAll.
  apply (allChars_mapChars
           (fun x => isBase64UrlChar x || Ascii.eqb x "=")).
  { intros [[] [] [] [] [] [] [] []]; intros H; try reflexivity;
      discriminate H. }
  apply (allChars_mapChars
           (fun x => isBase64UrlChar x || Ascii.eqb x "=" || Ascii.eqb x "/")).
  { intros [[] [] [] [] [] [] [] []]; intros H; try reflexivity;
      discriminate H. }
  apply (allChars_mapChars isBase64Char).
  { intros [[] [] [] [] [] [] [] []]; intros H; try reflexivity;
      discriminate H. }
  apply btoa_chars.
Qed.

(** X12: whatever the random source yields, the code challenge of the twitter
    URL is made of letters, digits, [-] and [_] only (the base64url alphabet
    without padding), has at most twenty characters, and is therefore put in
    the query string as it is. *)
Theorem generateCodeChallenge_urlsafe w :
  ∃ challenge,
    fst (OAuthUrlBuilder.generateCodeChallenge w) = Normal challenge
    ∧ allChars isBase64UrlChar challenge = true
    ∧ String.length challenge ≤ 20
    ∧ URLSearchParams.encode challenge = challenge.
Proof.
  eexists. split; [reflexivity|].
  pose proof (codeChallenge_chars (substring (random w (drawn w)) 2 15)) as Hc.
  split; [exact Hc|]. split.
  - etransitivity; [apply replaceAll_length_le; cbn; lia|].
    etransitivity; [apply replaceAll_length_le; cbn; lia|].
    etransitivity; [apply replaceAll_length_le; cbn; lia|].
    destruct (btoa_length_aux (substring (random w (drawn w)) 2 15)) as [-> _].
    pose proof (substring_length (random w (drawn w)) 2 15) as Hlen.
    assert ((String.length (substring (random w (drawn w)) 2 15) + 2) / 3 ≤ 5).
    { apply Nat.Div0.div_le_upper_bound. lia. }
    lia.
  - apply encode_unreserved.
    revert Hc. apply allChars_weaken.
    intros [[] [] [] [] [] [] [] []]; intros H; try reflexivity; discriminate H.
Qed.

(* ====================================================================== *)
(** * Further properties of [buildAuthUrl] *)
(* ====================================================================== *)

(** Distinct member values are pairwise different. *)
Lemma supported_NoDup (H : Runtime) :
  NoDup (supported H) →
  TWITTER H ≠ FACEBOOK H ∧ TWITTER H ≠ INSTAGRAM H ∧ TWITTER H ≠ LINKEDIN H
  ∧ TWITTER H ≠ TIKTOK H ∧ TWITTER H ≠ YOUTUBE H
  ∧ FACEBOOK H ≠ INSTAGRAM H ∧ FACEBOOK H ≠ LINKEDIN H
  ∧ FACEBOOK H ≠ TIKTOK H ∧ FACEBOOK H ≠ YOUTUBE H
  ∧ INSTAGRAM H ≠ LINKEDIN H ∧ INSTAGRAM H ≠ TIKTOK H
  ∧ INSTAGRAM H ≠ YOUTUBE H
  ∧ LINKEDIN H ≠ TIKTOK H ∧ LINKEDIN H ≠ YOUTUBE H
  ∧ TIKTOK H ≠ YOUTUBE H.
Proof.
  unfold supported. rewrite !NoDup_cons, !not_elem_of_cons. intuition.
Qed.

(** X13: for a platform outside the supported set [buildAuthUrl] throws the
    configuration error at once, with no random text drawn and the world
    left as it was, unless the platform is the name of a property of
    [Object.prototype]: the lookup then finds the inherited value and the
    check passes.  For a request with a scope list the call returns a URL
    that starts with [undefined?] and carries the five common parameters
    only; for a request without one it ends in a [TypeError]. *)
Theorem buildAuthUrl_unknown_platform (H : Runtime) (platform : Platform)
    (config : OAuthConfig.t) (w : World) :
  platform ∉ supported H →
  (platform ∉ objectPrototypeNames →
   OAuthUrlBuilder.buildAuthUrl H platform config w
   = (Throw (Error ("OAuth configuration not found for platform: "
                    +:+ platform)), w))
  ∧ (platform ∈ objectPrototypeNames →
     (OAuthConfig.scope config = None →
      OAuthUrlBuilder.buildAuthUrl H platform config w = (Throw TypeError, w))
     ∧ (∀ scopes,
          OAuthConfig.scope config = Some scopes →
          OAuthUrlBuilder.buildAuthUrl H platform config w
          = (Normal ("undefined?"
                     +:+ URLSearchParams.toString
                           (baseParams H config scopes w)),
             mkWorld (window w) (env w) (random w)
               ((if truthy_opt (OAuthConfig.state config) then 0 else 2)
                + drawn w)))).
Proof.
  intros Hp. rewrite buildAuthUrl_run.
  rewrite (getProperty_None _ _ (OAUTH_CONFIGS_unsupported H platform Hp)).
  split; intros Hn.
  - rewrite (bool_decide_eq_false_2 _ Hn). reflexivity.
  - rewrite (bool_decide_eq_true_2 _ Hn). split.
    + intros Hscope.
      rewrite (buildAuthParams_no_scope H platform config w Hscope).
      reflexivity.
    + intros scopes Hscope.
      rewrite (buildAuthParams_state H platform config scopes w Hscope).
      destruct (platformParams_cases H platform
                  (baseParams H config scopes w)
                  (mkWorld (window w) (env w) (random w)
                     ((if truthy_opt (OAuthConfig.state config)
                       then 0 else 2) + drawn w)))
        as (extra & n & -> & Hn' & Hcases).
      unfold supported in Hp. rewrite !not_elem_of_cons in Hp.
      destruct Hp as (Hout & N2 & N3 & N4 & N5 & N6 & _).
      assert (n = 0) as ->
        by (rewrite Hn'; destruct (String.eqb_spec platform (TWITTER H));
            [contradiction | reflexivity]).
      assert (extra = []) as ->.
      { destruct Hcases
          as [(Heq & _)|[(_ & Heq & _)|[(_ & Heq & _)|[(_ & Heq & _)
              |[(_ & Heq & _)|(_ & Heq)]]]]];
          [exfalso; intuition congruence.. | exact Heq]. }
      rewrite app_nil_r. reflexivity.
Qed.

Lemma buildAuthUrl_unknown_platform_witness :
  ("mastodon" ∉ supported sampleRuntime)
  ∧ ("mastodon" ∉ objectPrototypeNames)
  ∧ OAuthUrlBuilder.buildAuthUrl sampleRuntime "mastodon"
      (typedConfig "id" "https://app.example/auth/callback" ["read"] None)
      freshTab
    = (Throw (Error "OAuth configuration not found for platform: mastodon"),
       freshTab)
  ∧ ("constructor" ∉ supported sampleRuntime)
  ∧ ("constructor" ∈ objectPrototypeNames)
  ∧ fst (OAuthUrlBuilder.buildAuthUrl sampleRuntime "constructor"
           (typedConfig "id" "https://app.example/auth/callback" ["read"]
              (Some "tok"))
           freshTab)
    = Normal "undefined?client_id=id&redirect_uri=https%3A%2F%2Fapp.example%2Fauth%2Fcallback&scope=read&response_type=code&state=tok".
Proof.
  assert (Hp : "mastodon" ∉ supported sampleRuntime)
    by (apply (bool_decide_unpack _); vm_compute; exact I).
  assert (Hn : "mastodon" ∉ objectPrototypeNames)
    by (apply (bool_decide_unpack _); vm_compute; exact I).
  assert (Hp' : "constructor" ∉ supported sampleRuntime)
    by (apply (bool_decide_unpack _); vm_compute; exact I).
  assert (Hn' : "constructor" ∈ objectPrototypeNames)
    by (apply (bool_decide_unpack _); vm_compute; exact I).
  split; [exact Hp|]. split; [exact Hn|].
  split.
  { apply (proj1 (buildAuthUrl_unknown_platform sampleRuntime "mastodon"
                    (typedConfig "id" "https://app.example/auth/callback"
                       ["read"] None)
                    freshTab Hp) Hn). }
  split; [exact Hp'|]. split; [exact Hn'|].
  rewrite (proj2 (proj2 (buildAuthUrl_unknown_platform sampleRuntime
                           "constructor"
                           (typedConfig "id"
                              "https://app.example/auth/callback" ["read"]
                              (Some "tok"))
                           freshTab Hp') Hn') ["read"] eq_refl).
  vm_compute. reflexivity.
Defined.

(** X14: the platform-specific parameters, read back from the URL, when the
    six members of [Platform] have distinct values: facebook and instagram
    carry [display=popup], youtube carries [access_type=offline] and
    [prompt=consent], and no other supported platform carries any of the
    three; linkedin has the five common parameters only, and tiktok has
    [response_type=code] twice. *)
Theorem buildAuthUrl_platform_parameters (H : Runtime) (platform : Platform)
    (config : OAuthConfig.t) (scopes : list string) (w : World) :
  NoDup (supported H) →
  platform ∈ supported H →
  OAuthConfig.scope config = Some scopes →
  ∃ url,
    fst (OAuthUrlBuilder.buildAuthUrl H platform config w) = Normal url
    ∧ let params := URLSearchParams.ofUrl url in
      URLSearchParams.get "display" params
      = (if bool_decide (platform = FACEBOOK H ∨ platform = INSTAGRAM H)
         then Some "popup" else None)
      ∧ URLSearchParams.get "access_type" params
        = (if bool_decide (platform = YOUTUBE H) then Some "offline"
           else None)
      ∧ URLSearchParams.get "prompt" params
        = (if bool_decide (platform = YOUTUBE H) then Some "consent"
           else None)
      ∧ (platform = LINKEDIN H → length params = 5)
      ∧ (platform = TIKTOK H →
         filter (λ p, p.1 = "response_type") params
         = [("response_type", "code"); ("response_type", "code")]).
Proof.
  intros Hnd Hin Hscope.
  apply supported_NoDup in Hnd.
  destruct (buildAuthUrl_result H platform config scopes w Hin Hscope)
    as (pc & extra & n & Hpc & Hq & Hrun & _ & Hcases).
  eexists. split; [rewrite Hrun; reflexivity|].
  cbv zeta. rewrite (ofUrl_build _ _ Hq). unfold baseParams.
  destruct Hcases as [(Hp & ch & wc & _ & ->)|[(_ & Hp & ->)|[(_ & Hp & ->)
                       |[(_ & Hp & ->)|(_ & Hp & ->)]]]];
    cbn [app URLSearchParams.get String.eqb Ascii.eqb Bool.eqb];
    repeat case_bool_decide;
    repeat split; try reflexivity; try (exfalso; intuition congruence);
    intros Heq; exfalso; intuition congruence.
Qed.

Lemma buildAuthUrl_platform_parameters_witness :
  let config :=
    typedConfig "youtube-client" "https://app.example/auth/callback"
      ["https://www.googleapis.com/auth/youtube.upload"] (Some "tok") in
  NoDup (supported sampleRuntime)
  ∧ ("youtube" ∈ supported sampleRuntime)
  ∧ ∃ url,
      fst (OAuthUrlBuilder.buildAuthUrl sampleRuntime "youtube" config
             freshTab) = Normal url
      ∧ URLSearchParams.get "display" (URLSearchParams.ofUrl url) = None
      ∧ URLSearchParams.get "access_type" (URLSearchParams.ofUrl url)
        = Some "offline"
      ∧ URLSearchParams.get "prompt" (URLSearchParams.ofUrl url)
        = Some "consent".
Proof.
  cbv zeta.
  assert (Hnd : NoDup (supported sampleRuntime))
    by (apply (bool_decide_unpack _); vm_compute; exact I).
  assert (Hin : "youtube" ∈ supported sampleRuntime)
    by (apply (bool_decide_unpack _); vm_compute; exact I).
  split; [exact Hnd|]. split; [exact Hin|].
  destruct (buildAuthUrl_platform_parameters sampleRuntime "youtube"
              (typedConfig "youtube-client"
                 "https://app.example/auth/callback"
                 ["https://www.googleapis.com/auth/youtube.upload"]
                 (Some "tok"))
              ["https://www.googleapis.com/auth/youtube.upload"]
              freshTab Hnd Hin eq_refl)
    as (url & Hurl & Hdisplay & Haccess & Hprompt & _).
  exists url. repeat split; assumption.
Defined.

(** X15: [buildAuthUrl] for a supported platform and a request with a scope
    list neither stores nor navigates: the window and the environment are
    untouched, and the only effect is on the random source, which is drawn
    twice when the request has no (non-empty) state and once more for
    twitter. *)
Theorem buildAuthUrl_effects (H : Runtime) (platform : Platform)
    (config : OAuthConfig.t) (scopes : list string) (w : World) :
  platform ∈ supported H →
  OAuthConfig.scope config = Some scopes →
  snd (OAuthUrlBuilder.buildAuthUrl H platform config w)
  = mkWorld (window w) (env w) (random w)
      ((if String.eqb platform (TWITTER H) then 1 else 0)
       + (if truthy_opt (OAuthConfig.state config) then 0 else 2)
       + drawn w).
Proof.
  intros Hin Hscope.
  destruct (buildAuthUrl_result H platform config scopes w Hin Hscope)
    as (pc & extra & n & _ & _ & Hrun & Hn & _).
  rewrite Hrun, Hn. reflexivity.
Qed.

Lemma buildAuthUrl_effects_witness :
  ("twitter" ∈ supported sampleRuntime)
  ∧ snd (OAuthUrlBuilder.buildAuthUrl sampleRuntime "twitter"
           (typedConfig "twitter-client" "https://app.example/auth/callback"
              ["tweet.read"] None)
           freshTab)
    = mkWorld (window freshTab) (env freshTab) (random freshTab) 3.
Proof.
  assert (Hin : "twitter" ∈ supported sampleRuntime)
    by (apply (bool_decide_unpack _); vm_compute; exact I).
  split; [exact Hin|].
  apply (buildAuthUrl_effects sampleRuntime "twitter"
           (typedConfig "twitter-client" "https://app.example/auth/callback"
              ["tweet.read"] None)
           ["tweet.read"] freshTab Hin eq_refl).
Defined.

(* ====================================================================== *)
(** * Further properties of the flow manager *)
(* ====================================================================== *)

(** With distinct member values, the entry of a platform in [clientIds] is
    the value of its variable. *)
Lemma getClientId_variable H platform var w :
  NoDup (supported H) →
  (platform, var) ∈ clientIdVariables H →
  OAuthFlowManager.getClientId H platform w
  = match env w !! var with
    | Some clientId =>
        if truthy clientId then (Normal (Plain clientId), w)
        else (Throw (clientIdNotConfigured platform), w)
    | None => (Throw (clientIdNotConfigured platform), w)
    end.
Proof.
  intros Hnd Hvar.
  unfold OAuthFlowManager.getClientId, bind, OAuthFlowManager.processEnv.
  match goal with
  | |- context [objectLiteral ?entries] =>
      rewrite (getProperty_Some (objectLiteral entries) platform
                 (env w !! var))
  end.
  - destruct (env w !! var) as [cid|]; [destruct (truthy cid)|]; reflexivity.
  - apply objectLiteral_lookup_NoDup; [exact Hnd|].
    unfold clientIdVariables in Hvar.
    rewrite !elem_of_cons, elem_of_nil in Hvar.
    destruct Hvar as [[= -> ->]|[[= -> ->]|[[= -> ->]|[[= -> ->]|[[= -> ->]
                      |[[= -> ->]|[]]]]]]];
      rewrite !elem_of_cons; auto 10.
Qed.

(** X16: with distinct member values, [getClientId] returns the value of
    the platform's environment variable when it is set and not empty, and
    throws "Client ID not configured for platform: P" when it is unset or
    empty.  For a platform outside the supported set it throws the same
    error, unless the platform is the name of a property of
    [Object.prototype]: it then returns the inherited value, which is not a
    string.  It never changes the world. *)
Theorem getClientId_behaviour (H : Runtime) (platform : Platform)
    (w : World) :
  (NoDup (supported H) →
   ∀ var, (platform, var) ∈ clientIdVariables H →
     OAuthFlowManager.getClientId H platform w
     = match env w !! var with
       | Some clientId =>
           if String.eqb clientId ""
           then (Throw (Error ("Client ID not configured for platform: "
                               +:+ platform)), w)
           else (Normal (Plain clientId), w)
       | None => (Throw (Error ("Client ID not configured for platform: "
                                +:+ platform)), w)
       end)
  ∧ (platform ∉ supported H → platform ∉ objectPrototypeNames →
     OAuthFlowManager.getClientId H platform w
     = (Throw (Error ("Client ID not configured for platform: "
                      +:+ platform)), w))
  ∧ (platform ∉ supported H → platform ∈ objectPrototypeNames →
     OAuthFlowManager.getClientId H platform w
     = (Normal (Object platform), w)).
Proof.
  split; [|split].
  - intros Hnd var Hvar.
    rewrite (getClientId_variable H platform var w Hnd Hvar).
    destruct (env w !! var) as [cid|]; [|reflexivity].
    unfold truthy. destruct (String.eqb cid ""); reflexivity.
  - intros Hp Hn. rewrite (getClientId_unsupported H platform w Hp).
    rewrite (bool_decide_eq_false_2 _ Hn). reflexivity.
  - intros Hp Hn. rewrite (getClientId_unsupported H platform w Hp).
    rewrite (bool_decide_eq_true_2 _ Hn). reflexivity.
Qed.

Lemma getClientId_behaviour_witness :
  NoDup (supported sampleRuntime)
  ∧ (("tiktok", "NEXT_PUBLIC_TIKTOK_CLIENT_ID")
     ∈ clientIdVariables sampleRuntime)
  ∧ OAuthFlowManager.getClientId sampleRuntime "tiktok" freshTab
    = (Normal (Plain "tiktok-client"), freshTab)
  ∧ ("mastodon" ∉ supported sampleRuntime)
  ∧ ("mastodon" ∉ objectPrototypeNames)
  ∧ OAuthFlowManager.getClientId sampleRuntime "mastodon" freshTab
    = (Throw (Error "Client ID not configured for platform: mastodon"),
       freshTab)
  ∧ ("toString" ∉ supported sampleRuntime)
  ∧ ("toString" ∈ objectPrototypeNames)
  ∧ OAuthFlowManager.getClientId sampleRuntime "toString" freshTab
    = (Normal (Object "toString"), freshTab).
Proof.
  assert (Hnd : NoDup (supported sampleRuntime))
    by (apply (bool_decide_unpack _); vm_compute; exact I).
  assert (Hv : ("tiktok", "NEXT_PUBLIC_TIKTOK_CLIENT_ID")
               ∈ clientIdVariables sampleRuntime)
    by (apply (bool_decide_unpack _); vm_compute; exact I).
  assert (Hp : "mastodon" ∉ supported sampleRuntime)
    by (apply (bool_decide_unpack _); vm_compute; exact I).
  assert (Hn : "mastodon" ∉ objectPrototypeNames)
    by (apply (bool_decide_unpack _); vm_compute; exact I).
  assert (Hp' : "toString" ∉ supported sampleRuntime)
    by (apply (bool_decide_unpack _); vm_compute; exact I).
  assert (Hn' : "toString" ∈ objectPrototypeNames)
    by (apply (bool_decide_unpack _); vm_compute; exact I).
  split; [exact Hnd|]. split; [exact Hv|]. split.
  { exact (proj1 (getClientId_behaviour sampleRuntime "tiktok" freshTab)
             Hnd _ Hv). }
  split; [exact Hp|]. split; [exact Hn|]. split.
  { exact (proj1 (proj2 (getClientId_behaviour sampleRuntime "mastodon"
                           freshTab)) Hp Hn). }
  split; [exact Hp'|]. split; [exact Hn'|].
  exact (proj2 (proj2 (getClientId_behaviour sampleRuntime "toString"
                         freshTab)) Hp' Hn').
Defined.

(** X17: when the client identifier of a supported platform is not
    configured, [initiateFlow] throws the error of [getClientId] only after
    the session has been saved: the token, the platform and a given redirect
    are in the store, two random texts have been drawn, and the browser has
    not navigated. *)
Theorem initiate_missing_client_id (H : Runtime) w b (platform : Platform)
    (redirectTo : option string) e :
  window w = Some b →
  platform ∈ supported H →
  fst (OAuthFlowManager.getClientId H platform w) = Throw e →
  OAuthFlowManager.initiateFlow H platform redirectTo w
  = (Throw e,
     mkWorld
       (Some (mkBrowser (origin b)
                (savedStorage platform (stateToken w) redirectTo
                   (sessionStorage b))
                (href b)))
       (env w) (random w) (S (S (drawn w)))).
Proof.
  intros Hw Hin Hcid.
  destruct (OAUTH_CONFIGS_supported H platform Hin) as (pc & Hpc & _).
  rewrite (initiateFlow_steps H w b platform redirectTo Hw).
  rewrite (getProperty_Some _ _ _ Hpc).
  rewrite (getClientId_env H platform w (afterSave platform redirectTo b w)
             eq_refl).
  rewrite Hcid. reflexivity.
Qed.

Lemma initiate_missing_client_id_witness :
  window freshTab
  = Some (mkBrowser "https://app.example" ∅ "https://app.example/")
  ∧ ("facebook" ∈ supported sampleRuntime)
  ∧ fst (OAuthFlowManager.getClientId sampleRuntime "facebook" freshTab)
    = Throw (Error "Client ID not configured for platform: facebook")
  ∧ fst (OAuthFlowManager.initiateFlow sampleRuntime "facebook"
           (Some "/pages") freshTab)
    = Throw (Error "Client ID not configured for platform: facebook")
  ∧ storageOf (snd (OAuthFlowManager.initiateFlow sampleRuntime "facebook"
                      (Some "/pages") freshTab))
    = savedStorage "facebook" "4fzyo82mvyrk3j9x1qz0ab" (Some "/pages") ∅.
Proof.
  assert (Hin : "facebook" ∈ supported sampleRuntime)
    by (apply (bool_decide_unpack _); vm_compute; exact I).
  split; [reflexivity|]. split; [exact Hin|].
  split; [vm_compute; reflexivity|].
  rewrite (initiate_missing_client_id sampleRuntime freshTab
             (mkBrowser "https://app.example" ∅ "https://app.example/")
             "facebook" (Some "/pages")
             (Error "Client ID not configured for platform: facebook")
             eq_refl Hin ltac:(vm_compute; reflexivity)).
  split; reflexivity.
Defined.

(** X18: a successful [initiateFlow] (browser, supported platform, client
    identifier configured) stores the session [{token, platform, redirect}]
    and navigates to a URL that carries the configured client identifier,
    [redirect_uri = origin + "/auth/callback"], the scope list of the
    platform's entry in the registry joined by spaces, [response_type=code]
    and, when the token is not empty, the stored token as [state]. *)
Theorem initiateFlow_navigates (H : Runtime) w b (platform : Platform)
    (redirectTo : option string) (clientId : string) :
  window w = Some b →
  platform ∈ supported H →
  fst (OAuthFlowManager.getClientId H platform w) = Normal (Plain clientId) →
  ∃ w' b',
    OAuthFlowManager.initiateFlow H platform redirectTo w = (Normal tt, w')
    ∧ window w' = Some b'
    ∧ origin b' = origin b
    ∧ sessionStorage b'
      = savedStorage platform (stateToken w) redirectTo (sessionStorage b)
    ∧ let params := URLSearchParams.ofUrl (href b') in
      URLSearchParams.get "client_id" params = Some clientId
      ∧ URLSearchParams.get "redirect_uri" params
        = Some (origin b +:+ "/auth/callback")
      ∧ URLSearchParams.get "scope" params
        = String.concat " "
            <$> scopeOf (getProperty (OAUTH_CONFIGS H) platform)
      ∧ URLSearchParams.get "response_type" params = Some "code"
      ∧ (stateToken w ≠ "" →
         URLSearchParams.get "state" params = Some (stateToken w)).
Proof.
  intros Hw Hin Hcid.
  destruct (initiateFlow_success H w b platform redirectTo (Plain clientId)
              Hw Hin Hcid)
    as (pc & extra & n & url & Hpc & Hrun & Hparams).
  eexists _, _. split; [exact Hrun|]. split; [reflexivity|].
  split; [reflexivity|]. split; [reflexivity|].
  cbv zeta. cbn [href]. rewrite Hparams, Hpc. unfold baseParams, requestState.
  cbn [app URLSearchParams.get String.eqb Ascii.eqb Bool.eqb
       OAuthConfig.clientId OAuthConfig.redirectUri OAuthConfig.scope
       OAuthConfig.state fmap option_fmap option_map scopeOf textOf].
  repeat (split; [reflexivity|]).
  intros Hne. rewrite (truthy_nonempty _ Hne). reflexivity.
Qed.

Lemma initiateFlow_navigates_witness :
  window freshTab
  = Some (mkBrowser "https://app.example" ∅ "https://app.example/")
  ∧ ("tiktok" ∈ supported sampleRuntime)
  ∧ fst (OAuthFlowManager.getClientId sampleRuntime "tiktok" freshTab)
    = Normal (Plain "tiktok-client")
  ∧ ∃ w' b',
      OAuthFlowManager.initiateFlow sampleRuntime "tiktok" (Some "/videos")
        freshTab
      = (Normal tt, w')
      ∧ window w' = Some b'
      ∧ sessionStorage b'
        = savedStorage "tiktok" "4fzyo82mvyrk3j9x1qz0ab" (Some "/videos") ∅
      ∧ URLSearchParams.get "client_id" (URLSearchParams.ofUrl (href b'))
        = Some "tiktok-client"
      ∧ URLSearchParams.get "redirect_uri" (URLSearchParams.ofUrl (href b'))
        = Some "https://app.example/auth/callback"
      ∧ URLSearchParams.get "scope" (URLSearchParams.ofUrl (href b'))
        = Some "user.info.basic video.list video.upload".
Proof.
  assert (Hin : "tiktok" ∈ supported sampleRuntime)
    by (apply (bool_decide_unpack _); vm_compute; exact I).
  split; [reflexivity|]. split; [exact Hin|].
  split; [vm_compute; reflexivity|].
  destruct (initiateFlow_navigates sampleRuntime freshTab
              (mkBrowser "https://app.example" ∅ "https://app.example/")
              "tiktok" (Some "/videos") "tiktok-client"
              eq_refl Hin ltac:(vm_compute; reflexivity))
    as (w' & b' & Hrun & Hw' & _ & Hst & Hcid & Huri & Hscope & _).
  exists w', b'. split; [exact Hrun|]. split; [exact Hw'|].
  split; [exact Hst|]. split; [exact Hcid|]. split; [exact Huri|].
  exact Hscope.
Defined.

(** X19: the flow closes: after a successful [initiateFlow] whose token is
    not empty, [handleCallback] called with a non-empty code and the [state]
    parameter of the URL the browser was sent to succeeds, with the platform
    the flow was started for and the stored redirect. *)
Theorem initiate_then_callback (H : Runtime) w b (platform : Platform)
    (redirectTo : option string) (clientId : Value string) (code : string) :
  window w = Some b →
  platform ∈ supported H →
  fst (OAuthFlowManager.getClientId H platform w) = Normal clientId →
  stateToken w ≠ "" →
  code ≠ "" →
  ∃ w' b' state,
    OAuthFlowManager.initiateFlow H platform redirectTo w = (Normal tt, w')
    ∧ window w' = Some b'
    ∧ URLSearchParams.get "state" (URLSearchParams.ofUrl (href b'))
      = Some state
    ∧ fst (OAuthFlowManager.handleCallback code state w')
      = Normal (OAuthFlowManager.mkOutcome true (Some platform)
                  (if truthy_opt redirectTo then redirectTo
                   else sessionStorage b !! OAuthStateManager.REDIRECT_KEY)
                  None).
Proof.
  intros Hw Hin Hcid Htok Hcode.
  destruct (initiateFlow_success H w b platform redirectTo clientId Hw Hin
              Hcid)
    as (pc & extra & n & url & Hpc & Hrun & Hparams).
  eexists _, _, (stateToken w). split; [exact Hrun|]. split; [reflexivity|].
  split.
  - cbn [href]. rewrite Hparams. unfold baseParams, requestState.
    cbn [app URLSearchParams.get String.eqb Ascii.eqb Bool.eqb
         OAuthConfig.state].
    rewrite (truthy_nonempty _ Htok). reflexivity.
  - rewrite handleCallback_unfold.
    erewrite validateState_browser by reflexivity.
    cbn [sessionStorage].
    rewrite savedStorage_state, savedStorage_platform, savedStorage_redirect.
    rewrite bool_decide_eq_true_2 by reflexivity.
    cbn [fst OAuthStateManager.isValid negb OAuthStateManager.platform
         OAuthStateManager.redirectTo].
    rewrite (truthy_nonempty code Hcode). reflexivity.
Qed.

Lemma initiate_then_callback_witness :
  window freshTab
  = Some (mkBrowser "https://app.example" ∅ "https://app.example/")
  ∧ ("twitter" ∈ supported sampleRuntime)
  ∧ fst (OAuthFlowManager.getClientId sampleRuntime "twitter" freshTab)
    = Normal (Plain "twitter-client")
  ∧ stateToken freshTab ≠ ""
  ∧ "4/0AbCd" ≠ ""
  ∧ ∃ w' b' state,
      OAuthFlowManager.initiateFlow sampleRuntime "twitter"
        (Some "/dashboard") freshTab
      = (Normal tt, w')
      ∧ window w' = Some b'
      ∧ URLSearchParams.get "state" (URLSearchParams.ofUrl (href b'))
        = Some state
      ∧ fst (OAuthFlowManager.handleCallback "4/0AbCd" state w')
        = Normal (OAuthFlowManager.mkOutcome true (Some "twitter")
                    (Some "/dashboard") None).
Proof.
  assert (Hin : "twitter" ∈ supported sampleRuntime)
    by (apply (bool_decide_unpack _); vm_compute; exact I).
  split; [reflexivity|]. split; [exact Hin|].
  split; [vm_compute; reflexivity|].
  split; [vm_compute; discriminate|]. split; [discriminate|].
  apply (initiate_then_callback sampleRuntime freshTab
           (mkBrowser "https://app.example" ∅ "https://app.example/")
           "twitter" (Some "/dashboard") (Plain "twitter-client") "4/0AbCd"
           eq_refl Hin);
    [vm_compute; reflexivity | vm_compute; discriminate | discriminate].
Defined.

(** X20: when both random texts of the token are shorter than three
    characters the token is empty; [initiateFlow] then stores the empty token,
    while [buildAuthUrl], finding the state empty, generates another one for
    the URL.  If that one is not empty, the callback that brings it back is
    rejected as an invalid state. *)
Theorem empty_token_breaks_flow (H : Runtime) w b (platform : Platform)
    (redirectTo : option string) (clientId : Value string) :
  window w = Some b →
  platform ∈ supported H →
  fst (OAuthFlowManager.getClientId H platform w) = Normal clientId →
  stateToken w = "" →
  let second :=
    stateToken (mkWorld (window w) (env w) (random w) (S (S (drawn w)))) in
  second ≠ "" →
  ∃ w' b',
    OAuthFlowManager.initiateFlow H platform redirectTo w = (Normal tt, w')
    ∧ window w' = Some b'
    ∧ sessionStorage b' !! OAuthStateManager.STATE_KEY = Some ""
    ∧ URLSearchParams.get "state" (URLSearchParams.ofUrl (href b'))
      = Some second
    ∧ ∀ code,
        fst (OAuthFlowManager.handleCallback code second w')
        = Normal OAuthFlowManager.invalidState.
Proof.
  intros Hw Hin Hcid Htok second Hsecond.
  destruct (initiateFlow_success H w b platform redirectTo clientId Hw Hin
              Hcid)
    as (pc & extra & n & url & Hpc & Hrun & Hparams).
  eexists _, _. split; [exact Hrun|]. split; [reflexivity|].
  cbn [sessionStorage href]. rewrite savedStorage_state, Htok.
  split; [reflexivity|]. split.
  - rewrite Hparams. unfold baseParams, requestState.
    cbn [app URLSearchParams.get String.eqb Ascii.eqb Bool.eqb
         OAuthConfig.state].
    rewrite ?Htok. reflexivity.
  - intros code. rewrite handleCallback_unfold.
    erewrite validateState_browser by reflexivity.
    cbn [sessionStorage]. rewrite savedStorage_state, ?Htok.
    rewrite bool_decide_eq_false_2 by congruence. reflexivity.
Qed.

Lemma empty_token_breaks_flow_witness :
  window unluckyTab
  = Some (mkBrowser "https://app.example" ∅ "https://app.example/")
  ∧ ("twitter" ∈ supported sampleRuntime)
  ∧ fst (OAuthFlowManager.getClientId sampleRuntime "twitter" unluckyTab)
    = Normal (Plain "twitter-client")
  ∧ stateToken unluckyTab = ""
  ∧ "4fzyo82mvyrk3j9x1qz0ab" ≠ ""
  ∧ ∃ w' b',
      OAuthFlowManager.initiateFlow sampleRuntime "twitter" None unluckyTab
      = (Normal tt, w')
      ∧ window w' = Some b'
      ∧ sessionStorage b' !! OAuthStateManager.STATE_KEY = Some ""
      ∧ URLSearchParams.get "state" (URLSearchParams.ofUrl (href b'))
        = Some "4fzyo82mvyrk3j9x1qz0ab"
      ∧ ∀ code,
          fst (OAuthFlowManager.handleCallback code "4fzyo82mvyrk3j9x1qz0ab" w')
          = Normal OAuthFlowManager.invalidState.
Proof.
  assert (Hin : "twitter" ∈ supported sampleRuntime)
    by (apply (bool_decide_unpack _); vm_compute; exact I).
  split; [reflexivity|]. split; [exact Hin|].
  split; [vm_compute; reflexivity|]. split; [reflexivity|].
  split; [discriminate|].
  apply (empty_token_breaks_flow sampleRuntime unluckyTab
           (mkBrowser "https://app.example" ∅ "https://app.example/")
           "twitter" None (Plain "twitter-client") eq_refl Hin);
    [vm_compute; reflexivity | reflexivity | vm_compute; discriminate].
Defined.

(* ====================================================================== *)
(** * Further properties of the error handler *)
(* ====================================================================== *)

Lemma errorMessages_truthy (c m : string) :
  OAuthErrorHandler.errorMessages !! c = Some m → truthy m = true.
Proof.
  destruct (decide (c ∈ providerErrorCodes)) as [Hin|Hout].
  - unfold providerErrorCodes in Hin. rewrite !elem_of_cons, elem_of_nil in Hin.
    destruct Hin as [->|[->|[->|[->|[->|[->|[->|[]]]]]]]];
      vm_compute; intros [= <-]; reflexivity.
  - rewrite (errorMessages_other c Hout). discriminate.
Qed.

(** X21: [getErrorMessage] never returns the empty string: for a code that
    is the name of a property of [Object.prototype] it returns the inherited
    value, and for every other code a text that is not empty. *)
Theorem getErrorMessage_nonempty (e : OAuthErrorHandler.OAuthError) :
  (OAuthErrorHandler.error e ∈ objectPrototypeNames
   ∧ OAuthErrorHandler.getErrorMessage e
     = Object (OAuthErrorHandler.error e))
  ∨ ((OAuthErrorHandler.error e ∉ objectPrototypeNames)
     ∧ ∃ text, OAuthErrorHandler.getErrorMessage e = Plain text
               ∧ text ≠ "").
Proof.
  destruct e as [c d uri st]. cbn [OAuthErrorHandler.error].
  destruct (decide (c ∈ objectPrototypeNames)) as [Hn|Hn].
  { left. split; [exact Hn|]. exact (getErrorMessage_inherited c d uri st Hn). }
  right. split; [exact Hn|].
  unfold OAuthErrorHandler.getErrorMessage.
  cbn [OAuthErrorHandler.error OAuthErrorHandler.error_description].
  destruct (OAuthErrorHandler.errorMessages !! c) as [m|] eqn:Hm.
  - rewrite (getProperty_Some _ _ _ Hm).
    pose proof (errorMessages_truthy _ _ Hm) as Ht. rewrite Ht.
    exists m. split; [reflexivity|]. intros ->. discriminate Ht.
  - rewrite (getProperty_None _ _ Hm), (bool_decide_eq_false_2 _ Hn).
    eexists. split; [reflexivity|].
    destruct d as [d|]; [destruct (truthy d) eqn:Hd|]; try discriminate.
    intros ->. discriminate Hd.
Qed.

Lemma orUndefined_nonempty (x : option string) :
  OAuthErrorHandler.orUndefined x ≠ Some "".
Proof.
  unfold OAuthErrorHandler.orUndefined.
  destruct x as [s|]; [|discriminate]. cbn [truthy_opt].
  destruct (truthy s) eqn:Hs; [|discriminate].
  intros [= ->]. discriminate Hs.
Qed.

Lemma orUndefined_keeps (s : string) :
  s ≠ "" → OAuthErrorHandler.orUndefined (Some s) = Some s.
Proof.
  intros Hs. unfold OAuthErrorHandler.orUndefined. cbn [truthy_opt].
  rewrite (truthy_nonempty s Hs). reflexivity.
Qed.

(** X22: [parseError] normalizes the callback parameters: an empty [error]
    parameter is no error; the error it returns has the non-empty value of the
    first [error] parameter as its code, none of its optional fields is the
    empty string, and a non-empty [error_description], [error_uri] or [state]
    parameter is passed on unchanged. *)
Theorem parseError_normalizes (searchParams : URLSearchParams.t) :
  (URLSearchParams.get "error" searchParams = Some "" →
   OAuthErrorHandler.parseError searchParams = None)
  ∧ ∀ e,
      OAuthErrorHandler.parseError searchParams = Some e →
      URLSearchParams.get "error" searchParams
      = Some (OAuthErrorHandler.error e)
      ∧ OAuthErrorHandler.error e ≠ ""
      ∧ OAuthErrorHandler.error_description e ≠ Some ""
      ∧ OAuthErrorHandler.error_uri e ≠ Some ""
      ∧ OAuthErrorHandler.state e ≠ Some ""
      ∧ (∀ d, d ≠ "" →
           URLSearchParams.get "error_description" searchParams = Some d →
           OAuthErrorHandler.error_description e = Some d)
      ∧ (∀ u, u ≠ "" →
           URLSearchParams.get "error_uri" searchParams = Some u →
           OAuthErrorHandler.error_uri e = Some u)
      ∧ (∀ s, s ≠ "" →
           URLSearchParams.get "state" searchParams = Some s →
           OAuthErrorHandler.state e = Some s).
Proof.
  unfold OAuthErrorHandler.parseError. split.
  - intros ->. reflexivity.
  - intros e.
    destruct (URLSearchParams.get "error" searchParams) as [c|];
      [|discriminate].
    destruct (truthy c) eqn:Hc; [|discriminate].
    intros [= <-].
    cbn [OAuthErrorHandler.error OAuthErrorHandler.error_description
         OAuthErrorHandler.error_uri OAuthErrorHandler.state].
    split; [reflexivity|]. split; [intros ->; discriminate Hc|].
    split; [apply orUndefined_nonempty|].
    split; [apply orUndefined_nonempty|].
    split; [apply orUndefined_nonempty|].
    repeat split; intros x Hx ->; apply orUndefined_keeps, Hx.
Qed.

Lemma parseError_normalizes_witness :
  let searchParams :=
    [("error", "access_denied"); ("error_description", "");
     ("state", "tok")] in
  OAuthErrorHandler.parseError searchParams
  = Some (OAuthErrorHandler.mkError "access_denied" None None (Some "tok"))
  ∧ OAuthErrorHandler.error_description
      (OAuthErrorHandler.mkError "access_denied" None None (Some "tok"))
    ≠ Some ""
  ∧ OAuthErrorHandler.state
      (OAuthErrorHandler.mkError "access_denied" None None (Some "tok"))
    = Some "tok"
  ∧ OAuthErrorHandler.parseError [("error", ""); ("state", "tok")] = None.
Proof.
  cbv zeta.
  destruct (parseError_normalizes
              [("error", "access_denied"); ("error_description", "");
               ("state", "tok")])
    as [_ Hsome].
  destruct (Hsome (OAuthErrorHandler.mkError "access_denied" None None
                     (Some "tok")) eq_refl)
    as (_ & _ & Hd & _ & _ & _ & _ & Hs).
  split; [reflexivity|]. split; [exact Hd|].
  split; [apply (Hs "tok"); [discriminate | reflexivity]|].
  apply (proj1 (parseError_normalizes [("error", ""); ("state", "tok")])).
  reflexivity.
Defined.

(* ====================================================================== *)
(** * Properties of the platform utilities *)
(* ====================================================================== *)

(** A lookup in an object literal finds one of its entries, or falls
    through to [Object.prototype]. *)
Lemma getProperty_objectLiteral {V} (entries : list (string * V)) key :
  (key ∈ entries.*1
   ∧ ∃ v, getProperty (objectLiteral entries) key = Own v
          ∧ (key, v) ∈ entries)
  ∨ ((key ∉ entries.*1)
     ∧ getProperty (objectLiteral entries) key
       = if bool_decide (key ∈ objectPrototypeNames) then Inherited key
         else Missing).
Proof.
  destruct (decide (key ∈ entries.*1)) as [Hin|Hout].
  - left. split; [exact Hin|].
    destruct (objectLiteral_lookup_is_Some entries key Hin) as [v Hv].
    exists v. split; [exact (getProperty_Some _ _ _ Hv)|].
    exact (objectLiteral_lookup_Some entries key v Hv).
  - right. split; [exact Hout|].
    exact (getProperty_None _ _ (objectLiteral_lookup_None entries key Hout)).
Qed.

Lemma PlatformUtils_unsupported (H : Runtime) (platform : Platform) :
  platform ∉ supported H →
  let found {V} : Property V :=
    if bool_decide (platform ∈ objectPrototypeNames) then Inherited platform
    else Missing in
  getProperty (PlatformUtils.names H) platform = found
  ∧ getProperty (PlatformUtils.icons H) platform = found
  ∧ getProperty (PlatformUtils.colors H) platform = found
  ∧ getProperty (PlatformUtils.limits H) platform = found.
Proof.
  intros Hp. cbv zeta.
  repeat split; apply getProperty_None, objectLiteral_lookup_None; exact Hp.
Qed.

(** X23: for an identifier outside the six platforms every utility falls
    back: the display name is the identifier itself, the icon is ["default"],
    the colour is ["#6B7280"] and the character limit is 280.  The names of
    the properties of [Object.prototype] are the exception: for them every
    utility returns the inherited value, which is neither a string nor a
    number. *)
Theorem PlatformUtils_fallbacks (H : Runtime) (platform : Platform) :
  platform ∉ supported H →
  (platform ∉ objectPrototypeNames →
   PlatformUtils.getDisplayName H platform = Plain platform
   ∧ PlatformUtils.getIcon H platform = Plain "default"
   ∧ PlatformUtils.getColor H platform = Plain "#6B7280"
   ∧ PlatformUtils.getCharacterLimit H platform = Plain 280%N)
  ∧ (platform ∈ objectPrototypeNames →
     PlatformUtils.getDisplayName H platform = Object platform
     ∧ PlatformUtils.getIcon H platform = Object platform
     ∧ PlatformUtils.getColor H platform = Object platform
     ∧ PlatformUtils.getCharacterLimit H platform = Object platform).
Proof.
  intros Hp.
  destruct (PlatformUtils_unsupported H platform Hp) as (Hn & Hi & Hc & Hl).
  unfold PlatformUtils.getDisplayName, PlatformUtils.getIcon,
    PlatformUtils.getColor, PlatformUtils.getCharacterLimit.
  rewrite Hn, Hi, Hc, Hl.
  split; intros Hin;
    [rewrite !(bool_decide_eq_false_2 _ Hin)
    |rewrite !(bool_decide_eq_true_2 _ Hin)]; repeat split.
Qed.

Lemma PlatformUtils_fallbacks_witness :
  ("mastodon" ∉ supported sampleRuntime)
  ∧ ("mastodon" ∉ objectPrototypeNames)
  ∧ PlatformUtils.getDisplayName sampleRuntime "mastodon" = Plain "mastodon"
  ∧ PlatformUtils.getIcon sampleRuntime "mastodon" = Plain "default"
  ∧ PlatformUtils.getColor sampleRuntime "mastodon" = Plain "#6B7280"
  ∧ PlatformUtils.getCharacterLimit sampleRuntime "mastodon" = Plain 280%N
  ∧ ("valueOf" ∉ supported sampleRuntime)
  ∧ ("valueOf" ∈ objectPrototypeNames)
  ∧ PlatformUtils.getDisplayName sampleRuntime "valueOf" = Object "valueOf"
  ∧ PlatformUtils.getIcon sampleRuntime "valueOf" = Object "valueOf"
  ∧ PlatformUtils.getColor sampleRuntime "valueOf" = Object "valueOf"
  ∧ PlatformUtils.getCharacterLimit sampleRuntime "valueOf"
    = Object "valueOf".
Proof.
  assert (Hp : "mastodon" ∉ supported sampleRuntime)
    by (apply (bool_decide_unpack _); vm_compute; exact I).
  assert (Hn : "mastodon" ∉ objectPrototypeNames)
    by (apply (bool_decide_unpack _); vm_compute; exact I).
  assert (Hp' : "valueOf" ∉ supported sampleRuntime)
    by (apply (bool_decide_unpack _); vm_compute; exact I).
  assert (Hn' : "valueOf" ∈ objectPrototypeNames)
    by (apply (bool_decide_unpack _); vm_compute; exact I).
  split; [exact Hp|]. split; [exact Hn|].
  destruct (proj1 (PlatformUtils_fallbacks sampleRuntime "mastodon" Hp) Hn)
    as (H1 & H2 & H3 & H4).
  destruct (proj2 (PlatformUtils_fallbacks sampleRuntime "valueOf" Hp') Hn')
    as (H5 & H6 & H7 & H8).
  repeat split; assumption.
Defined.

(** X24: for every identifier that is one of the six platforms or is not
    the name of a property of [Object.prototype], the character limit lies
    between 280 (twitter's, and the fallback) and 63206, the colour is a [#]
    followed by six hexadecimal digits, the icon name is not empty, and the
    display name is empty only for the empty identifier. *)
Theorem PlatformUtils_ranges (H : Runtime) (platform : Platform) :
  platform ∈ supported H ∨ platform ∉ objectPrototypeNames →
  ∃ limit color icon name,
    PlatformUtils.getCharacterLimit H platform = Plain limit
    ∧ (280 ≤ limit ≤ 63206)%N
    ∧ PlatformUtils.getColor H platform = Plain color
    ∧ isHexColor color = true
    ∧ PlatformUtils.getIcon H platform = Plain icon
    ∧ icon ≠ ""
    ∧ PlatformUtils.getDisplayName H platform = Plain name
    ∧ (platform ≠ "" → name ≠ "").
Proof.
  intros Hcase.
  destruct (decide (platform ∈ supported H)) as [Hin|Hout].
  - clear Hcase.
    unfold PlatformUtils.getDisplayName, PlatformUtils.getIcon,
      PlatformUtils.getColor, PlatformUtils.getCharacterLimit,
      PlatformUtils.names, PlatformUtils.icons, PlatformUtils.colors,
      PlatformUtils.limits.
    repeat match goal with
    | |- context [getProperty (objectLiteral ?entries) platform] =>
        let v := fresh "v" in
        let Hv := fresh "Hv" in
        let Hm := fresh "Hm" in
        destruct (getProperty_objectLiteral entries platform)
          as [(_ & v & Hv & Hm)|(Hno & _)]; [|contradiction];
        rewrite Hv; clear Hv;
        rewrite !elem_of_cons, elem_of_nil in Hm
    end.
    repeat match goal with
    | Hm : _ ∨ _ |- _ => destruct Hm as [Hm|Hm]
    | Hm : (_, _) = (_, _) |- _ => injection Hm as _ ->
    | Hm : False |- _ => destruct Hm
    end;
      eexists _, _, _, _;
      (split; [reflexivity|]); (split; [split; discriminate|]);
      (split; [reflexivity|]); (split; [reflexivity|]);
      (split; [reflexivity|]); (split; [discriminate|]);
      (split; [reflexivity|]); intros _; discriminate.
  - destruct Hcase as [Hin|Hn]; [contradiction|].
    destruct (PlatformUtils_unsupported H platform Hout)
      as (Hnames & Hi & Hc & Hl).
    unfold PlatformUtils.getDisplayName, PlatformUtils.getIcon,
      PlatformUtils.getColor, PlatformUtils.getCharacterLimit.
    rewrite Hnames, Hi, Hc, Hl. rewrite !(bool_decide_eq_false_2 _ Hn).
    eexists _, _, _, _.
    split; [reflexivity|]. split; [split; discriminate|].
    split; [reflexivity|]. split; [reflexivity|].
    split; [reflexivity|]. split; [discriminate|].
    split; [reflexivity|]. intros Hne; exact Hne.
Qed.

Lemma PlatformUtils_ranges_witness :
  ("facebook" ∈ supported sampleRuntime
   ∨ "facebook" ∉ objectPrototypeNames)
  ∧ ("mastodon" ∈ supported sampleRuntime
     ∨ "mastodon" ∉ objectPrototypeNames)
  ∧ PlatformUtils.getCharacterLimit sampleRuntime "facebook" = Plain 63206%N
  ∧ ∃ color,
      PlatformUtils.getColor sampleRuntime "mastodon" = Plain color
      ∧ isHexColor color = true.
Proof.
  assert (Hf : "facebook" ∈ supported sampleRuntime
               ∨ "facebook" ∉ objectPrototypeNames)
    by (left; apply (bool_decide_unpack _); vm_compute; exact I).
  assert (Hm : "mastodon" ∈ supported sampleRuntime
               ∨ "mastodon" ∉ objectPrototypeNames)
    by (right; apply (bool_decide_unpack _); vm_compute; exact I).
  split; [exact Hf|]. split; [exact Hm|].
  destruct (PlatformUtils_ranges sampleRuntime "facebook" Hf)
    as (limit & _ & _ & _ & Hlimit & _).
  destruct (PlatformUtils_ranges sampleRuntime "mastodon" Hm)
    as (_ & color & _ & _ & _ & _ & Hcolor & Hhex & _).
  split; [vm_compute; reflexivity|].
  exists color. split; [exact Hcolor | exact Hhex].
Defined.

(* ====================================================================== *)
(** * The callback page *)
(* ====================================================================== *)

(** One run of the effect in a browser, as a decision over the address and
    the store. *)
Lemma effect_browser H page w b :
  window w = Some b →
  AuthCallbackPage.effect H page w =
  match OAuthErrorHandler.parseError (pageParams b) with
  | Some e =>
      (Normal (AuthCallbackPage.failed page
                 (OAuthErrorHandler.getErrorMessage e), None), w)
  | None =>
      match URLSearchParams.get "code" (pageParams b),
            URLSearchParams.get "state" (pageParams b) with
      | Some code, Some state =>
          if negb (truthy code) || negb (truthy state) then
            (Normal (AuthCallbackPage.failed page
                       (Plain "Missing authorization code or state parameter"),
                     None), w)
          else if bool_decide (sessionStorage b !! OAuthStateManager.STATE_KEY
                               = Some state) then
            match sessionStorage b !! OAuthStateManager.PLATFORM_KEY with
            | Some p =>
                if truthy p then
                  (Normal (connecting H page p,
                           Some (ConnectRequest.mk p code
                                   (origin b +:+ "/auth/callback"))),
                   setWindow (setStorage clearedStorage b) w)
                else
                  (Normal (AuthCallbackPage.failed page
                             (Plain "Platform information not found"), None),
                   setWindow (setStorage clearedStorage b) w)
            | None =>
                (Normal (AuthCallbackPage.failed page
                           (Plain "Platform information not found"), None),
                 setWindow (setStorage clearedStorage b) w)
            end
          else
            (Normal (AuthCallbackPage.failed page
                       (Plain
                          "Invalid OAuth state. This may be a security issue."),
                     None), w)
      | _, _ =>
          (Normal (AuthCallbackPage.failed page
                     (Plain "Missing authorization code or state parameter"),
                   None), w)
      end
  end.
Proof.
  intros Hw.
  unfold AuthCallbackPage.effect, bind at 1, windowUndefined. rewrite Hw.
  cbn [bool_decide decide_rel]. 
  rewrite bool_decide_eq_false_2 by discriminate.
  unfold AuthCallbackPage.handleCallback, tryCatch at 1, bind at 1,
    AuthCallbackPage.locationSearch. rewrite Hw. fold (pageParams b).
  destruct (OAuthErrorHandler.parseError (pageParams b)) as [e|];
    [reflexivity|].
  destruct (URLSearchParams.get "code" (pageParams b)) as [code|];
    [|reflexivity].
  destruct (URLSearchParams.get "state" (pageParams b)) as [state|];
    [|reflexivity].
  destruct (truthy code) eqn:Hcode; [|reflexivity].
  destruct (truthy state) eqn:Hstate; [|reflexivity].
  cbn [negb orb]. unfold bind at 1.
  rewrite handleCallback_unfold, (validateState_browser w b Hw).
  cbn zeta. cbn [OAuthStateManager.isValid OAuthStateManager.platform
                 OAuthStateManager.redirectTo].
  rewrite Hcode. cbn [negb].
  destruct (bool_decide (sessionStorage b !! OAuthStateManager.STATE_KEY
                         = Some state)); cbn [negb]; [|reflexivity].
  cbn [OAuthFlowManager.success OAuthFlowManager.platform negb].
  destruct (sessionStorage b !! OAuthStateManager.PLATFORM_KEY) as [p|];
    [|reflexivity].
  destruct (truthy p); [|reflexivity].
  unfold tryCatch, bind, OAuthFlowManager.locationOrigin, setWindow.
  cbn [window]. reflexivity.
Qed.

Lemma splitFirst_absent sep s :
  occurs sep s = false → URLSearchParams.splitFirst sep s = (s, "").
Proof.
  induction s as [|x s IH]; [reflexivity|].
  cbn [occurs URLSearchParams.splitFirst].
  intros [Hx Hs]%orb_false_elim. rewrite Hx, (IH Hs). reflexivity.
Qed.

Lemma toString_no_hash (params : URLSearchParams.t) :
  occurs "#" (URLSearchParams.toString params) = false.
Proof.
  assert (Hpair : ∀ p, occurs "#" (URLSearchParams.encodePair p) = false).
  { intros p. unfold URLSearchParams.encodePair. rewrite !occurs_append.
    destruct (encode_separators (fst p)) as (_ & _ & ->).
    destruct (encode_separators (snd p)) as (_ & _ & ->). reflexivity. }
  induction params as [|p [|q params] IH]; [reflexivity | apply Hpair |].
  change (URLSearchParams.toString (p :: q :: params))
    with (URLSearchParams.encodePair p
          +:+ String "&" (URLSearchParams.toString (q :: params))).
  rewrite occurs_append, Hpair. cbn [occurs]. rewrite IH. reflexivity.
Qed.

Lemma newURLSearchParams_query (query : string) :
  AuthCallbackPage.newURLSearchParams
    (if String.eqb query "" then "" else "?" +:+ query)
  = URLSearchParams.parse query.
Proof. destruct query; reflexivity. Qed.

(** X25: a callback address read by the page gives back the parameters that
    were serialized into it, with or without a fragment after the query (some
    providers append one), provided the part before the query contains
    neither [?] nor [#]. *)
Theorem callback_address_roundtrip (base fragment : string)
    (params : URLSearchParams.t) :
  occurs "?" base = false →
  occurs "#" base = false →
  AuthCallbackPage.newURLSearchParams
    (AuthCallbackPage.searchOf
       (base +:+ "?" +:+ URLSearchParams.toString params))
  = params
  ∧ AuthCallbackPage.newURLSearchParams
      (AuthCallbackPage.searchOf
         (base +:+ "?" +:+ URLSearchParams.toString params
          +:+ "#" +:+ fragment))
    = params.
Proof.
  intros Hq Hh.
  assert (Hno : occurs "#" (base +:+ String "?" (URLSearchParams.toString params))
                = false).
  { rewrite occurs_append, Hh. cbn [occurs]. rewrite toString_no_hash.
    reflexivity. }
  unfold AuthCallbackPage.searchOf. split.
  - change (base +:+ "?" +:+ URLSearchParams.toString params)
      with (base +:+ String "?" (URLSearchParams.toString params)).
    rewrite (splitFirst_absent _ _ Hno). cbn [fst].
    rewrite (splitFirst_append _ _ _ Hq). cbn [snd].
    rewrite newURLSearchParams_query. apply parse_toString.
  - replace (base +:+ "?" +:+ URLSearchParams.toString params
             +:+ "#" +:+ fragment)
      with ((base +:+ String "?" (URLSearchParams.toString params))
            +:+ String "#" fragment).
    2:{ rewrite !append_assoc. reflexivity. }
    rewrite (splitFirst_append _ _ _ Hno). cbn [fst].
    rewrite (splitFirst_append _ _ _ Hq). cbn [snd].
    rewrite newURLSearchParams_query. apply parse_toString.
Qed.

Lemma callback_address_roundtrip_witness :
  occurs "?" "https://app.example/auth/callback" = false
  ∧ occurs "#" "https://app.example/auth/callback" = false
  ∧ AuthCallbackPage.newURLSearchParams
      (AuthCallbackPage.searchOf
         "https://app.example/auth/callback?code=4%2F0AbCd&state=tok#_=_")
    = [("code", "4/0AbCd"); ("state", "tok")].
Proof.
  split; [reflexivity|]. split; [reflexivity|].
  exact (proj2 (callback_address_roundtrip
                  "https://app.example/auth/callback" "_=_"
                  [("code", "4/0AbCd"); ("state", "tok")]
                  eq_refl eq_refl)).
Defined.

(** X26: an error reported by the provider is handled first: the page shows
    what [getErrorMessage] returned for it and stops, without looking at
    [code] and [state]; no request is made and the stored session is left as
    it is.  What is shown is the translation of the code, or, for a code that
    is the name of a property of [Object.prototype], the inherited value
    handed to [setMessage]. *)
Theorem provider_error_takes_precedence (H : Runtime) page w b e :
  window w = Some b →
  OAuthErrorHandler.parseError (pageParams b) = Some e →
  AuthCallbackPage.effect H page w
  = (Normal (AuthCallbackPage.mkPage AuthCallbackPage.error
               (OAuthErrorHandler.getErrorMessage e)
               (AuthCallbackPage.platform page),
             None),
     w).
Proof.
  intros Hw He. rewrite (effect_browser H page w b Hw), He. reflexivity.
Qed.

(** X27: without a provider error, a callback whose [code] or [state] is
    absent or empty is refused with "Missing authorization code or state
    parameter": the store is not consulted and nothing changes. *)
Theorem missing_parameters_refused (H : Runtime) page w b :
  window w = Some b →
  OAuthErrorHandler.parseError (pageParams b) = None →
  URLSearchParams.get "code" (pageParams b) ∈ [None; Some ""]
  ∨ URLSearchParams.get "state" (pageParams b) ∈ [None; Some ""] →
  AuthCallbackPage.effect H page w
  = (Normal (AuthCallbackPage.mkPage AuthCallbackPage.error
               (Plain "Missing authorization code or state parameter")
               (AuthCallbackPage.platform page),
             None),
     w).
Proof.
  intros Hw He Hmissing. rewrite (effect_browser H page w b Hw), He.
  rewrite !elem_of_cons, !elem_of_nil in Hmissing.
  destruct Hmissing as [[->|[->|[]]]|[->|[->|[]]]].
  - reflexivity.
  - destruct (URLSearchParams.get "state" (pageParams b)); reflexivity.
  - destruct (URLSearchParams.get "code" (pageParams b)); reflexivity.
  - destruct (URLSearchParams.get "code" (pageParams b)) as [code|];
      [destruct (truthy code)|]; reflexivity.
Qed.

Lemma provider_error_takes_precedence_witness :
  let url := "https://app.example/auth/callback?error=access_denied&code=4%2F0AbCd&state=tok" in
  let url' := "https://app.example/auth/callback?error=constructor&error_description=denied" in
  window (pendingTab url) = Some (pendingBrowser url)
  ∧ OAuthErrorHandler.parseError (pageParams (pendingBrowser url))
    = Some (OAuthErrorHandler.mkError "access_denied" None None (Some "tok"))
  ∧ AuthCallbackPage.effect sampleRuntime AuthCallbackPage.initialPage
      (pendingTab url)
    = (Normal (AuthCallbackPage.mkPage AuthCallbackPage.error
                 (Plain "You denied access to your account. Please try again if you want to connect this platform.")
                 None,
               None),
       pendingTab url)
  ∧ window (pendingTab url') = Some (pendingBrowser url')
  ∧ OAuthErrorHandler.parseError (pageParams (pendingBrowser url'))
    = Some (OAuthErrorHandler.mkError "constructor" (Some "denied") None None)
  ∧ AuthCallbackPage.effect sampleRuntime AuthCallbackPage.initialPage
      (pendingTab url')
    = (Normal (AuthCallbackPage.mkPage AuthCallbackPage.error
                 (Object "constructor") None,
               None),
       pendingTab url').
Proof.
  cbv zeta.
  split; [reflexivity|]. split; [vm_compute; reflexivity|].
  split.
  { apply (provider_error_takes_precedence sampleRuntime
             AuthCallbackPage.initialPage
             (pendingTab "https://app.example/auth/callback?error=access_denied&code=4%2F0AbCd&state=tok")
             (pendingBrowser "https://app.example/auth/callback?error=access_denied&code=4%2F0AbCd&state=tok")
             (OAuthErrorHandler.mkError "access_denied" None None
                (Some "tok")));
      [reflexivity | vm_compute; reflexivity]. }
  split; [reflexivity|]. split; [vm_compute; reflexivity|].
  apply (provider_error_takes_precedence sampleRuntime
           AuthCallbackPage.initialPage
           (pendingTab "https://app.example/auth/callback?error=constructor&error_description=denied")
           (pendingBrowser "https://app.example/auth/callback?error=constructor&error_description=denied")
           (OAuthErrorHandler.mkError "constructor" (Some "denied") None
              None));
    [reflexivity | vm_compute; reflexivity].
Defined.

Lemma missing_parameters_refused_witness :
  let url := "https://app.example/auth/callback?state=tok" in
  window (pendingTab url) = Some (pendingBrowser url)
  ∧ OAuthErrorHandler.parseError (pageParams (pendingBrowser url)) = None
  ∧ (URLSearchParams.get "code" (pageParams (pendingBrowser url))
     ∈ [None; Some ""])
  ∧ AuthCallbackPage.effect sampleRuntime AuthCallbackPage.initialPage
      (pendingTab url)
    = (Normal (AuthCallbackPage.mkPage AuthCallbackPage.error
                 (Plain "Missing authorization code or state parameter") None,
               None),
       pendingTab url).
Proof.
  cbv zeta.
  assert (Hcode : URLSearchParams.get "code"
                    (pageParams (pendingBrowser
                                   "https://app.example/auth/callback?state=tok"))
                  ∈ [None; Some ""])
    by (apply (bool_decide_unpack _); vm_compute; exact I).
  split; [reflexivity|]. split; [vm_compute; reflexivity|].
  split; [exact Hcode|].
  apply (missing_parameters_refused sampleRuntime AuthCallbackPage.initialPage
           (pendingTab "https://app.example/auth/callback?state=tok")
           (pendingBrowser "https://app.example/auth/callback?state=tok"));
    [reflexivity | vm_compute; reflexivity | left; exact Hcode].
Defined.

(** What a run of the effect that hands a request to the linking mutation
    looked like. *)
Lemma effect_request H page w page' req w' :
  AuthCallbackPage.effect H page w = (Normal (page', Some req), w') →
  ∃ b code state,
    window w = Some b
    ∧ OAuthErrorHandler.parseError (pageParams b) = None
    ∧ URLSearchParams.get "code" (pageParams b) = Some code
    ∧ truthy code = true
    ∧ URLSearchParams.get "state" (pageParams b) = Some state
    ∧ truthy state = true
    ∧ sessionStorage b !! OAuthStateManager.STATE_KEY = Some state
    ∧ sessionStorage b !! OAuthStateManager.PLATFORM_KEY
      = Some (ConnectRequest.platform req)
    ∧ req = ConnectRequest.mk (ConnectRequest.platform req) code
              (origin b +:+ "/auth/callback")
    ∧ page' = connecting H page (ConnectRequest.platform req)
    ∧ w' = setWindow (setStorage clearedStorage b) w.
Proof.
  destruct (window w) as [b|] eqn:Hw.
  - rewrite (effect_browser H page w b Hw).
    destruct (OAuthErrorHandler.parseError (pageParams b)) as [e|] eqn:He;
      [discriminate|].
    destruct (URLSearchParams.get "code" (pageParams b)) as [code|] eqn:Hc;
      [|discriminate].
    destruct (URLSearchParams.get "state" (pageParams b)) as [state|] eqn:Hs;
      [|discriminate].
    destruct (truthy code) eqn:Hcode; [|discriminate].
    destruct (truthy state) eqn:Hstate; [|discriminate].
    cbn [negb orb].
    destruct (bool_decide _) eqn:Hst; [|discriminate].
    apply bool_decide_eq_true_1 in Hst.
    destruct (sessionStorage b !! OAuthStateManager.PLATFORM_KEY) as [p|]
      eqn:Hp; [|discriminate].
    destruct (truthy p); [|discriminate].
    intros [= <- <- <-]. exists b, code, state.
    repeat split; first [assumption | reflexivity].
  - destruct w as [win e r d]; cbn in Hw; subst win. discriminate.
Qed.

(** X28: the page hands a request to the account-linking mutation only for a
    callback that matches the stored session: the address carries no provider
    error, a non-empty [code] and a [state] equal to the stored token; the
    request consists of the stored platform, that code and
    [origin + "/auth/callback"]; and the session has been consumed. *)
Theorem connect_request_sound (H : Runtime) page w page' req w' :
  AuthCallbackPage.effect H page w = (Normal (page', Some req), w') →
  ∃ b code state,
    window w = Some b
    ∧ OAuthErrorHandler.parseError (pageParams b) = None
    ∧ URLSearchParams.get "code" (pageParams b) = Some code
    ∧ code ≠ ""
    ∧ URLSearchParams.get "state" (pageParams b) = Some state
    ∧ sessionStorage b !! OAuthStateManager.STATE_KEY = Some state
    ∧ sessionStorage b !! OAuthStateManager.PLATFORM_KEY
      = Some (ConnectRequest.platform req)
    ∧ ConnectRequest.authorization_code req = code
    ∧ ConnectRequest.redirect_uri req = origin b +:+ "/auth/callback"
    ∧ AuthCallbackPage.platform page' = Some (ConnectRequest.platform req)
    ∧ storageOf w' = clearedStorage (sessionStorage b).
Proof.
  intros Hrun.
  destruct (effect_request H page w page' req w' Hrun)
    as (b & code & state & Hw & He & Hc & Hct & Hs & _ & Hst & Hp & Hreq
        & Hpage & Hw').
  exists b, code, state.
  split; [exact Hw|]. split; [exact He|]. split; [exact Hc|].
  split; [intros ->; discriminate Hct|]. split; [exact Hs|].
  split; [exact Hst|]. split; [exact Hp|].
  split; [rewrite Hreq; reflexivity|]. split; [rewrite Hreq; reflexivity|].
  split; [rewrite Hpage; reflexivity|].
  rewrite Hw'. reflexivity.
Qed.

Lemma connect_request_sound_witness :
  let url := "https://app.example/auth/callback?code=4%2F0AbCd&state=tok" in
  let req := ConnectRequest.mk "twitter" "4/0AbCd"
               "https://app.example/auth/callback" in
  let w' := snd (AuthCallbackPage.effect sampleRuntime
                   AuthCallbackPage.initialPage (pendingTab url)) in
  AuthCallbackPage.effect sampleRuntime AuthCallbackPage.initialPage
    (pendingTab url)
  = (Normal (connecting sampleRuntime AuthCallbackPage.initialPage "twitter",
             Some req), w')
  ∧ ∃ b code state,
      window (pendingTab url) = Some b
      ∧ OAuthErrorHandler.parseError (pageParams b) = None
      ∧ URLSearchParams.get "code" (pageParams b) = Some code
      ∧ code ≠ ""
      ∧ URLSearchParams.get "state" (pageParams b) = Some state
      ∧ sessionStorage b !! OAuthStateManager.STATE_KEY = Some state
      ∧ sessionStorage b !! OAuthStateManager.PLATFORM_KEY
        = Some (ConnectRequest.platform req)
      ∧ ConnectRequest.authorization_code req = code
      ∧ ConnectRequest.redirect_uri req = origin b +:+ "/auth/callback"
      ∧ AuthCallbackPage.platform
          (connecting sampleRuntime AuthCallbackPage.initialPage "twitter")
        = Some (ConnectRequest.platform req)
      ∧ storageOf w' = clearedStorage (sessionStorage b).
Proof.
  cbv zeta.
  split; [vm_compute; reflexivity|].
  apply (connect_request_sound sampleRuntime AuthCallbackPage.initialPage
           (pendingTab "https://app.example/auth/callback?code=4%2F0AbCd&state=tok")
           (connecting sampleRuntime AuthCallbackPage.initialPage "twitter")
           (ConnectRequest.mk "twitter" "4/0AbCd"
              "https://app.example/auth/callback")).
  vm_compute; reflexivity.
Defined.

(** X29: the effect is not repeatable: once a run has handed a request to the
    linking mutation, another run on the same address finds the session gone
    and reports "Invalid OAuth state. This may be a security issue.", with no
    request. *)
Theorem effect_rerun_rejected (H : Runtime) page page2 w page' req w' :
  AuthCallbackPage.effect H page w = (Normal (page', Some req), w') →
  AuthCallbackPage.effect H page2 w'
  = (Normal (AuthCallbackPage.mkPage AuthCallbackPage.error
               (Plain "Invalid OAuth state. This may be a security issue.")
               (AuthCallbackPage.platform page2),
             None),
     w').
Proof.
  intros Hrun.
  destruct (effect_request H page w page' req w' Hrun)
    as (b & code & state & Hw & He & Hc & Hct & Hs & Hstt & _ & _ & _ & _
        & Hw').
  assert (Hwin : window w' = Some (setStorage clearedStorage b))
    by (rewrite Hw'; reflexivity).
  rewrite (effect_browser H page2 w' _ Hwin).
  change (pageParams (setStorage clearedStorage b)) with (pageParams b).
  rewrite He, Hc, Hs, Hct, Hstt. cbn [negb orb setStorage sessionStorage].
  rewrite clearedStorage_lookup by set_solver.
  rewrite bool_decide_eq_false_2 by discriminate. reflexivity.
Qed.

Lemma effect_rerun_rejected_witness :
  let url := "https://app.example/auth/callback?code=4%2F0AbCd&state=tok" in
  let first := AuthCallbackPage.effect sampleRuntime
                 AuthCallbackPage.initialPage (pendingTab url) in
  first
  = (Normal (connecting sampleRuntime AuthCallbackPage.initialPage "twitter",
             Some (ConnectRequest.mk "twitter" "4/0AbCd"
                     "https://app.example/auth/callback")),
     snd first)
  ∧ AuthCallbackPage.effect sampleRuntime
      (connecting sampleRuntime AuthCallbackPage.initialPage "twitter")
      (snd first)
    = (Normal (AuthCallbackPage.mkPage AuthCallbackPage.error
                 (Plain "Invalid OAuth state. This may be a security issue.")
                 (Some "twitter"),
               None),
       snd first).
Proof.
  cbv zeta.
  split; [vm_compute; reflexivity|].
  apply (effect_rerun_rejected sampleRuntime AuthCallbackPage.initialPage
           (connecting sampleRuntime AuthCallbackPage.initialPage "twitter")
           (pendingTab "https://app.example/auth/callback?code=4%2F0AbCd&state=tok")
           (connecting sampleRuntime AuthCallbackPage.initialPage "twitter")
           (ConnectRequest.mk "twitter" "4/0AbCd"
              "https://app.example/auth/callback")).
  vm_compute; reflexivity.
Defined.

(** X30: the whole flow: after a successful [initiateFlow] for a platform
    whose identifier is not empty, with a non-empty token, when the browser
    comes back to an address that carries no provider error, a non-empty
    [code] and the token as [state], the first run of the page effect asks to
    link the platform the flow was started for, with that code and with the
    very [redirect_uri] that was sent to the provider. *)
Theorem callback_page_completes_flow (H : Runtime) w b (platform : Platform)
    (redirectTo : option string) (clientId : Value string)
    (code callbackUrl : string) :
  window w = Some b →
  platform ∈ supported H →
  platform ≠ "" →
  fst (OAuthFlowManager.getClientId H platform w) = Normal clientId →
  stateToken w ≠ "" →
  code ≠ "" →
  let params :=
    AuthCallbackPage.newURLSearchParams
      (AuthCallbackPage.searchOf callbackUrl) in
  OAuthErrorHandler.parseError params = None →
  URLSearchParams.get "code" params = Some code →
  URLSearchParams.get "state" params = Some (stateToken w) →
  ∃ w1 b1 redirect,
    OAuthFlowManager.initiateFlow H platform redirectTo w = (Normal tt, w1)
    ∧ window w1 = Some b1
    ∧ URLSearchParams.get "redirect_uri" (URLSearchParams.ofUrl (href b1))
      = Some redirect
    ∧ fst (AuthCallbackPage.effect H AuthCallbackPage.initialPage
             (landOn callbackUrl w1))
      = Normal (AuthCallbackPage.mkPage AuthCallbackPage.loading
                  (Plain ("Connecting "
                          +:+ textOf H (PlatformUtils.getDisplayName H platform)
                          +:+ "..."))
                  (Some platform),
                Some (ConnectRequest.mk platform code redirect)).
Proof.
  intros Hw Hin Hne Hcid Htok Hcode params He Hc Hs.
  destruct (initiateFlow_success H w b platform redirectTo clientId Hw Hin
              Hcid)
    as (pc & extra & n & url & Hpc & Hrun & Hparams).
  eexists _, _, (origin b +:+ "/auth/callback").
  split; [exact Hrun|]. split; [reflexivity|]. split.
  - cbn [href]. rewrite Hparams. reflexivity.
  - erewrite effect_browser by reflexivity.
    unfold pageParams. cbn [href sessionStorage origin]. fold params.
    rewrite He, Hc, Hs, (truthy_nonempty code Hcode),
      (truthy_nonempty _ Htok).
    cbn [negb orb].
    rewrite savedStorage_state, savedStorage_platform.
    rewrite bool_decide_eq_true_2 by reflexivity.
    rewrite (truthy_nonempty platform Hne). reflexivity.
Qed.

Lemma callback_page_completes_flow_witness :
  let url := "https://app.example/auth/callback?code=4%2F0AbCd&state=4fzyo82mvyrk3j9x1qz0ab#_=_" in
  window freshTab
  = Some (mkBrowser "https://app.example" ∅ "https://app.example/")
  ∧ ("twitter" ∈ supported sampleRuntime)
  ∧ "twitter" ≠ ""
  ∧ fst (OAuthFlowManager.getClientId sampleRuntime "twitter" freshTab)
    = Normal (Plain "twitter-client")
  ∧ stateToken freshTab ≠ ""
  ∧ "4/0AbCd" ≠ ""
  ∧ AuthCallbackPage.newURLSearchParams (AuthCallbackPage.searchOf url)
    = [("code", "4/0AbCd"); ("state", "4fzyo82mvyrk3j9x1qz0ab")]
  ∧ ∃ w1 b1 redirect,
      OAuthFlowManager.initiateFlow sampleRuntime "twitter"
        (Some "/dashboard") freshTab
      = (Normal tt, w1)
      ∧ window w1 = Some b1
      ∧ URLSearchParams.get "redirect_uri" (URLSearchParams.ofUrl (href b1))
        = Some redirect
      ∧ fst (AuthCallbackPage.effect sampleRuntime
               AuthCallbackPage.initialPage (landOn url w1))
        = Normal (AuthCallbackPage.mkPage AuthCallbackPage.loading
                    (Plain "Connecting Twitter...") (Some "twitter"),
                  Some (ConnectRequest.mk "twitter" "4/0AbCd" redirect)).
Proof.
  cbv zeta.
  assert (Hin : "twitter" ∈ supported sampleRuntime)
    by (apply (bool_decide_unpack _); vm_compute; exact I).
  split; [reflexivity|]. split; [exact Hin|]. split; [discriminate|].
  split; [vm_compute; reflexivity|].
  split; [vm_compute; discriminate|]. split; [discriminate|].
  split; [vm_compute; reflexivity|].
  apply (callback_page_completes_flow sampleRuntime freshTab
           (mkBrowser "https://app.example" ∅ "https://app.example/")
           "twitter" (Some "/dashboard") (Plain "twitter-client") "4/0AbCd"
           "https://app.example/auth/callback?code=4%2F0AbCd&state=4fzyo82mvyrk3j9x1qz0ab#_=_"
           eq_refl Hin);
    [discriminate | vm_compute; reflexivity | vm_compute; discriminate
    | discriminate | vm_compute; reflexivity | vm_compute; reflexivity
    | vm_compute; reflexivity].
Defined.

(* ====================================================================== *)
(** * The text of the authorization URL *)
(* ====================================================================== *)

Lemma encode_serialized (s : string) :
  allChars isSerializedChar (URLSearchParams.encode s) = true.
Proof.
  destruct (encode_alphabet s) as [Hall _]. revert Hall.
  apply allChars_weaken. intros x Hx. unfold isSerializedChar.
  rewrite Hx. reflexivity.
Qed.

Lemma toString_chars (params : URLSearchParams.t) :
  allChars isSerializedChar (URLSearchParams.toString params) = true.
Proof.
  assert (Hpair : ∀ p, allChars isSerializedChar (URLSearchParams.encodePair p)
                       = true).
  { intros p. unfold URLSearchParams.encodePair.
    rewrite !allChars_append, !encode_serialized. reflexivity. }
  induction params as [|p [|q params] IH]; [reflexivity | apply Hpair |].
  change (URLSearchParams.toString (p :: q :: params))
    with (URLSearchParams.encodePair p
          +:+ String "&" (URLSearchParams.toString (q :: params))).
  rewrite allChars_append, Hpair. cbn [allChars]. rewrite IH. reflexivity.
Qed.

(** X10: whatever bytes the request contains, the URL [buildAuthUrl] returns
    for a supported platform and a request with a scope list is the
    platform's endpoint, a [?], and a query made of letters, digits and the
    characters [* - . _ + % & =] only: every other byte of the client
    identifier, redirect URI, scopes and state has been escaped. *)
Theorem buildAuthUrl_characters (H : Runtime) (platform : Platform)
    (config : OAuthConfig.t) (scopes : list string) (w : World) :
  platform ∈ supported H →
  OAuthConfig.scope config = Some scopes →
  ∃ pc query,
    getProperty (OAUTH_CONFIGS H) platform = Own pc
    ∧ fst (OAuthUrlBuilder.buildAuthUrl H platform config w)
      = Normal (PlatformConfig.authUrl pc +:+ "?" +:+ query)
    ∧ allChars isSerializedChar query = true.
Proof.
  intros Hin Hscope.
  destruct (buildAuthUrl_result H platform config scopes w Hin Hscope)
    as (pc & extra & n & Hpc & _ & Hrun & _ & _).
  eexists pc, _. split; [exact Hpc|]. split; [rewrite Hrun; reflexivity|].
  apply toString_chars.
Qed.

Lemma buildAuthUrl_characters_witness :
  let config :=
    typedConfig "id with spaces & signs" "https://app.example/auth/callback"
      ["r_liteprofile"; "w_member_social"] (Some "a=b#c") in
  ("linkedin" ∈ supported sampleRuntime)
  ∧ fst (OAuthUrlBuilder.buildAuthUrl sampleRuntime "linkedin" config
           freshTab)
    = Normal "https://www.linkedin.com/oauth/v2/authorization?client_id=id+with+spaces+%26+signs&redirect_uri=https%3A%2F%2Fapp.example%2Fauth%2Fcallback&scope=r_liteprofile+w_member_social&response_type=code&state=a%3Db%23c"
  ∧ ∃ pc query,
      getProperty (OAUTH_CONFIGS sampleRuntime) "linkedin" = Own pc
      ∧ fst (OAuthUrlBuilder.buildAuthUrl sampleRuntime "linkedin" config
               freshTab)
        = Normal (PlatformConfig.authUrl pc +:+ "?" +:+ query)
      ∧ allChars isSerializedChar query = true.
Proof.
  cbv zeta.
  assert (Hin : "linkedin" ∈ supported sampleRuntime)
    by (apply (bool_decide_unpack _); vm_compute; exact I).
  split; [exact Hin|]. split; [vm_compute; reflexivity|].
  apply (buildAuthUrl_characters sampleRuntime "linkedin"
           (typedConfig "id with spaces & signs"
              "https://app.example/auth/callback"
              ["r_liteprofile"; "w_member_social"] (Some "a=b#c"))
           ["r_liteprofile"; "w_member_social"] freshTab Hin eq_refl).
Defined.

Lemma generateCodeChallenge_chars w challenge :
  fst (OAuthUrlBuilder.generateCodeChallenge w) = Normal challenge →
  allChars isBase64UrlChar challenge = true.
Proof. intros [= <-]. apply codeChallenge_chars. Qed.

Lemma append_empty_r (s : string) : s +:+ "" = s.
Proof.
  induction s as [|x s IH]; [reflexivity|].
  rewrite append_cons, IH. reflexivity.
Qed.

(** X11: the exact text of the URL [buildAuthUrl] returns for a supported
    platform and a request with a scope list: the endpoint, then
    [client_id], [redirect_uri], [scope], [response_type=code] and [state] in
    this order, each value escaped, then the parameters of the first case of
    the [switch] that matches the platform; the twitter code challenge is put
    in as it is, and so is every value made of letters, digits and
    [* - . _]. *)
Theorem buildAuthUrl_text (H : Runtime) (platform : Platform)
    (config : OAuthConfig.t) (scopes : list string) (w : World) :
  platform ∈ supported H →
  OAuthConfig.scope config = Some scopes →
  ∃ pc suffix,
    getProperty (OAUTH_CONFIGS H) platform = Own pc
    ∧ fst (OAuthUrlBuilder.buildAuthUrl H platform config w)
      = Normal
          (PlatformConfig.authUrl pc
           +:+ "?client_id="
           +:+ URLSearchParams.encode (textOf H (OAuthConfig.clientId config))
           +:+ "&redirect_uri="
           +:+ URLSearchParams.encode (OAuthConfig.redirectUri config)
           +:+ "&scope="
           +:+ URLSearchParams.encode (String.concat " " scopes)
           +:+ "&response_type=code&state="
           +:+ URLSearchParams.encode
                 match OAuthConfig.state config with
                 | Some s => if String.eqb s "" then stateToken w else s
                 | None => stateToken w
                 end
           +:+ suffix)
    ∧ ((platform = TWITTER H ∧
        ∃ challenge,
          allChars isBase64UrlChar challenge = true
          ∧ suffix = "&code_challenge_method=S256&code_challenge="
                     +:+ challenge)
       ∨ (platform ≠ TWITTER H
          ∧ (platform = FACEBOOK H ∨ platform = INSTAGRAM H)
          ∧ suffix = "&display=popup")
       ∨ ((platform ∉ [TWITTER H; FACEBOOK H; INSTAGRAM H])
          ∧ platform = LINKEDIN H ∧ suffix = "")
       ∨ ((platform ∉ [TWITTER H; FACEBOOK H; INSTAGRAM H; LINKEDIN H])
          ∧ platform = TIKTOK H ∧ suffix = "&response_type=code")
       ∨ ((platform ∉ [TWITTER H; FACEBOOK H; INSTAGRAM H; LINKEDIN H;
                      TIKTOK H])
          ∧ platform = YOUTUBE H
          ∧ suffix = "&access_type=offline&prompt=consent"))
    ∧ ∀ s, allChars URLSearchParams.isUnreserved s = true →
           URLSearchParams.encode s = s.
Proof.
  intros Hin Hscope.
  destruct (buildAuthUrl_result H platform config scopes w Hin Hscope)
    as (pc & extra & n & Hpc & _ & Hrun & _ & Hcases).
  assert (Hstate : requestState config w
                   = match OAuthConfig.state config with
                     | Some s => if String.eqb s "" then stateToken w else s
                     | None => stateToken w
                     end).
  { unfold requestState, truthy.
    destruct (OAuthConfig.state config) as [s|]; [|reflexivity].
    destruct (String.eqb s ""); reflexivity. }
  rewrite Hrun. cbn [fst]. unfold baseParams. rewrite Hstate.
  set (st := match OAuthConfig.state config with
             | Some s => if String.eqb s "" then stateToken w else s
             | None => stateToken w
             end).
  destruct Hcases as [(Hp & ch & wc & Hch & ->)|[(Hp & Hq & ->)|[(Hp & Hq & ->)
                       |[(Hp & Hq & ->)|(Hp & Hq & ->)]]]].
  - apply generateCodeChallenge_chars in Hch.
    exists pc, ("&code_challenge_method=S256&code_challenge=" +:+ ch).
    split; [exact Hpc|]. split; [|split; [|apply encode_unreserved]].
    + f_equal. unfold URLSearchParams.toString, URLSearchParams.encodePair.
      cbn [app map String.concat fst snd].
      rewrite (encode_unreserved ch).
      2:{ revert Hch. apply allChars_weaken.
          intros [[] [] [] [] [] [] [] []]; intros Hx; try reflexivity;
            discriminate Hx. }
      rewrite !append_assoc. reflexivity.
    + left. split; [exact Hp|]. exists ch. split; [exact Hch | reflexivity].
  - exists pc, "&display=popup".
    split; [exact Hpc|]. split; [|split; [|apply encode_unreserved]].
    + f_equal; unfold URLSearchParams.toString, URLSearchParams.encodePair;
        cbn [app map String.concat fst snd];
        rewrite ?append_assoc; reflexivity.
    + right; left. auto.
  - exists pc, "".
    split; [exact Hpc|]. split; [|split; [|apply encode_unreserved]].
    + rewrite (append_empty_r (URLSearchParams.encode st)).
      f_equal; unfold URLSearchParams.toString, URLSearchParams.encodePair;
        cbn [app map String.concat fst snd];
        rewrite ?append_assoc; reflexivity.
    + do 2 right; left. auto.
  - exists pc, "&response_type=code".
    split; [exact Hpc|]. split; [|split; [|apply encode_unreserved]].
    + f_equal; unfold URLSearchParams.toString, URLSearchParams.encodePair;
        cbn [app map String.concat fst snd];
        rewrite ?append_assoc; reflexivity.
    + do 3 right; left. auto.
  - exists pc, "&access_type=offline&prompt=consent".
    split; [exact Hpc|]. split; [|split; [|apply encode_unreserved]].
    + f_equal; unfold URLSearchParams.toString, URLSearchParams.encodePair;
        cbn [app map String.concat fst snd];
        rewrite ?append_assoc; reflexivity.
    + do 4 right. auto.
Qed.

Lemma buildAuthUrl_text_witness :
  let config :=
    typedConfig "youtube-client" "https://app.example/auth/callback"
      ["https://www.googleapis.com/auth/youtube.upload";
       "https://www.googleapis.com/auth/youtube.readonly"] (Some "tok") in
  ("youtube" ∈ supported sampleRuntime)
  ∧ fst (OAuthUrlBuilder.buildAuthUrl sampleRuntime "youtube" config freshTab)
    = Normal "https://accounts.google.com/o/oauth2/v2/auth?client_id=youtube-client&redirect_uri=https%3A%2F%2Fapp.example%2Fauth%2Fcallback&scope=https%3A%2F%2Fwww.googleapis.com%2Fauth%2Fyoutube.upload+https%3A%2F%2Fwww.googleapis.com%2Fauth%2Fyoutube.readonly&response_type=code&state=tok&access_type=offline&prompt=consent"
  ∧ ∃ pc suffix,
      getProperty (OAUTH_CONFIGS sampleRuntime) "youtube" = Own pc
      ∧ fst (OAuthUrlBuilder.buildAuthUrl sampleRuntime "youtube" config
               freshTab)
        = Normal
            (PlatformConfig.authUrl pc
             +:+ "?client_id=" +:+ URLSearchParams.encode "youtube-client"
             +:+ "&redirect_uri="
             +:+ URLSearchParams.encode "https://app.example/auth/callback"
             +:+ "&scope="
             +:+ URLSearchParams.encode
                   "https://www.googleapis.com/auth/youtube.upload https://www.googleapis.com/auth/youtube.readonly"
             +:+ "&response_type=code&state=" +:+ URLSearchParams.encode "tok"
             +:+ suffix).
Proof.
  cbv zeta.
  assert (Hin : "youtube" ∈ supported sampleRuntime)
    by (apply (bool_decide_unpack _); vm_compute; exact I).
  split; [exact Hin|]. split; [vm_compute; reflexivity|].
  destruct (buildAuthUrl_text sampleRuntime "youtube"
              (typedConfig "youtube-client"
                 "https://app.example/auth/callback"
                 ["https://www.googleapis.com/auth/youtube.upload";
                  "https://www.googleapis.com/auth/youtube.readonly"]
                 (Some "tok"))
              ["https://www.googleapis.com/auth/youtube.upload";
               "https://www.googleapis.com/auth/youtube.readonly"]
              freshTab Hin eq_refl)
    as (pc & suffix & Hpc & Hurl & _).
  exists pc, suffix. split; [exact Hpc | exact Hurl].
Defined.
